(** * Idle Stuff: the tick engine, the boost handler, the SQLite persistence
    layer, the game controller, the keyboard hand-off queue and the windows
    and event log of the display, embedded from [idle_stuff_core.py] and
    [ncurses_display.py].

    Conventions of the embedding.
    - A Python [float] is an exact rational ([Q]); equality of computed
      amounts is [Qeq] ([==]), equality of stored values is Leibniz.
    - A Python [int] is a [Z]; [%] on a non-zero divisor is [Z.modulo]
      (both take the sign of the divisor).
    - A Python [dict] is an insertion-ordered association list with at most
      one entry per key ([dict_wf]).
    - Objects mutated in place are passed through explicitly; an exception
      leaves the mutations made before it in place, so a fallible method
      returns the new object together with a [Result]. *)

From Stdlib Require Import ZArith QArith Qround Lqa Lia List Ascii String Bool Permutation.
Import ListNotations.

Local Open Scope string_scope.
Local Open Scope list_scope.
Local Open Scope Z_scope.

(* ------------------------------------------------------------------------- *)
(** ** Python dictionaries *)

Definition dict (V : Type) : Type := list (string * V).

Definition dict_keys {V} (d : dict V) : list string := map fst d.

Definition dict_values {V} (d : dict V) : list V := map snd d.

Definition dict_items {V} (d : dict V) : list (string * V) := d.

(** [d.get(k)] / [d[k]] on a present key. *)
Fixpoint dict_get {V} (d : dict V) (k : string) : option V :=
  match d with
  | [] => None
  | (k', v) :: d' => if String.eqb k' k then Some v else dict_get d' k
  end.

(** [d.get(k, default)]. *)
Definition dict_get_default {V} (d : dict V) (k : string) (default : V) : V :=
  match dict_get d k with
  | Some v => v
  | None => default
  end.

(** [k in d]. *)
Definition dict_contains {V} (d : dict V) (k : string) : bool :=
  match dict_get d k with
  | Some _ => true
  | None => false
  end.

(** [d[k] = v]: overwrites in place, or appends a new last entry. *)
Fixpoint dict_set {V} (d : dict V) (k : string) (v : V) : dict V :=
  match d with
  | [] => [(k, v)]
  | (k', v') :: d' =>
      if String.eqb k' k then (k', v) :: d' else (k', v') :: dict_set d' k v
  end.

(** In-place mutation of the object stored under [k] (as in
    [d[k].field = ...]); nothing happens when [k] is absent, the callers
    test [k in d] first. *)
Fixpoint dict_modify {V} (d : dict V) (k : string) (f : V -> V) : dict V :=
  match d with
  | [] => []
  | (k', v) :: d' =>
      if String.eqb k' k then (k', f v) :: d' else (k', v) :: dict_modify d' k f
  end.

(** A loop [for v in d.values()] that mutates every value in place. *)
Definition map_values {V W} (f : V -> W) (d : dict V) : dict W :=
  map (fun kv => (fst kv, f (snd kv))) d.

(** The invariant every Python dict has: keys are pairwise distinct. *)
Definition dict_wf {V} (d : dict V) : Prop := NoDup (dict_keys d).

(** Same keys, and the values under each key related by [R].  With [R] the
    equality of the values this is Python's [==] on dicts, which ignores
    insertion order. *)
Definition dict_rel {V} (R : V -> V -> Prop) (d1 d2 : dict V) : Prop :=
  forall k,
    match dict_get d1 k, dict_get d2 k with
    | Some v1, Some v2 => R v1 v2
    | None, None => True
    | _, _ => False
    end.

(** Python's built-in [sum]: starts from the integer 0 and adds left to right. *)
Definition sum (l : list Q) : Q := fold_left Qplus l (0 : Q).

(* ------------------------------------------------------------------------- *)
(** ** Core game data structures *)

Module EntityTraits.
Record t : Type := mk {
  efficiency : Q;
  learning_rate : Q;
  cooperation : Q;
  stamina : Q
}.
End EntityTraits.

Module Entity.
Record t : Type := mk {
  id : string;
  name : string;
  entity_type : string;
  traits : EntityTraits.t;
  experience : dict Q;
  current_task : option string
}.

Definition set_experience (e : t) (x : dict Q) : t :=
  mk (id e) (name e) (entity_type e) (traits e) x (current_task e).
End Entity.

Module Resource.
Record t : Type := mk {
  name : string;
  amount : Q;
  production_rate : Q
}.

Definition set_amount (r : t) (a : Q) : t := mk (name r) a (production_rate r).

Definition set_production_rate (r : t) (p : Q) : t := mk (name r) (amount r) p.
End Resource.

Module GameState.
Record t : Type := mk {
  tick : Z;
  resources : dict Resource.t;
  entities : dict Entity.t;
  technologies : list string;
  prestige_tokens : Z;
  player_boost : Q
}.

(** [GameState()]: the dataclass defaults after [__post_init__]. *)
Definition default : t := mk 0 [] [] [] 0 1.0%Q.

Definition set_tick (s : t) (n : Z) : t :=
  mk n (resources s) (entities s) (technologies s) (prestige_tokens s)
     (player_boost s).

Definition set_resources (s : t) (r : dict Resource.t) : t :=
  mk (tick s) r (entities s) (technologies s) (prestige_tokens s)
     (player_boost s).

Definition set_entities (s : t) (e : dict Entity.t) : t :=
  mk (tick s) (resources s) e (technologies s) (prestige_tokens s)
     (player_boost s).

Definition set_technologies (s : t) (l : list string) : t :=
  mk (tick s) (resources s) (entities s) l (prestige_tokens s)
     (player_boost s).
End GameState.

(* ------------------------------------------------------------------------- *)
(** ** Exceptions *)

Inductive Exn : Type :=
| IntegrityError      (* sqlite3: a PRIMARY KEY constraint failed *)
| ZeroDivisionError.  (* integer modulo by zero *)

Inductive Result (A : Type) : Type :=
| Ok (a : A)
| Raise (e : Exn).

Arguments Ok {A} a.
Arguments Raise {A} e.

(* ------------------------------------------------------------------------- *)
(** ** Persistence module: the SQLite tables of [_initialize_database]

    One record per table, one field per column the code reads or writes.
    The two TIMESTAMP columns of [game_state] are written by SQLite and never
    read back by the program; they are left out.  A table is the list of its
    rows in insertion order. *)

Module Row.
Record game_state : Type := mk_game_state {
  gs_id : Z;                       (* INTEGER PRIMARY KEY *)
  gs_tick : Z;
  gs_prestige_tokens : Z;
  gs_player_boost : Q
}.

Record resources : Type := mk_resources {
  res_game_id : Z;                 (* PRIMARY KEY (game_id, name) *)
  res_name : string;
  res_amount : Q;
  res_production_rate : Q
}.

Record entities : Type := mk_entities {
  ent_game_id : Z;                 (* PRIMARY KEY (game_id, entity_id) *)
  ent_entity_id : string;
  ent_name : string;
  ent_entity_type : string;
  ent_current_task : option string;  (* NULL for None *)
  ent_efficiency : Q;
  ent_learning_rate : Q;
  ent_cooperation : Q;
  ent_stamina : Q
}.

Record entity_experience : Type := mk_entity_experience {
  exp_game_id : Z;                 (* PRIMARY KEY (game_id, entity_id, task_type) *)
  exp_entity_id : string;
  exp_task_type : string;
  exp_experience : Q
}.

Record technologies : Type := mk_technologies {
  tech_game_id : Z;                (* PRIMARY KEY (game_id, tech_name) *)
  tech_name : string;
  tech_unlocked_at : Z
}.
End Row.

Module GameDatabase.
Import Row.

(** The connection's view of the database file. *)
Record t : Type := mk {
  game_state : list Row.game_state;
  resources : list Row.resources;
  entities : list Row.entities;
  entity_experience : list Row.entity_experience;
  technologies : list Row.technologies
}.

(** A fresh database file after [_initialize_database]. *)
Definition empty : t := mk [] [] [] [] [].

(** A statement run on the connection: it may change the tables and may
    raise; what earlier statements of the same method wrote stays visible on
    the connection when a later one raises. *)
Definition Cursor (A : Type) : Type := t -> t * Result A.

Definition ret {A} (a : A) : Cursor A := fun db => (db, Ok a).

Definition bind {A B} (m : Cursor A) (f : A -> Cursor B) : Cursor B :=
  fun db =>
    match m db with
    | (db', Ok a) => f a db'
    | (db', Raise e) => (db', Raise e)
    end.

Declare Scope cursor_scope.
Delimit Scope cursor_scope with cursor.

Notation "x <- m ;; k" := (bind m (fun x => k))
  (at level 61, m at next level, right associativity) : cursor_scope.
Notation "m ;; k" := (bind m (fun _ => k))
  (at level 61, right associativity) : cursor_scope.

(** A Python [for] loop whose body runs statements. *)
Fixpoint for_each {A} (l : list A) (body : A -> Cursor unit) : Cursor unit :=
  match l with
  | [] => ret tt
  | x :: l' => bind (body x) (fun _ => for_each l' body)
  end.

(** [INSERT OR REPLACE INTO game_state (id, ...) VALUES (...)]: a row with the
    same primary key is removed first. *)
Definition insert_or_replace_game_state (r : Row.game_state) : Cursor unit :=
  fun db =>
    (mk (filter (fun r' => negb (gs_id r' =? gs_id r)) (game_state db) ++ [r])
        (resources db) (entities db) (entity_experience db) (technologies db),
     Ok tt).

(** [DELETE FROM <table> WHERE game_id = ?]. *)
Definition delete_resources (game_id : Z) : Cursor unit :=
  fun db =>
    (mk (game_state db)
        (filter (fun r => negb (res_game_id r =? game_id)) (resources db))
        (entities db) (entity_experience db) (technologies db),
     Ok tt).

Definition delete_entities (game_id : Z) : Cursor unit :=
  fun db =>
    (mk (game_state db) (resources db)
        (filter (fun r => negb (ent_game_id r =? game_id)) (entities db))
        (entity_experience db) (technologies db),
     Ok tt).

Definition delete_entity_experience (game_id : Z) : Cursor unit :=
  fun db =>
    (mk (game_state db) (resources db) (entities db)
        (filter (fun r => negb (exp_game_id r =? game_id)) (entity_experience db))
        (technologies db),
     Ok tt).

Definition delete_technologies (game_id : Z) : Cursor unit :=
  fun db =>
    (mk (game_state db) (resources db) (entities db) (entity_experience db)
        (filter (fun r => negb (tech_game_id r =? game_id)) (technologies db)),
     Ok tt).

(** [INSERT INTO <table> ... VALUES (...)]: raises [IntegrityError], changing
    nothing, when a row with the same primary key is already there. *)
Definition same_resource (r r' : Row.resources) : bool :=
  (res_game_id r' =? res_game_id r) && String.eqb (res_name r') (res_name r).

Definition insert_resources (r : Row.resources) : Cursor unit :=
  fun db =>
    if existsb (same_resource r) (resources db) then (db, Raise IntegrityError)
    else (mk (game_state db) (resources db ++ [r]) (entities db)
             (entity_experience db) (technologies db),
          Ok tt).

Definition same_entity (r r' : Row.entities) : bool :=
  (ent_game_id r' =? ent_game_id r)
  && String.eqb (ent_entity_id r') (ent_entity_id r).

Definition insert_entities (r : Row.entities) : Cursor unit :=
  fun db =>
    if existsb (same_entity r) (entities db) then (db, Raise IntegrityError)
    else (mk (game_state db) (resources db) (entities db ++ [r])
             (entity_experience db) (technologies db),
          Ok tt).

Definition same_experience (r r' : Row.entity_experience) : bool :=
  (exp_game_id r' =? exp_game_id r)
  && String.eqb (exp_entity_id r') (exp_entity_id r)
  && String.eqb (exp_task_type r') (exp_task_type r).

Definition insert_entity_experience (r : Row.entity_experience) : Cursor unit :=
  fun db =>
    if existsb (same_experience r) (entity_experience db)
    then (db, Raise IntegrityError)
    else (mk (game_state db) (resources db) (entities db)
             (entity_experience db ++ [r]) (technologies db),
          Ok tt).

Definition same_technology (r r' : Row.technologies) : bool :=
  (tech_game_id r' =? tech_game_id r)
  && String.eqb (tech_name r') (tech_name r).

Definition insert_technologies (r : Row.technologies) : Cursor unit :=
  fun db =>
    if existsb (same_technology r) (technologies db)
    then (db, Raise IntegrityError)
    else (mk (game_state db) (resources db) (entities db)
             (entity_experience db) (technologies db ++ [r]),
          Ok tt).

Local Open Scope cursor_scope.

(** [save_game_state]: save the complete game state, returns the game id.
    [commit] makes the writes durable and changes nothing the connection
    sees. *)
Definition save_game_state (state : GameState.t) : Cursor Z :=
  insert_or_replace_game_state
    (mk_game_state 1 (GameState.tick state) (GameState.prestige_tokens state)
                   (GameState.player_boost state)) ;;
  let game_id := 1 in
  delete_resources game_id ;;
  delete_entities game_id ;;
  delete_entity_experience game_id ;;
  delete_technologies game_id ;;
  for_each (dict_values (GameState.resources state)) (fun resource =>
    insert_resources
      (mk_resources game_id (Resource.name resource) (Resource.amount resource)
                    (Resource.production_rate resource))) ;;
  for_each (dict_values (GameState.entities state)) (fun entity =>
    insert_entities
      (mk_entities game_id (Entity.id entity) (Entity.name entity)
         (Entity.entity_type entity) (Entity.current_task entity)
         (EntityTraits.efficiency (Entity.traits entity))
         (EntityTraits.learning_rate (Entity.traits entity))
         (EntityTraits.cooperation (Entity.traits entity))
         (EntityTraits.stamina (Entity.traits entity))) ;;
    for_each (dict_items (Entity.experience entity)) (fun item =>
      insert_entity_experience
        (mk_entity_experience game_id (Entity.id entity) (fst item) (snd item)))) ;;
  for_each (GameState.technologies state) (fun tech =>
    insert_technologies (mk_technologies game_id tech (GameState.tick state))) ;;
  ret game_id.

(** The order in which a [SELECT] without [ORDER BY] returns the matching
    rows is SQLite's choice (table order or the order of the primary-key
    index).  [fetch] stands for that choice; all that is known of it is
    [fetch_permutes]. *)
Definition Fetch : Type := forall A : Type, list A -> list A.

Definition fetch_permutes (fetch : Fetch) : Prop :=
  forall (A : Type) (rows : list A), Permutation (fetch A rows) rows.

(** [cursor.fetchone()] *)
Definition fetchone {A} (fetch : Fetch) (rows : list A) : option A :=
  hd_error (fetch A rows).

(** [cursor.fetchall()] *)
Definition fetchall {A} (fetch : Fetch) (rows : list A) : list A :=
  fetch A rows.

(** The inner loop of [load_game_state]: fill [entity.experience] from the
    rows of one entity. *)
Definition load_experience (fetch : Fetch) (db : t) (game_id : Z)
    (entity_id : string) : dict Q :=
  fold_left
    (fun experience exp_row =>
       dict_set experience (exp_task_type exp_row) (exp_experience exp_row))
    (fetchall fetch
       (filter (fun r => (exp_game_id r =? game_id)
                         && String.eqb (exp_entity_id r) entity_id)
               (entity_experience db)))
    [].

(** [load_game_state]: [None] when there is no [game_state] row. *)
Definition load_game_state (fetch : Fetch) (db : t) (game_id : Z)
    : option GameState.t :=
  match fetchone fetch (filter (fun r => gs_id r =? game_id) (game_state db)) with
  | None => None
  | Some game_row =>
      let state :=
        GameState.mk (gs_tick game_row) [] [] [] (gs_prestige_tokens game_row)
                     (gs_player_boost game_row) in
      let state :=
        fold_left
          (fun state row =>
             let resource :=
               Resource.mk (res_name row) (res_amount row)
                           (res_production_rate row) in
             GameState.set_resources state
               (dict_set (GameState.resources state) (Resource.name resource)
                         resource))
          (fetchall fetch
             (filter (fun r => res_game_id r =? game_id) (resources db)))
          state in
      let state :=
        fold_left
          (fun state row =>
             let traits :=
               EntityTraits.mk (ent_efficiency row) (ent_learning_rate row)
                               (ent_cooperation row) (ent_stamina row) in
             let entity :=
               Entity.mk (ent_entity_id row) (ent_name row)
                         (ent_entity_type row) traits
                         (load_experience fetch db game_id (ent_entity_id row))
                         (ent_current_task row) in
             GameState.set_entities state
               (dict_set (GameState.entities state) (Entity.id entity) entity))
          (fetchall fetch
             (filter (fun r => ent_game_id r =? game_id) (entities db)))
          state in
      Some (GameState.set_technologies state
              (map tech_name
                 (fetchall fetch
                    (filter (fun r => tech_game_id r =? game_id)
                            (technologies db)))))
  end.

(** [game_exists] *)
Definition game_exists (db : t) (game_id : Z) : bool :=
  (0 <? Z.of_nat (List.length (filter (fun r => gs_id r =? game_id) (game_state db)))).

End GameDatabase.

(* ------------------------------------------------------------------------- *)
(** ** Python's [random] module

    The module-level generator is process-global state.  Its state is the
    sequence of values [random.random()] is still to return, and how many of
    them were taken. *)

Module RandomModule.
Record t : Type := mk {
  tape : nat -> Q;
  cursor : nat
}.

(** [random.random()] *)
Definition random (r : t) : Q * t :=
  (tape r (cursor r), mk (tape r) (S (cursor r))).

(** [random.uniform(a, b)] is [a + (b - a) * random()]. *)
Definition uniform (a b : Q) (r : t) : Q * t :=
  let (u, r') := random r in ((a + (b - a) * u)%Q, r').

(** [random.choice(seq)]: one element of [seq], picked by one draw.  Which
    one is picked plays no part below. *)
Definition choice (seq : list string) (r : t) : string * t :=
  let (u, r') := random r in
  (nth (Z.to_nat (Qfloor (u * inject_Z (Z.of_nat (List.length seq)))%Q)) seq "",
   r').
End RandomModule.

Definition Qlt_bool (x y : Q) : bool :=
  match (x ?= y)%Q with
  | Lt => true
  | _ => false
  end.

(* ------------------------------------------------------------------------- *)
(** ** Game logic module *)

(** An event dict: [{"type": ..., "entity": ..., "message": ...}]; the system
    event has no ["entity"] key. *)
Record Event : Type := mk_event {
  ev_type : string;
  ev_entity : option string;
  ev_message : string
}.

(** The dict [_entity_to_dict] builds for the display. *)
Record EntityView : Type := mk_entity_view {
  view_id : string;
  view_name : string;
  view_type : string;
  view_task : string;
  view_efficiency : Q;
  view_experience : Q;
  view_traits : EntityTraits.t
}.

(** The dict [tick] returns. *)
Record TickData : Type := mk_tick_data {
  td_tick : Z;
  td_events : list Event;
  td_resources : dict Q;
  td_production_rates : dict Q;
  td_entities : dict EntityView
}.

Module GameLogic.

Record t : Type := mk {
  database : GameDatabase.t;
  state : GameState.t;
  auto_save_interval : Z
}.

Definition set_state (g : t) (s : GameState.t) : t :=
  mk (database g) s (auto_save_interval g).

(** [save_game]: [self.database] is a [GameDatabase] object, which is always
    truthy. *)
Definition save_game (g : t) : t * Result unit :=
  match GameDatabase.save_game_state (state g) (database g) with
  | (db', Ok _) => (mk db' (state g) (auto_save_interval g), Ok tt)
  | (db', Raise e) => (mk db' (state g) (auto_save_interval g), Raise e)
  end.

(** [_generate_entity] *)
Definition _generate_entity (entity_id entity_type : string)
    (rnd : RandomModule.t) : Entity.t * RandomModule.t :=
  let names := ["Zara"; "Kael"; "Luna"; "Orion"; "Nova"; "Sage"; "Echo"; "Zen"] in
  let (efficiency, rnd) := RandomModule.uniform 0.8 1.2 rnd in
  let (learning_rate, rnd) := RandomModule.uniform 0.05 0.15 rnd in
  let (cooperation, rnd) := RandomModule.uniform 0.9 1.1 rnd in
  let (stamina, rnd) := RandomModule.uniform 0.8 1.2 rnd in
  let traits := EntityTraits.mk efficiency learning_rate cooperation stamina in
  let (name, rnd) := RandomModule.choice names rnd in
  (Entity.mk entity_id name entity_type traits [("gathering", 0.0%Q)]
             (Some "gathering"),
   rnd).

(** [_initialize_base_game]; the loop [for i in range(3)] is unrolled over
    the three ids it formats. *)
Definition _initialize_base_game (s : GameState.t) (rnd : RandomModule.t)
    : GameState.t * RandomModule.t :=
  let s :=
    GameState.set_resources s
      (dict_set (GameState.resources s) "energy" (Resource.mk "energy" 10.0 0.0)) in
  fold_left
    (fun '(s, rnd) entity_id =>
       let (entity, rnd) := _generate_entity entity_id "gatherer" rnd in
       (GameState.set_entities s
          (dict_set (GameState.entities s) (Entity.id entity) entity),
        rnd))
    ["entity_0"; "entity_1"; "entity_2"]
    (s, rnd).

(** [__init__] with [_initialize_or_load_game]: load the saved game when there
    is one, else start a new one and save it. *)
Definition init (fetch : GameDatabase.Fetch) (database : GameDatabase.t)
    (rnd : RandomModule.t) : t * RandomModule.t * Result unit :=
  let g := mk database GameState.default 10 in
  match
    (if GameDatabase.game_exists database 1
     then GameDatabase.load_game_state fetch database 1
     else None)
  with
  | Some loaded_state => (set_state g loaded_state, rnd, Ok tt)
  | None =>
      let (s, rnd) := _initialize_base_game (state g) rnd in
      let (g, r) := save_game (set_state g s) in
      (g, rnd, r)
  end.

Definition is_gathering (entity : Entity.t) : bool :=
  match Entity.current_task entity with
  | Some task => String.eqb task "gathering"
  | None => false
  end.

(** [_process_entity_action]: the entity and the resource map are mutated in
    place, the global generator is advanced by the draw. *)
Definition _process_entity_action (resources : dict Resource.t)
    (rnd : RandomModule.t) (entity : Entity.t)
    : dict Resource.t * RandomModule.t * Entity.t * option Event :=
  if is_gathering entity then
    let base_gathering := 1.0%Q in
    let efficiency_mult := EntityTraits.efficiency (Entity.traits entity) in
    let experience_mult :=
      (1.0 + dict_get_default (Entity.experience entity) "gathering" 0 * 0.1)%Q in
    let gathered := (base_gathering * efficiency_mult * experience_mult)%Q in
    let resources :=
      if dict_contains resources "energy"
      then dict_modify resources "energy"
             (fun r => Resource.set_amount r (Resource.amount r + gathered)%Q)
      else resources in
    let entity :=
      Entity.set_experience entity
        (dict_set (Entity.experience entity) "gathering"
           (dict_get_default (Entity.experience entity) "gathering" 0
            + EntityTraits.learning_rate (Entity.traits entity))%Q) in
    let (draw, rnd) := RandomModule.random rnd in
    if Qlt_bool draw 0.05 then
      (resources, rnd, entity,
       Some (mk_event "discovery" (Some (Entity.name entity))
               (Entity.name entity ++ " found an efficient energy source!")))
    else (resources, rnd, entity, None)
  else (resources, rnd, entity, None).

(** The loop [for entity in self.state.entities.values()] of [tick]. *)
Fixpoint process_entities (entities : dict Entity.t)
    (resources : dict Resource.t) (rnd : RandomModule.t)
    : dict Entity.t * dict Resource.t * RandomModule.t * list Event :=
  match entities with
  | [] => ([], resources, rnd, [])
  | (k, entity) :: rest =>
      let '(resources, rnd, entity, event) :=
        _process_entity_action resources rnd entity in
      let '(rest, resources, rnd, events) :=
        process_entities rest resources rnd in
      ((k, entity) :: rest, resources, rnd,
       match event with
       | Some ev => ev :: events
       | None => events
       end)
  end.

Definition is_gatherer (e : Entity.t) : bool :=
  String.eqb (Entity.entity_type e) "gatherer" && is_gathering e.

(** The generator expression summed in [_update_production_rates]. *)
Definition gatherer_rate (e : Entity.t) : Q :=
  (EntityTraits.efficiency (Entity.traits e)
   * (1.0 + dict_get_default (Entity.experience e) "gathering" 0 * 0.1))%Q.

(** [_update_production_rates] *)
Definition _update_production_rates (s : GameState.t) : GameState.t :=
  let gatherers := filter is_gatherer (dict_values (GameState.entities s)) in
  let energy_rate := sum (map gatherer_rate gatherers) in
  if dict_contains (GameState.resources s) "energy"
  then GameState.set_resources s
         (dict_modify (GameState.resources s) "energy"
            (fun r => Resource.set_production_rate r energy_rate))
  else s.

(** The loop "apply resource production" of [tick]. *)
Definition apply_production (resource : Resource.t) : Resource.t :=
  if Qlt_bool 0 (Resource.production_rate resource)
  then Resource.set_amount resource
         (Resource.amount resource + Resource.production_rate resource)%Q
  else resource.

(** [_entity_to_dict] *)
Definition _entity_to_dict (entity : Entity.t) : EntityView :=
  mk_entity_view (Entity.id entity) (Entity.name entity)
    (Entity.entity_type entity)
    (match Entity.current_task entity with
     | Some task => if String.eqb task "" then "idle" else task
     | None => "idle"
     end)
    (EntityTraits.efficiency (Entity.traits entity))
    (sum (dict_values (Entity.experience entity)))
    (Entity.traits entity).

Definition tick_data (s : GameState.t) (events : list Event) : TickData :=
  mk_tick_data (GameState.tick s) events
    (map (fun '(name, r) => (name, Resource.amount r)) (GameState.resources s))
    (map (fun '(name, r) => (name, Resource.production_rate r))
         (GameState.resources s))
    (map (fun '(eid, entity) => (eid, _entity_to_dict entity))
         (GameState.entities s)).

(** The in-place part of [tick], up to the auto-save test: the counter, the
    entity actions, the production rates and their application. *)
Definition advance (s : GameState.t) (rnd : RandomModule.t)
    : GameState.t * RandomModule.t * list Event :=
  let s := GameState.set_tick s (GameState.tick s + 1) in
  let '(entities, resources, rnd, events) :=
    process_entities (GameState.entities s) (GameState.resources s) rnd in
  let s := GameState.set_entities (GameState.set_resources s resources) entities in
  let s := _update_production_rates s in
  let s :=
    GameState.set_resources s
      (map_values apply_production (GameState.resources s)) in
  (s, rnd, events).

(** [tick]: execute one game tick, returns the data for the display. *)
Definition tick (g : t) (rnd : RandomModule.t)
    : t * RandomModule.t * Result TickData :=
  let '(s, rnd, events) := advance (state g) rnd in
  let g := set_state g s in
  if auto_save_interval g =? 0 then (g, rnd, Raise ZeroDivisionError)
  else if GameState.tick s mod auto_save_interval g =? 0 then
    match save_game g with
    | (g, Ok _) =>
        (g, rnd,
         Ok (tick_data s (events ++ [mk_event "system" None "Game auto-saved"])))
    | (g, Raise e) => (g, rnd, Raise e)
    end
  else (g, rnd, Ok (tick_data s events)).

(** What [apply_player_boost] returns: the text ["Boost failed!"], or the
    text formatted from the entity's name and the boosted amount. *)
Inductive BoostMessage : Type :=
| BoostFailed
| Boosted (name : string) (boosted_amount : Q).

(** [apply_player_boost] *)
Definition apply_player_boost (g : t) (entity_id : string)
    (boost_multiplier : Q) : t * BoostMessage :=
  match dict_get (GameState.entities (state g)) entity_id with
  | Some entity =>
      if is_gathering entity then
        let boosted_amount :=
          (boost_multiplier * EntityTraits.efficiency (Entity.traits entity))%Q in
        let g :=
          if dict_contains (GameState.resources (state g)) "energy"
          then set_state g
                 (GameState.set_resources (state g)
                    (dict_modify (GameState.resources (state g)) "energy"
                       (fun r =>
                          Resource.set_amount r
                            (Resource.amount r + boosted_amount)%Q)))
          else g in
        (g, Boosted (Entity.name entity) boosted_amount)
      else (g, BoostFailed)
  | None => (g, BoostFailed)
  end.

End GameLogic.

(* ------------------------------------------------------------------------- *)
(** ** Ncurses display module: the input queue and [get_input]

    [input_queue] is a [queue.Queue()] built without [maxsize]: a FIFO of
    unbounded capacity, whose [put] and [get_nowait] are atomic.  It carries
    raw key codes; [get_input] turns a key into a command when the main loop
    takes it out. *)

Module curses.
(** Key codes of the curses library. *)
Definition KEY_DOWN : Z := 258.
Definition KEY_UP : Z := 259.
End curses.

(** [ord(c)] for the characters [get_input] tests. *)
Definition ord (c : Ascii.ascii) : Z := Z.of_nat (Ascii.nat_of_ascii c).

Arguments ord c%_char.

Module NCursesDisplay.

Record t : Type := mk {
  input_queue : list Z;
  current_selection : Z;
  selectable_items : list (string * string * string)
}.

(** The fields [__init__] sets. *)
Definition new : t := mk [] 0 [].

(** [self.input_queue.put(key)] *)
Definition put (d : t) (key : Z) : t :=
  mk (input_queue d ++ [key]) (current_selection d) (selectable_items d).

(** What [self.stdscr.getch()] does in one round of the input thread. *)
Inductive Getch : Type :=
| Key (key : Z)     (* a key code, or -1 when no key is waiting *)
| CursesError.      (* the call raised *)

(** One round of the [while True] loop of [_input_handler]; [None] when the
    loop breaks. *)
Definition _input_handler_step (d : t) (g : Getch) : option t :=
  match g with
  | Key key => Some (if negb (key =? -1) then put d key else d)
  | CursesError => None
  end.

(** [_input_handler] over the outcomes of the successive [getch] calls. *)
Fixpoint _input_handler (d : t) (trace : list Getch) : t :=
  match trace with
  | [] => d
  | g :: trace' =>
      match _input_handler_step d g with
      | Some d' => _input_handler d' trace'
      | None => d
      end
  end.

Definition set_selection (d : t) (n : Z) : t :=
  mk (input_queue d) n (selectable_items d).

(** [get_input]: take the oldest key out of the queue, if any, and translate
    it. *)
Definition get_input (d : t) : t * option string :=
  match input_queue d with
  | [] => (d, None)                      (* queue.Empty *)
  | key :: rest =>
      let d := mk rest (current_selection d) (selectable_items d) in
      let len := Z.of_nat (List.length (selectable_items d)) in
      if key =? curses.KEY_UP then
        (set_selection d (Z.max 0 (current_selection d - 1)), Some "nav_up")
      else if key =? curses.KEY_DOWN then
        (set_selection d (Z.min (len - 1) (current_selection d + 1)),
         Some "nav_down")
      else if key =? ord " " then
        if (0 <=? current_selection d) && (current_selection d <? len) then
          let item :=
            nth (Z.to_nat (current_selection d)) (selectable_items d) ("", "", "") in
          (d, Some ("boost:" ++ snd (fst item))%string)
        else (d, Some "boost")
      else if (key =? ord "s") || (key =? ord "S") then (d, Some "save")
      else if (key =? ord "q") || (key =? ord "Q") then (d, Some "quit")
      else if (key =? ord "r") || (key =? ord "R") then
        (set_selection d 0, Some "reset")
      else if (key =? ord "+") || (key =? ord "=") then (d, Some "speed_up")
      else if key =? ord "-" then (d, Some "speed_down")
      else (d, None)
  end.

End NCursesDisplay.

(* ------------------------------------------------------------------------- *)
(** ** Vocabulary of the properties *)

Import GameLogic.

(** *** Orders on resources and entities *)

Definition amount_le (r r' : Resource.t) : Prop :=
  (Resource.amount r <= Resource.amount r')%Q.

(** Every task [e] has experience in is still there in [e'], with a value
    that is not smaller. *)
Definition experience_le (e e' : Entity.t) : Prop :=
  forall task x,
    dict_get (Entity.experience e) task = Some x ->
    exists x', dict_get (Entity.experience e') task = Some x' /\ (x <= x')%Q.

(** Efficiency, learning rate and every stored experience value are
    non-negative. *)
Definition nonneg_entity (e : Entity.t) : Prop :=
  (0 <= EntityTraits.efficiency (Entity.traits e))%Q
  /\ (0 <= EntityTraits.learning_rate (Entity.traits e))%Q
  /\ Forall (fun x => 0 <= x)%Q (dict_values (Entity.experience e)).

Definition nonneg_state (s : GameState.t) : Prop :=
  Forall nonneg_entity (dict_values (GameState.entities s))
  /\ Forall (fun r => 0 <= Resource.amount r)%Q (dict_values (GameState.resources s)).

(** *** The three-gatherer scenario *)

(** An entity as the scenario describes it; its id, name, cooperation and
    stamina are free. *)
Definition scenario_gatherer (e : Entity.t) : Prop :=
  Entity.entity_type e = "gatherer"
  /\ Entity.current_task e = Some "gathering"
  /\ EntityTraits.efficiency (Entity.traits e) = 1.0%Q
  /\ EntityTraits.learning_rate (Entity.traits e) = 0.1%Q
  /\ Entity.experience e = [("gathering", 0.0%Q)].

(** The experience map of [e] is [{"gathering": x}]. *)
Definition gathering_experience_is (e : Entity.t) (x : Q) : Prop :=
  exists y, Entity.experience e = [("gathering", y)] /\ (y == x)%Q.

(** *** The production rate in the words of the specification

    The task ["gathering"] is the one task that feeds a resource, energy; the
    rate of a resource sums efficiency * (1 + experience[task] * 0.1) over
    the entities whose current task feeds it. *)
Definition feeds (task resource : string) : bool :=
  String.eqb task "gathering" && String.eqb resource "energy".

Definition producer_rate (resource : string) (e : Entity.t) : Q :=
  match Entity.current_task e with
  | Some task =>
      if feeds task resource
      then (EntityTraits.efficiency (Entity.traits e)
            * (1 + dict_get_default (Entity.experience e) task 0 * 0.1))%Q
      else 0%Q
  | None => 0%Q
  end.

Definition claimed_rate (s : GameState.t) (resource : string) : Q :=
  sum (map (producer_rate resource) (dict_values (GameState.entities s))).

(** *** Events and draws *)

(** The event [tick] appends after a save. *)
Definition auto_saved : Event := mk_event "system" None "Game auto-saved".

(** The event [_process_entity_action] returns for an entity. *)
Definition discovery (e : Entity.t) : Event :=
  mk_event "discovery" (Some (Entity.name e))
    (Entity.name e ++ " found an efficient energy source!").

(** The discovery events of one pass over the entities: each entity that is
    gathering takes the next draw of the generator, and has its event when
    that draw is below 0.05. *)
Fixpoint discoveries (entities : list Entity.t) (tape : nat -> Q) (cursor : nat)
    : list Event :=
  match entities with
  | [] => []
  | e :: rest =>
      if is_gathering e then
        if Qlt_bool (tape cursor) 0.05
        then discovery e :: discoveries rest tape (S cursor)
        else discoveries rest tape (S cursor)
      else discoveries rest tape cursor
  end.

(** How many draws one pass takes. *)
Definition draws_taken (entities : list Entity.t) : nat :=
  List.length (filter is_gathering entities).

(** The generator after [n] more draws. *)
Definition drawn (rnd : RandomModule.t) (n : nat) : RandomModule.t :=
  RandomModule.mk (RandomModule.tape rnd) (RandomModule.cursor rnd + n)%nat.

(** *** States that can be saved, equal states, reachable states *)

(** No two rows [save_game_state] writes for the state share a primary key:
    no two resources a name, no two entities an id, no entity two experience
    entries for a task, no two technologies a name. *)
Definition persistable (s : GameState.t) : Prop :=
  NoDup (map Resource.name (dict_values (GameState.resources s)))
  /\ NoDup (map Entity.id (dict_values (GameState.entities s)))
  /\ Forall (fun e => dict_wf (Entity.experience e))
            (dict_values (GameState.entities s))
  /\ NoDup (GameState.technologies s).

(** Python's [==] on two [Entity] objects and on two [GameState] objects
    (the [__eq__] a dataclass generates): field by field, dicts compared as
    dicts, lists as lists. *)
Definition entity_equiv (e1 e2 : Entity.t) : Prop :=
  Entity.id e1 = Entity.id e2
  /\ Entity.name e1 = Entity.name e2
  /\ Entity.entity_type e1 = Entity.entity_type e2
  /\ Entity.traits e1 = Entity.traits e2
  /\ dict_rel eq (Entity.experience e1) (Entity.experience e2)
  /\ Entity.current_task e1 = Entity.current_task e2.

Definition state_equiv (s1 s2 : GameState.t) : Prop :=
  GameState.tick s1 = GameState.tick s2
  /\ dict_rel eq (GameState.resources s1) (GameState.resources s2)
  /\ dict_rel entity_equiv (GameState.entities s1) (GameState.entities s2)
  /\ GameState.technologies s1 = GameState.technologies s2
  /\ GameState.prestige_tokens s1 = GameState.prestige_tokens s2
  /\ GameState.player_boost s1 = GameState.player_boost s2.

(** The states of a run: a new game, then ticks, boosts, and loads of what
    was saved. *)
Inductive reachable (fetch : GameDatabase.Fetch) : GameState.t -> Prop :=
| reachable_new (rnd : RandomModule.t) :
    reachable fetch (fst (_initialize_base_game GameState.default rnd))
| reachable_tick (g : GameLogic.t) (rnd : RandomModule.t) :
    reachable fetch (state g) ->
    reachable fetch (state (fst (fst (tick g rnd))))
| reachable_boost (g : GameLogic.t) (entity_id : string) (m : Q) :
    reachable fetch (state g) ->
    reachable fetch (state (fst (apply_player_boost g entity_id m)))
| reachable_load (s s' : GameState.t) (db : GameDatabase.t) :
    reachable fetch s ->
    GameDatabase.load_game_state fetch (fst (GameDatabase.save_game_state s db)) 1
    = Some s' ->
    reachable fetch s'.

(* ------------------------------------------------------------------------- *)
(** ** Closed forms of the tick's loops

    What one entity's action does to the entity and to the resource map does
    not depend on the draw; only the event does. *)

Module Closed.

(** [gathered] of [_process_entity_action]. *)
Definition gathered (e : Entity.t) : Q :=
  (1.0 * EntityTraits.efficiency (Entity.traits e)
   * (1.0 + dict_get_default (Entity.experience e) "gathering" 0 * 0.1))%Q.

Definition add_amount (q : Q) (r : Resource.t) : Resource.t :=
  Resource.set_amount r (Resource.amount r + q)%Q.

(** The resource map after the action of [e]. *)
Definition resources_after (resources : dict Resource.t) (e : Entity.t)
    : dict Resource.t :=
  if is_gathering e then
    if dict_contains resources "energy"
    then dict_modify resources "energy" (add_amount (gathered e))
    else resources
  else resources.

(** The entity after its action. *)
Definition entity_after (e : Entity.t) : Entity.t :=
  if is_gathering e then
    Entity.set_experience e
      (dict_set (Entity.experience e) "gathering"
         (dict_get_default (Entity.experience e) "gathering" 0
          + EntityTraits.learning_rate (Entity.traits e))%Q)
  else e.

(** What the entities gather in one pass, in their order. *)
Definition gains (entities : list Entity.t) : list Q :=
  map gathered (filter is_gathering entities).

(** The resource map after the loop over the entities (the yield step). *)
Definition yielded (s : GameState.t) : dict Resource.t :=
  fold_left resources_after (dict_values (GameState.entities s))
            (GameState.resources s).

(** The rate [_update_production_rates] computes from the entities. *)
Definition energy_rate (entities : dict Entity.t) : Q :=
  sum (map gatherer_rate (filter is_gatherer (dict_values entities))).

Definition set_rate (k : string) (rate : Q) (d : dict Resource.t) : dict Resource.t :=
  dict_modify d k (fun r => Resource.set_production_rate r rate).

(** The state [advance] leaves. *)
Definition advanced (s : GameState.t) : GameState.t :=
  let s1 :=
    _update_production_rates
      (GameState.mk (GameState.tick s + 1) (yielded s)
         (map_values entity_after (GameState.entities s))
         (GameState.technologies s) (GameState.prestige_tokens s)
         (GameState.player_boost s)) in
  GameState.set_resources s1 (map_values apply_production (GameState.resources s1)).

(** The [GameLogic] object when [advance] is done and the auto-save test is
    about to be made. *)
Definition advanced_logic (g : GameLogic.t) : GameLogic.t :=
  set_state g (advanced (state g)).

End Closed.

(* ------------------------------------------------------------------------- *)
(** ** Closed forms of saving and loading *)

Module Persist.
Import Row GameDatabase.

(** The rows [save_game_state] writes for a state. *)
Definition game_row (s : GameState.t) : Row.game_state :=
  mk_game_state 1 (GameState.tick s) (GameState.prestige_tokens s)
                (GameState.player_boost s).

Definition resource_row (r : Resource.t) : Row.resources :=
  mk_resources 1 (Resource.name r) (Resource.amount r) (Resource.production_rate r).

Definition entity_row (e : Entity.t) : Row.entities :=
  mk_entities 1 (Entity.id e) (Entity.name e) (Entity.entity_type e)
    (Entity.current_task e)
    (EntityTraits.efficiency (Entity.traits e))
    (EntityTraits.learning_rate (Entity.traits e))
    (EntityTraits.cooperation (Entity.traits e))
    (EntityTraits.stamina (Entity.traits e)).

Definition experience_row (entity_id : string) (item : string * Q)
    : Row.entity_experience :=
  mk_entity_experience 1 entity_id (fst item) (snd item).

Definition experience_rows (e : Entity.t) : list Row.entity_experience :=
  map (experience_row (Entity.id e)) (dict_items (Entity.experience e)).

Definition technology_row (tick : Z) (tech : string) : Row.technologies :=
  mk_technologies 1 tech tick.

(** The database a successful [save_game_state] leaves: the rows of other
    games, then the rows of this state. *)
Definition saved (s : GameState.t) (db : GameDatabase.t) : GameDatabase.t :=
  GameDatabase.mk
    (filter (fun r => negb (gs_id r =? 1)) (game_state db) ++ [game_row s])
    (filter (fun r => negb (res_game_id r =? 1)) (resources db)
     ++ map resource_row (dict_values (GameState.resources s)))
    (filter (fun r => negb (ent_game_id r =? 1)) (entities db)
     ++ map entity_row (dict_values (GameState.entities s)))
    (filter (fun r => negb (exp_game_id r =? 1)) (entity_experience db)
     ++ flat_map experience_rows (dict_values (GameState.entities s)))
    (filter (fun r => negb (tech_game_id r =? 1)) (technologies db)
     ++ map (technology_row (GameState.tick s)) (GameState.technologies s)).

(** The loops of [load_game_state] that fill a dict from rows. *)
Definition build {A V} (key : A -> string) (val : A -> V) (rows : list A)
    (d0 : dict V) : dict V :=
  fold_left (fun d r => dict_set d (key r) (val r)) rows d0.

(** The objects [load_game_state] makes of a row. *)
Definition resource_of_row (row : Row.resources) : Resource.t :=
  Resource.mk (res_name row) (res_amount row) (res_production_rate row).

Definition entity_of_row (fetch : GameDatabase.Fetch) (db : GameDatabase.t)
    (game_id : Z) (row : Row.entities) : Entity.t :=
  Entity.mk (ent_entity_id row) (ent_name row) (ent_entity_type row)
    (EntityTraits.mk (ent_efficiency row) (ent_learning_rate row)
                     (ent_cooperation row) (ent_stamina row))
    (GameDatabase.load_experience fetch db game_id (ent_entity_id row))
    (ent_current_task row).

(** A dict whose values sit under their own key. *)
Definition keyed_by {V} (key : V -> string) (d : dict V) : Prop :=
  dict_wf d /\ Forall (fun kv => key (snd kv) = fst kv) d.

(** What the program keeps true of its state: resources sit under their
    name, entities under their id, and no technology is ever unlocked. *)
Definition well_keyed (s : GameState.t) : Prop :=
  keyed_by Resource.name (GameState.resources s)
  /\ keyed_by Entity.id (GameState.entities s)
  /\ Forall (fun e => dict_wf (Entity.experience e))
            (dict_values (GameState.entities s))
  /\ GameState.technologies s = [].

(** The keys of a dict, each with the key its value carries. *)
Definition labels {V} (key : V -> string) (d : dict V) : list (string * string) :=
  map (fun kv => (fst kv, key (snd kv))) d.

End Persist.

(* ------------------------------------------------------------------------- *)
(** ** Concrete states *)

Module Scenario.

(** A gatherer as in the scenario of the testable properties: efficiency
    1.0, learning rate 0.1, no experience yet, gathering. *)
Definition gatherer (entity_id name : string) : Entity.t :=
  Entity.mk entity_id name "gatherer" (EntityTraits.mk 1.0 0.1 1.0 1.0)
            [("gathering", 0.0%Q)] (Some "gathering").

Definition entities : dict Entity.t :=
  [("entity_0", gatherer "entity_0" "Zara");
   ("entity_1", gatherer "entity_1" "Kael");
   ("entity_2", gatherer "entity_2" "Luna")].

(** One resource, energy = 10.0, and three such gatherers. *)
Definition start : GameState.t :=
  GameState.mk 0 [("energy", Resource.mk "energy" 10.0 0.0)] entities [] 0 1.0.

Definition logic : GameLogic.t := GameLogic.mk GameDatabase.empty start 10.

(** The same game nine ticks into the count, one tick before the auto-save. *)
Definition logic_at_9 : GameLogic.t :=
  GameLogic.mk GameDatabase.empty (GameState.set_tick start 9) 10.

(** A generator none of whose draws is below 0.05. *)
Definition quiet : RandomModule.t := RandomModule.mk (fun _ => 0.5%Q) 0.

(** A generator all of whose draws are below 0.05. *)
Definition lucky : RandomModule.t := RandomModule.mk (fun _ => 0.01%Q) 0.

(** A generator whose first three draws are those of [quiet] and whose later
    draws are those of [lucky]. *)
Definition quiet_then_lucky : RandomModule.t :=
  RandomModule.mk (fun n => if (n <? 3)%nat then 0.5%Q else 0.01%Q) 0.

End Scenario.

Module NoEnergy.
(** A game with a gathering entity and no energy resource. *)
Definition start : GameState.t :=
  GameState.mk 0 [("knowledge", Resource.mk "knowledge" 5.0 0.0)]
    [("entity_0", Scenario.gatherer "entity_0" "Zara")] [] 0 1.0.

Definition logic : GameLogic.t := GameLogic.mk GameDatabase.empty start 10.
End NoEnergy.

Module Philosopher.
(** A philosopher set to gathering, an energy resource and a second resource
    with a stored rate. *)
Definition thinker : Entity.t :=
  Entity.mk "entity_0" "Sage" "philosopher" (EntityTraits.mk 1.0 0.1 1.0 1.0)
            [("gathering", 0.0%Q)] (Some "gathering").

Definition start : GameState.t :=
  GameState.mk 0
    [("energy", Resource.mk "energy" 10.0 0.0);
     ("knowledge", Resource.mk "knowledge" 0.0 5.0)]
    [("entity_0", thinker)] [] 0 1.0.

Definition logic : GameLogic.t := GameLogic.mk GameDatabase.empty start 10.
End Philosopher.

Module Duplicate.
(** A state that lists one technology twice, one tick before the auto-save. *)
Definition start : GameState.t := GameState.mk 9 [] [] ["fire"; "fire"] 0 1.0.

Definition logic : GameLogic.t := GameLogic.mk GameDatabase.empty start 10.
End Duplicate.

Module Backwards.
(** A row order that is not the order of insertion: last row first. *)
Definition fetch : GameDatabase.Fetch := fun A rows => rev rows.

(** The scenario one tick after a boost of its first entity. *)
Definition played : GameLogic.t :=
  fst (fst (tick (fst (apply_player_boost
                         (GameLogic.mk GameDatabase.empty
                            (fst (_initialize_base_game GameState.default
                                    Scenario.quiet)) 10)
                         "entity_0" 2.0))
                 Scenario.quiet)).
End Backwards.

(* ------------------------------------------------------------------------- *)
(** ** Vocabulary of the further properties: the database *)

Module Slot.
Import Row GameDatabase Persist.

(** The rows of the games other than game 1, table by table. *)
Definition other_games (db : GameDatabase.t) : GameDatabase.t :=
  GameDatabase.mk
    (filter (fun r => negb (gs_id r =? 1)) (game_state db))
    (filter (fun r => negb (res_game_id r =? 1)) (resources db))
    (filter (fun r => negb (ent_game_id r =? 1)) (entities db))
    (filter (fun r => negb (exp_game_id r =? 1)) (entity_experience db))
    (filter (fun r => negb (tech_game_id r =? 1)) (technologies db)).

(** A method of the cursor that leaves [view db] as it finds it, whether it
    raises or not. *)
Definition keeps {A X} (view : GameDatabase.t -> X) (m : Cursor A) : Prop :=
  forall db, view (fst (m db)) = view db.

(** A state resources of which sit under their name and entities under their
    id, with any technologies, none listed twice. *)
Definition storable (s : GameState.t) : Prop :=
  keyed_by Resource.name (GameState.resources s)
  /\ keyed_by Entity.id (GameState.entities s)
  /\ Forall (fun e => dict_wf (Entity.experience e))
            (dict_values (GameState.entities s))
  /\ NoDup (GameState.technologies s).

(** SQLite returning rows in the order of the table. *)
Definition table_order : GameDatabase.Fetch := fun A rows => rows.

End Slot.

Module Unlocked.
(** The scenario with two technologies unlocked. *)
Definition start : GameState.t :=
  GameState.set_technologies Scenario.start ["fire"; "wheel"].
End Unlocked.

(* ------------------------------------------------------------------------- *)
(** ** Vocabulary of the further properties: the game logic *)

Module Session.

(** [n] calls of [tick] in a row on the same [GameLogic] object, whatever
    each call returns. *)
Fixpoint ticks (n : nat) (g : GameLogic.t) (rnd : RandomModule.t)
    : GameLogic.t * RandomModule.t :=
  match n with
  | O => (g, rnd)
  | S n' => let '(g', rnd', _) := tick g rnd in ticks n' g' rnd'
  end.

(** All the values [random.random()] is still to return lie in [0, 1), as
    those of Python's generator do. *)
Definition in_unit_interval (rnd : RandomModule.t) : Prop :=
  forall n, (0 <= RandomModule.tape rnd n /\ RandomModule.tape rnd n < 1)%Q.

(** The names [_generate_entity] picks from. *)
Definition names : list string :=
  ["Zara"; "Kael"; "Luna"; "Orion"; "Nova"; "Sage"; "Echo"; "Zen"].

End Session.

Module Generated.

(** The ranges [_generate_entity] draws the four traits from. *)
Definition traits_in_range (t : EntityTraits.t) : Prop :=
  (0.8 <= EntityTraits.efficiency t <= 1.2
   /\ 0.05 <= EntityTraits.learning_rate t <= 0.15
   /\ 0.9 <= EntityTraits.cooperation t <= 1.1
   /\ 0.8 <= EntityTraits.stamina t <= 1.2)%Q.

(** A freshly generated entity of the given id and type. *)
Definition fresh (entity_id entity_type : string) (e : Entity.t) : Prop :=
  Entity.id e = entity_id
  /\ Entity.entity_type e = entity_type
  /\ In (Entity.name e) Session.names
  /\ traits_in_range (Entity.traits e)
  /\ Entity.experience e = [("gathering", 0.0%Q)]
  /\ Entity.current_task e = Some "gathering".

End Generated.

(* ------------------------------------------------------------------------- *)
(** ** Ncurses display module: the selection and the input thread *)

Module NCursesSelection.
Import NCursesDisplay.

(** [_update_selectable_items]: the list is rebuilt from the entities of the
    data given to [render], and a selection at or beyond its end is brought
    back to its last item.  The data [tick] returns always carry the
    ["entities"] key, and every entity its ["name"] and ["type"]: the
    defaults of the three [get] calls are never taken. *)
Definition _update_selectable_items (d : t) (game_data : TickData) : t :=
  let items :=
    map (fun item : string * EntityView =>
           let (entity_id, entity_data) := item in
           ("boost", entity_id,
            "Boost " ++ view_name entity_data ++ " (" ++ view_type entity_data ++ ")"))%string
        (td_entities game_data) in
  let len := Z.of_nat (List.length items) in
  mk (input_queue d)
     (if len <=? current_selection d then Z.max 0 (len - 1) else current_selection d)
     items.

(** The entity ids of the selectable items, in their order. *)
Definition item_ids (d : t) : list string :=
  map (fun item => snd (fst item)) (selectable_items d).

(** The selection points at an item. *)
Definition in_range (d : t) : Prop :=
  0 <= current_selection d < Z.of_nat (List.length (selectable_items d)).

(** The keys the input thread puts in the queue over a run of [getch]
    outcomes: those that are not -1, up to the first call that raises. *)
Fixpoint keys_read (trace : list Getch) : list Z :=
  match trace with
  | [] => []
  | Key key :: trace' =>
      if key =? -1 then keys_read trace' else key :: keys_read trace'
  | CursesError :: _ => []
  end.

End NCursesSelection.

(* ------------------------------------------------------------------------- *)
(** ** Main game loop: the controller and its input commands *)

(** Python's built-ins and [str] methods the controller uses. *)
Module builtins.

(** [max(a, b)]: the first argument unless the second is larger. *)
Definition max (a b : Q) : Q := if Qlt_bool a b then b else a.

(** [min(a, b)]: the first argument unless the second is smaller. *)
Definition min (a b : Q) : Q := if Qlt_bool b a then b else a.

(** [s.startswith(prefix)] *)
Definition startswith (s prefix : string) : bool := String.prefix prefix s.

(** [s.split(sep, 1)] for a separator of one character: the text before the
    first separator and the text after it, or [s] alone when it has none. *)
Fixpoint split_1 (sep : ascii) (s : string) : list string :=
  match s with
  | EmptyString => [EmptyString]
  | String c s' =>
      if Ascii.eqb c sep then [EmptyString; s']
      else match split_1 sep s' with
           | head :: rest => String c head :: rest
           | [] => []
           end
  end.

End builtins.

(** The abstract [Display] class, as far as the controller reads a display:
    [get_input] returns the command, and may change the display. *)
Module Display.
Class t (D : Type) : Type := {
  get_input : D -> D * option string
}.
End Display.

(** [ConsoleDisplay] has no fields, and no input. *)
Module ConsoleDisplay.
Definition t : Type := unit.
Definition get_input (d : t) : t * option string := (d, None).
End ConsoleDisplay.

#[global] Instance ConsoleDisplay_Display : Display.t ConsoleDisplay.t :=
  {| Display.get_input := ConsoleDisplay.get_input |}.

#[global] Instance NCursesDisplay_Display : Display.t NCursesDisplay.t :=
  {| Display.get_input := NCursesDisplay.get_input |}.

Module IdleStuffGame.

(** The texts [last_boost_message] takes: empty, the three fixed texts, what
    [apply_player_boost] returned, and the two texts formatted from the new
    tick rate. *)
Inductive Message : Type :=
| NoMessage                               (* "" *)
| SavedManually                           (* "Game saved manually!" *)
| BoostResult (result : GameLogic.BoostMessage)
| SpeedIncreased (tick_rate : Q)          (* "Game speed increased (tick: ...s)" *)
| SpeedDecreased (tick_rate : Q)          (* "Game speed decreased (tick: ...s)" *)
| SelectionReset.                         (* "Selection reset" *)

(** How a method of the controller ends. *)
Inductive Outcome : Type :=
| Returns
| Raises (e : Exn)          (* raised by the save *)
| RaisesIndexError.         (* raised by [cmd.split(":", 1)[1]] *)

Record t (D : Type) : Type := mk {
  logic : GameLogic.t;
  display : D;
  running : bool;
  tick_rate : Q;
  last_boost_message : Message
}.
Arguments mk {D}.
Arguments logic {D}.
Arguments display {D}.
Arguments running {D}.
Arguments tick_rate {D}.
Arguments last_boost_message {D}.

Section Controller.
Context {D : Type} `{Display.t D}.

Definition set_logic (game : t D) (g : GameLogic.t) : t D :=
  mk g (display game) (running game) (tick_rate game) (last_boost_message game).

Definition set_display (game : t D) (d : D) : t D :=
  mk (logic game) d (running game) (tick_rate game) (last_boost_message game).

Definition set_running (game : t D) (b : bool) : t D :=
  mk (logic game) (display game) b (tick_rate game) (last_boost_message game).

Definition set_tick_rate (game : t D) (rate : Q) : t D :=
  mk (logic game) (display game) (running game) rate (last_boost_message game).

Definition set_last_boost_message (game : t D) (m : Message) : t D :=
  mk (logic game) (display game) (running game) (tick_rate game) m.

(** [__init__], given the database. *)
Definition init (fetch : GameDatabase.Fetch) (display : D)
    (database : GameDatabase.t) (rnd : RandomModule.t)
    : t D * RandomModule.t * Result unit :=
  match GameLogic.init fetch database rnd with
  | (g, rnd, r) => (mk g display false 1.0%Q NoMessage, rnd, r)
  end.

(** [_handle_input] *)
Definition _handle_input (game : t D) : t D * Outcome :=
  let (d, cmd) := Display.get_input (display game) in
  let game := set_display game d in
  match cmd with
  | None => (game, Returns)
  | Some cmd =>
      if (cmd =? "")%string then (game, Returns)
      else if (cmd =? "quit")%string then (set_running game false, Returns)
      else if (cmd =? "save")%string then
        match GameLogic.save_game (logic game) with
        | (g, Ok _) =>
            (set_last_boost_message (set_logic game g) SavedManually, Returns)
        | (g, Raise e) => (set_logic game g, Raises e)
        end
      else if builtins.startswith cmd "boost:" then
        match nth_error (builtins.split_1 ":" cmd) 1 with
        | Some entity_id =>
            let (g, result) :=
              GameLogic.apply_player_boost (logic game) entity_id 2.0 in
            (set_last_boost_message (set_logic game g) (BoostResult result),
             Returns)
        | None => (game, RaisesIndexError)
        end
      else if (cmd =? "speed_up")%string then
        let rate := builtins.max 0.1 (tick_rate game * 0.8) in
        (set_last_boost_message (set_tick_rate game rate) (SpeedIncreased rate),
         Returns)
      else if (cmd =? "speed_down")%string then
        let rate := builtins.min 5.0 (tick_rate game * 1.25) in
        (set_last_boost_message (set_tick_rate game rate) (SpeedDecreased rate),
         Returns)
      else if (cmd =? "reset")%string then
        (set_last_boost_message game SelectionReset, Returns)
      else (game, Returns)
  end.

(** [_shutdown]: the save, then [display.cleanup()] and [database.close()],
    which change nothing of the game or of what the database holds; when the
    save raises, neither is reached. *)
Definition _shutdown (game : t D) : t D * Outcome :=
  match GameLogic.save_game (logic game) with
  | (g, Ok _) => (set_logic game g, Returns)
  | (g, Raise e) => (set_logic game g, Raises e)
  end.

End Controller.

End IdleStuffGame.

(* ------------------------------------------------------------------------- *)
(** ** Ncurses display module: the windows and the event log

    A [str] with characters outside ASCII is the string of its UTF-8 bytes. *)

(** [collections.deque(maxlen=...)]: a full deque drops its oldest item when
    a new one is appended. *)
Module deque.
End deque.

(** The slice [l[start:]]: a negative start counts from the end, and a start
    outside the list is brought to its nearer end. *)
Definition slice_from {A} (l : list A) (start : Z) : list A :=
  let len := Z.of_nat (List.length l) in
  let start := if start <? 0 then Z.max 0 (start + len) else Z.min start len in
  skipn (Z.to_nat start) l.

(** The last [n] items of a list, or all of them when it has fewer. *)
Definition lastn {A} (n : nat) (l : list A) : list A :=
  skipn (List.length l - n) l.

Module NCursesWindows.

Record Layout : Type := mk_layout {
  layout_y : Z;
  layout_height : Z
}.

(** [self.layouts] as [__init__] sets it. *)
Definition layouts : dict Layout :=
  [("header", mk_layout 0 3);
   ("resources", mk_layout 3 8);
   ("entities", mk_layout 11 12);
   ("events", mk_layout 23 8);
   ("controls", mk_layout 31 4)].

(** The compact layout for smaller terminals. *)
Definition compact_layouts : dict Layout :=
  [("header", mk_layout 0 2);
   ("resources", mk_layout 2 6);
   ("entities", mk_layout 8 8);
   ("events", mk_layout 16 6);
   ("controls", mk_layout 22 3)].

(** The arguments of a [curses.newwin] call. *)
Record Window : Type := newwin {
  nlines : Z;
  ncols : Z;
  begin_y : Z;
  begin_x : Z
}.

(** [_create_windows] on a screen of [height] lines and [width] columns,
    from the empty [self.windows] of [__init__]. *)
Definition _create_windows (height width : Z) : dict Window :=
  let layouts := if height <? 35 then compact_layouts else layouts in
  fold_left
    (fun (windows : dict Window) (item : string * Layout) =>
       let (name, layout) := item in
       let h := Z.min (layout_height layout) (height - layout_y layout - 1) in
       let w := width - 2 in
       if (0 <? h) && (0 <? w)
       then dict_set windows name (newwin h w (layout_y layout) 1)
       else windows)
    layouts [].



(** The loop of [_render_events] that displays the recent events: the
    entries, with the row each is written on, until the [break]. *)
Fixpoint draw_rows (win_height row : Z) (events : list string)
    : list (Z * string) :=
  match events with
  | [] => []
  | event :: events' =>
      if win_height - 1 <=? row then []
      else (row, event) :: draw_rows win_height (row + 1) events'
  end.

(** The log entries [_render_events] writes, and their rows, in an events
    window of [win_height] lines (each is cut to the width of the screen
    before it is written). *)
Definition displayed_events (win_height : Z) (event_log : list string)
    : list (Z * string) :=
  let row := 2 in
  let max_rows := win_height - 3 in
  draw_rows win_height row (slice_from event_log (- max_rows)).

End NCursesWindows.

(* ========================================================================= *)
(** * Properties *)

Import Closed Persist NCursesDisplay.

#[local] Arguments String.eqb : simpl never.

(** ** Dictionaries *)

Lemma dict_get_modify {V} (d : dict V) (k k' : string) (f : V -> V) :
  dict_get (dict_modify d k f) k' =
  if String.eqb k k' then option_map f (dict_get d k') else dict_get d k'.
Proof.
  induction d as [|[k0 v] d IH]; simpl.
  - now destruct (String.eqb k k').
  - destruct (String.eqb k0 k) eqn:E0; simpl.
    + apply String.eqb_eq in E0; subst k0.
      destruct (String.eqb k k') eqn:E; simpl; [reflexivity|].
      reflexivity.
    + destruct (String.eqb k0 k') eqn:E1; simpl.
      * apply String.eqb_eq in E1; subst k0. now rewrite String.eqb_sym, E0.
      * exact IH.
Qed.

Lemma dict_get_set {V} (d : dict V) (k k' : string) (v : V) :
  dict_get (dict_set d k v) k' =
  if String.eqb k k' then Some v else dict_get d k'.
Proof.
  induction d as [|[k0 v0] d IH]; simpl.
  - reflexivity.
  - destruct (String.eqb k0 k) eqn:E0; simpl.
    + apply String.eqb_eq in E0; subst k0.
      now destruct (String.eqb k k').
    + destruct (String.eqb k0 k') eqn:E1; simpl.
      * apply String.eqb_eq in E1; subst k0. now rewrite String.eqb_sym, E0.
      * exact IH.
Qed.

Lemma dict_get_map_values {V W} (f : V -> W) (d : dict V) (k : string) :
  dict_get (map_values f d) k = option_map f (dict_get d k).
Proof.
  induction d as [|[k0 v] d IH]; simpl; [reflexivity|].
  now destruct (String.eqb k0 k).
Qed.

Lemma dict_keys_modify {V} (d : dict V) k (f : V -> V) :
  dict_keys (dict_modify d k f) = dict_keys d.
Proof.
  induction d as [|[k0 v] d IH]; simpl; [reflexivity|].
  destruct (String.eqb k0 k); simpl; [reflexivity|]. now f_equal.
Qed.

Lemma map_values_values {V W} (f : V -> W) (d : dict V) :
  dict_values (map_values f d) = map f (dict_values d).
Proof.
  unfold dict_values, map_values. rewrite !map_map. reflexivity.
Qed.

(** ** One entity's action *)

Lemma process_entity_action_resources resources rnd e :
  fst (fst (fst (_process_entity_action resources rnd e))) = resources_after resources e.
Proof.
  unfold _process_entity_action, resources_after.
  destruct (is_gathering e); [|reflexivity].
  cbv zeta. unfold RandomModule.random.
  destruct (Qlt_bool _ _); reflexivity.
Qed.

Lemma process_entity_action_entity resources rnd e :
  snd (fst (_process_entity_action resources rnd e)) = entity_after e.
Proof.
  unfold _process_entity_action, entity_after.
  destruct (is_gathering e); [|reflexivity].
  cbv zeta. unfold RandomModule.random.
  destruct (Qlt_bool _ _); reflexivity.
Qed.

Lemma process_entity_action_rnd resources rnd e :
  snd (fst (fst (_process_entity_action resources rnd e))) =
  if is_gathering e
  then RandomModule.mk (RandomModule.tape rnd) (S (RandomModule.cursor rnd))
  else rnd.
Proof.
  unfold _process_entity_action.
  destruct (is_gathering e); [|reflexivity].
  cbv zeta. unfold RandomModule.random.
  destruct (Qlt_bool _ _); reflexivity.
Qed.

Lemma process_entity_action_event resources rnd e :
  snd (_process_entity_action resources rnd e) =
  if is_gathering e then
    if Qlt_bool (RandomModule.tape rnd (RandomModule.cursor rnd)) 0.05
    then Some (discovery e) else None
  else None.
Proof.
  unfold _process_entity_action.
  destruct (is_gathering e); [|reflexivity].
  cbv zeta. unfold RandomModule.random.
  destruct (Qlt_bool _ _); reflexivity.
Qed.

(** ** The loop over the entities *)

Lemma process_entities_closed entities resources rnd :
  process_entities entities resources rnd =
  (map_values entity_after entities,
   fold_left resources_after (dict_values entities) resources,
   drawn rnd (draws_taken (dict_values entities)),
   discoveries (dict_values entities) (RandomModule.tape rnd)
     (RandomModule.cursor rnd)).
Proof.
  unfold drawn. revert resources rnd.
  induction entities as [|[k e] rest IH]; intros resources rnd.
  - simpl. unfold draws_taken. simpl. rewrite Nat.add_0_r. now destruct rnd.
  - cbn [process_entities].
    pose proof (process_entity_action_resources resources rnd e) as Hr.
    pose proof (process_entity_action_entity resources rnd e) as He.
    pose proof (process_entity_action_rnd resources rnd e) as Hn.
    pose proof (process_entity_action_event resources rnd e) as Hv.
    destruct (_process_entity_action resources rnd e) as [[[r1 n1] e1] v1].
    cbn [fst snd] in Hr, He, Hn, Hv. subst r1 e1 n1 v1.
    rewrite IH. cbn [dict_values map snd fold_left map_values fst discoveries].
    unfold draws_taken. cbn [filter].
    destruct (is_gathering e); cbn [List.length RandomModule.tape RandomModule.cursor].
    + rewrite Nat.add_succ_r.
      destruct (Qlt_bool _ _); reflexivity.
    + reflexivity.
Qed.

(** ** The whole tick *)

Lemma advance_closed s rnd :
  advance s rnd =
  (advanced s,
   drawn rnd (draws_taken (dict_values (GameState.entities s))),
   discoveries (dict_values (GameState.entities s)) (RandomModule.tape rnd)
     (RandomModule.cursor rnd)).
Proof.
  unfold advance. cbn [GameState.set_tick GameState.entities GameState.resources].
  rewrite process_entities_closed. reflexivity.
Qed.

Lemma save_game_state_of g : state (fst (save_game g)) = state g.
Proof.
  unfold save_game.
  destruct (GameDatabase.save_game_state (state g) (database g)) as [db' [a|e]];
    reflexivity.
Qed.

Lemma save_game_database g :
  database (fst (save_game g)) =
  fst (GameDatabase.save_game_state (state g) (database g)).
Proof.
  unfold save_game.
  destruct (GameDatabase.save_game_state (state g) (database g)) as [db' [a|e]];
    reflexivity.
Qed.

(** [tick], by cases on the auto-save test. *)
Lemma tick_closed g rnd :
  tick g rnd =
  let rnd' := drawn rnd (draws_taken (dict_values (GameState.entities (state g)))) in
  let events :=
    discoveries (dict_values (GameState.entities (state g)))
      (RandomModule.tape rnd) (RandomModule.cursor rnd) in
  if auto_save_interval g =? 0
  then (advanced_logic g, rnd', Raise ZeroDivisionError)
  else if (GameState.tick (state g) + 1) mod auto_save_interval g =? 0 then
    (fst (save_game (advanced_logic g)), rnd',
     match snd (save_game (advanced_logic g)) with
     | Ok _ => Ok (tick_data (advanced (state g)) (events ++ [auto_saved]))
     | Raise e => Raise e
     end)
  else (advanced_logic g, rnd', Ok (tick_data (advanced (state g)) events)).
Proof.
  unfold tick. rewrite advance_closed. cbv zeta.
  cbn [auto_save_interval set_state].
  destruct (auto_save_interval g =? 0); [reflexivity|].
  replace (GameState.tick (advanced (state g))) with (GameState.tick (state g) + 1).
  2:{ unfold advanced, _update_production_rates. cbv zeta.
      destruct (dict_contains _ _); reflexivity. }
  destruct (_ mod _ =? 0); [|reflexivity].
  unfold advanced_logic, set_state.
  destruct (save_game _) as [g' [u|e]]; reflexivity.
Qed.

Lemma tick_state g rnd :
  state (fst (fst (tick g rnd))) = advanced (state g).
Proof.
  rewrite tick_closed. cbv zeta.
  destruct (auto_save_interval g =? 0); [reflexivity|].
  destruct (_ mod _ =? 0); cbn [fst]; [|reflexivity].
  now rewrite save_game_state_of.
Qed.

Lemma advanced_tick s : GameState.tick (advanced s) = GameState.tick s + 1.
Proof.
  unfold advanced, _update_production_rates. cbv zeta.
  destruct (dict_contains _ _); reflexivity.
Qed.

Lemma advanced_entities s :
  GameState.entities (advanced s) = map_values entity_after (GameState.entities s).
Proof.
  unfold advanced, _update_production_rates. cbv zeta.
  destruct (dict_contains _ _); reflexivity.
Qed.

Lemma advanced_technologies s :
  GameState.technologies (advanced s) = GameState.technologies s.
Proof.
  unfold advanced, _update_production_rates. cbv zeta.
  destruct (dict_contains _ _); reflexivity.
Qed.

Lemma advanced_resources s :
  GameState.resources (advanced s) =
  map_values apply_production
    (set_rate "energy" (energy_rate (map_values entity_after (GameState.entities s)))
       (yielded s)).
Proof.
  unfold advanced, _update_production_rates, set_rate, energy_rate. cbv zeta.
  cbn [GameState.resources GameState.entities].
  destruct (dict_contains (yielded s) "energy") eqn:E; cbn [GameState.resources GameState.set_resources].
  - reflexivity.
  - f_equal. clear -E. unfold dict_contains in E.
    induction (yielded s) as [|[k r] d IH]; simpl in *; [reflexivity|].
    destruct (String.eqb k "energy"); [discriminate|]. f_equal. now apply IH.
Qed.

(** ** The yield step *)

Lemma fold_resources_after_get entities resources k :
  dict_get (fold_left resources_after entities resources) k =
  if String.eqb "energy" k
  then option_map
         (fun r => Resource.set_amount r
                     (fold_left Qplus (gains entities) (Resource.amount r)))
         (dict_get resources k)
  else dict_get resources k.
Proof.
  revert resources.
  induction entities as [|e rest IH]; intros resources.
  - cbn [fold_left gains filter map]. destruct (String.eqb "energy" k); [|reflexivity].
    destruct (dict_get resources k) as [[n a p]|]; reflexivity.
  - cbn [fold_left]. rewrite IH. unfold gains. cbn [filter].
    unfold resources_after.
    destruct (is_gathering e); [|reflexivity].
    cbn [map fold_left].
    destruct (String.eqb "energy" k) eqn:E.
    + apply String.eqb_eq in E. subst k.
      unfold dict_contains.
      destruct (dict_get resources "energy") as [[n a p]|] eqn:G.
      * rewrite dict_get_modify, String.eqb_refl, G. reflexivity.
      * rewrite G. reflexivity.
    + destruct (dict_contains resources "energy"); [|reflexivity].
      now rewrite dict_get_modify, E.
Qed.

Lemma fold_Qplus_le (l : list Q) (a : Q) :
  Forall (fun x => 0 <= x)%Q l -> (a <= fold_left Qplus l a)%Q.
Proof.
  intros H. revert a.
  induction H as [|x l Hx _ IH]; intros a; cbn [fold_left].
  - apply Qle_refl.
  - eapply Qle_trans; [|apply IH]. lra.
Qed.

Lemma Qlt_bool_iff x y : Qlt_bool x y = true <-> (x < y)%Q.
Proof.
  unfold Qlt_bool. rewrite Qlt_alt.
  destruct (x ?= y)%Q; split; congruence.
Qed.

Lemma apply_production_amount r :
  (Resource.amount r <= Resource.amount (apply_production r))%Q.
Proof.
  unfold apply_production.
  destruct (Qlt_bool 0 (Resource.production_rate r)) eqn:E.
  - apply Qlt_bool_iff in E. cbn. lra.
  - apply Qle_refl.
Qed.

Lemma apply_production_rate r :
  Resource.production_rate (apply_production r) = Resource.production_rate r.
Proof. unfold apply_production. now destruct (Qlt_bool _ _). Qed.

(** ** Non-negative states *)

Lemma dict_get_In {V} (d : dict V) k v :
  dict_get d k = Some v -> In v (dict_values d).
Proof.
  induction d as [|[k0 v0] d IH]; simpl; [discriminate|].
  destruct (String.eqb k0 k); intros H.
  - injection H as ->. now left.
  - right. now apply IH.
Qed.

Lemma gathering_experience_nonneg e :
  nonneg_entity e ->
  (0 <= dict_get_default (Entity.experience e) "gathering" 0)%Q.
Proof.
  intros (_ & _ & H). unfold dict_get_default.
  destruct (dict_get (Entity.experience e) "gathering") as [x|] eqn:G.
  - rewrite Forall_forall in H. apply H. eapply dict_get_In; eauto.
  - apply Qle_refl.
Qed.

Lemma gathered_nonneg e : nonneg_entity e -> (0 <= gathered e)%Q.
Proof.
  intros H. pose proof (gathering_experience_nonneg e H) as Hx.
  destruct H as (He & _ & _). unfold gathered.
  set (x := dict_get_default _ _ _) in *.
  set (eff := EntityTraits.efficiency _) in *.
  assert (0 <= eff * x)%Q by (apply Qmult_le_0_compat; assumption).
  nra.
Qed.

Lemma gains_nonneg entities :
  Forall nonneg_entity entities -> Forall (fun x => 0 <= x)%Q (gains entities).
Proof.
  intros H. unfold gains.
  induction H as [|e l He _ IH]; cbn [filter map]; [constructor|].
  destruct (is_gathering e); [|exact IH].
  cbn [map]. constructor; [now apply gathered_nonneg | exact IH].
Qed.

Lemma entity_after_experience_le e :
  nonneg_entity e -> experience_le e (entity_after e).
Proof.
  intros (_ & Hl & _) task x G. unfold entity_after.
  destruct (is_gathering e).
  - cbn [Entity.experience Entity.set_experience].
    rewrite dict_get_set.
    destruct (String.eqb "gathering" task) eqn:E.
    + apply String.eqb_eq in E. subst task.
      eexists. split; [reflexivity|].
      unfold dict_get_default. rewrite G. lra.
    + exists x. split; [exact G | apply Qle_refl].
  - exists x. split; [exact G | apply Qle_refl].
Qed.

Lemma yielded_get s k :
  dict_get (yielded s) k =
  if String.eqb "energy" k
  then option_map
         (fun r => Resource.set_amount r
                     (fold_left Qplus (gains (dict_values (GameState.entities s)))
                                (Resource.amount r)))
         (dict_get (GameState.resources s) k)
  else dict_get (GameState.resources s) k.
Proof. apply fold_resources_after_get. Qed.

(** ** C2: the tick counter and monotonicity *)

(** C2.  One call of [tick] leaves the tick counter exactly one higher; and
    when efficiencies, learning rates, stored amounts and stored experience
    are all non-negative, every resource is still there with an amount that
    is not smaller, and every entity is still there with, for every task it
    had experience in, an experience value that is not smaller. *)
Theorem tick_counts_and_never_decreases (g : GameLogic.t) (rnd : RandomModule.t) :
  let s := state g in
  let s' := state (fst (fst (tick g rnd))) in
  GameState.tick s' = GameState.tick s + 1
  /\ (nonneg_state s ->
      dict_rel amount_le (GameState.resources s) (GameState.resources s')
      /\ dict_rel experience_le (GameState.entities s) (GameState.entities s')).
Proof.
  cbv zeta. rewrite tick_state. split; [apply advanced_tick|].
  intros [He Hr]. split; intros k.
  - rewrite advanced_resources, dict_get_map_values.
    unfold set_rate. rewrite dict_get_modify, yielded_get.
    destruct (String.eqb "energy" k);
      destruct (dict_get (GameState.resources (state g)) k) as [r|];
      cbn [option_map]; trivial; unfold amount_le.
    + eapply Qle_trans; [|apply apply_production_amount].
      cbn [Resource.amount Resource.set_amount Resource.set_production_rate].
      apply fold_Qplus_le, gains_nonneg, He.
    + apply apply_production_amount.
  - rewrite advanced_entities, dict_get_map_values.
    destruct (dict_get (GameState.entities (state g)) k) as [e|] eqn:G;
      cbn [option_map]; trivial.
    apply entity_after_experience_le.
    rewrite Forall_forall in He. apply He. eapply dict_get_In; eauto.
Qed.

(** The scenario state is non-negative, and its tick decreases nothing. *)
Lemma tick_counts_and_never_decreases_witness :
  nonneg_state (state Scenario.logic)
  /\ dict_rel amount_le
       (GameState.resources (state Scenario.logic))
       (GameState.resources (state (fst (fst (tick Scenario.logic Scenario.quiet)))))
  /\ dict_rel experience_le
       (GameState.entities (state Scenario.logic))
       (GameState.entities (state (fst (fst (tick Scenario.logic Scenario.quiet))))).
Proof.
  split; [split; repeat constructor; cbn; lra|].
  apply (proj2 (tick_counts_and_never_decreases Scenario.logic Scenario.quiet)).
  split; repeat constructor; cbn; lra.
Defined.

(** ** C1: the three-gatherer scenario *)

(** C1, as the code has it.  From a state whose only resource is energy =
    10.0 and whose entities are three scenario gatherers, one tick adds 3.0
    to energy in the yield step (13.0), brings each gathering experience to
    0.1, sets the production rate of energy from the experience just gained,
    3 * 1.0 * (1 + 0.1 * 0.1) = 3.03, and adds that rate, so that energy ends
    at 16.03.  No draw plays a part in these numbers. *)
Theorem scenario_tick (g : GameLogic.t) (rnd : RandomModule.t)
    (name : string) (rate : Q) (k0 k1 k2 : string) (e0 e1 e2 : Entity.t) :
  GameState.resources (state g) = [("energy", Resource.mk name 10.0 rate)] ->
  GameState.entities (state g) = [(k0, e0); (k1, e1); (k2, e2)] ->
  scenario_gatherer e0 -> scenario_gatherer e1 -> scenario_gatherer e2 ->
  let s' := state (fst (fst (tick g rnd))) in
  (exists r,
     snd (fst (fst (process_entities (GameState.entities (state g))
                      (GameState.resources (state g)) rnd)))
     = [("energy", r)]
     /\ (Resource.amount r == 13.0)%Q)
  /\ (exists e0' e1' e2',
        GameState.entities s' = [(k0, e0'); (k1, e1'); (k2, e2')]
        /\ gathering_experience_is e0' 0.1
        /\ gathering_experience_is e1' 0.1
        /\ gathering_experience_is e2' 0.1)
  /\ (exists r,
        GameState.resources s' = [("energy", r)]
        /\ (Resource.production_rate r == 3.03)%Q
        /\ (Resource.amount r == 16.03)%Q).
Proof.
  intros Hr He H0 H1 H2. cbv zeta. rewrite tick_state.
  destruct e0 as [i0 n0 t0 [f0 l0 c0 m0] x0 a0], e1 as [i1 n1 t1 [f1 l1 c1 m1] x1 a1],
           e2 as [i2 n2 t2 [f2 l2 c2 m2] x2 a2].
  unfold scenario_gatherer in H0, H1, H2. cbn in H0, H1, H2.
  destruct H0 as (-> & -> & -> & -> & ->), H1 as (-> & -> & -> & -> & ->),
           H2 as (-> & -> & -> & -> & ->).
  rewrite process_entities_closed. cbn [fst snd].
  unfold advanced, yielded. rewrite Hr, He.
  split; [|split].
  - eexists. split; [vm_compute; reflexivity|]. vm_compute. reflexivity.
  - do 3 eexists. split; [vm_compute; reflexivity|].
    repeat split; (eexists; split; [reflexivity|vm_compute; reflexivity]).
  - eexists. split; [vm_compute; reflexivity|]. split; vm_compute; reflexivity.
Qed.

(** The scenario itself, with a generator that gives no discovery. *)
Lemma scenario_tick_witness :
  exists r,
    GameState.resources (state (fst (fst (tick Scenario.logic Scenario.quiet))))
    = [("energy", r)]
    /\ (Resource.production_rate r == 3.03)%Q
    /\ (Resource.amount r == 16.03)%Q.
Proof.
  refine (proj2 (proj2 (scenario_tick Scenario.logic Scenario.quiet "energy" 0.0
                          "entity_0" "entity_1" "entity_2" _ _ _ _ _ _ _ _))).
  - reflexivity.
  - reflexivity.
  - repeat split.
  - repeat split.
  - repeat split.
Defined.

(** C1 as stated fails: in the scenario, with no discovery event, the rate
    is not 3.0 and the final amount is not 16.0. *)
Lemma scenario_energy_is_not_16 :
  let out := tick Scenario.logic Scenario.quiet in
  exists data r,
    snd out = Ok data
    /\ td_events data = []
    /\ dict_get (GameState.resources (state (fst (fst out)))) "energy" = Some r
    /\ ~ (Resource.production_rate r == 3.0)%Q
    /\ ~ (Resource.amount r == 16.0)%Q.
Proof.
  cbv zeta. do 2 eexists.
  split; [vm_compute; reflexivity|].
  split; [reflexivity|].
  split; [vm_compute; reflexivity|].
  split; intros H; vm_compute in H; discriminate H.
Qed.

(** ** C3: the player boost *)

(** C3, as the code has it.  An unknown entity id, or an entity that is not
    gathering, gives ["Boost failed!"] and the same [GameLogic] object.  For a
    known gathering entity the success text carries multiplier * efficiency;
    when the state has an energy resource that amount is added to energy and
    to nothing else (database, interval, tick, entities, technologies, tokens,
    boost factor, the other resources, the order of the keys and energy's
    name and rate are as they were); when it has none, nothing at all
    changes. *)
Theorem apply_player_boost_effect (g : GameLogic.t) (entity_id : string) (m : Q) :
  (dict_get (GameState.entities (state g)) entity_id = None ->
   apply_player_boost g entity_id m = (g, BoostFailed))
  /\ (forall e,
        dict_get (GameState.entities (state g)) entity_id = Some e ->
        is_gathering e = false ->
        apply_player_boost g entity_id m = (g, BoostFailed))
  /\ (forall e r,
        dict_get (GameState.entities (state g)) entity_id = Some e ->
        is_gathering e = true ->
        dict_get (GameState.resources (state g)) "energy" = Some r ->
        let q := (m * EntityTraits.efficiency (Entity.traits e))%Q in
        exists resources',
          apply_player_boost g entity_id m =
          (GameLogic.mk (database g)
             (GameState.mk (GameState.tick (state g)) resources'
                (GameState.entities (state g)) (GameState.technologies (state g))
                (GameState.prestige_tokens (state g))
                (GameState.player_boost (state g)))
             (auto_save_interval g),
           Boosted (Entity.name e) q)
          /\ dict_keys resources' = dict_keys (GameState.resources (state g))
          /\ dict_get resources' "energy"
             = Some (Resource.mk (Resource.name r) (Resource.amount r + q)
                                 (Resource.production_rate r))
          /\ forall k, k <> "energy" ->
               dict_get resources' k = dict_get (GameState.resources (state g)) k)
  /\ (forall e,
        dict_get (GameState.entities (state g)) entity_id = Some e ->
        is_gathering e = true ->
        dict_get (GameState.resources (state g)) "energy" = None ->
        apply_player_boost g entity_id m =
        (g, Boosted (Entity.name e)
              (m * EntityTraits.efficiency (Entity.traits e))%Q)).
Proof.
  unfold apply_player_boost. repeat split.
  - intros ->. reflexivity.
  - intros e -> ->. reflexivity.
  - intros e r -> -> Hr. cbv zeta. unfold dict_contains. rewrite Hr.
    eexists. split; [reflexivity|]. split; [apply dict_keys_modify|]. split.
    + rewrite dict_get_modify, String.eqb_refl, Hr. reflexivity.
    + intros k Hk. rewrite dict_get_modify.
      destruct (String.eqb "energy" k) eqn:E; [|reflexivity].
      apply String.eqb_eq in E. congruence.
  - intros e -> -> Hr. unfold dict_contains. rewrite Hr. reflexivity.
Qed.

(** Boosting the first gatherer of the scenario by 2.0 adds 2.0 * 1.0 to energy. *)
Lemma apply_player_boost_effect_witness :
  exists resources',
    apply_player_boost Scenario.logic "entity_0" 2.0 =
    (GameLogic.mk GameDatabase.empty
       (GameState.mk 0 resources' Scenario.entities [] 0 1.0) 10,
     Boosted "Zara" (2.0 * 1.0))
    /\ dict_keys resources' = ["energy"]
    /\ dict_get resources' "energy"
       = Some (Resource.mk "energy" (10.0 + 2.0 * 1.0) 0.0)
    /\ forall k, k <> "energy" ->
         dict_get resources' k
         = dict_get (GameState.resources (state Scenario.logic)) k.
Proof.
  refine (proj1 (proj2 (proj2
            (apply_player_boost_effect Scenario.logic "entity_0" 2.0)))
            (Scenario.gatherer "entity_0" "Zara")
            (Resource.mk "energy" 10.0 0.0) _ _ _); reflexivity.
Defined.

(** C3 as stated fails: a known, gathering entity is boosted with success
    (for 2.0 * 1.0) while no resource of the state gains that amount; the
    state is the one before. *)
Lemma boost_succeeds_without_any_gain :
  apply_player_boost NoEnergy.logic "entity_0" 2.0
  = (NoEnergy.logic, Boosted "Zara" (2.0 * 1.0))
  /\ ~ (exists k r r',
          dict_get (GameState.resources (state NoEnergy.logic)) k = Some r
          /\ dict_get (GameState.resources
                         (state (fst (apply_player_boost NoEnergy.logic "entity_0" 2.0))))
                      k = Some r'
          /\ (Resource.amount r' == Resource.amount r + 2.0 * 1.0)%Q).
Proof.
  split; [reflexivity|].
  intros (k & r & r' & H & H' & Hq).
  change (fst (apply_player_boost NoEnergy.logic "entity_0" 2.0))
    with NoEnergy.logic in H'.
  rewrite H in H'. injection H' as <-. lra.
Qed.

(** ** C4: the production rate after a tick *)

Lemma set_rate_get k rate d k' :
  dict_get (set_rate k rate d) k' =
  if String.eqb k k'
  then option_map (fun r => Resource.set_production_rate r rate) (dict_get d k')
  else dict_get d k'.
Proof. apply dict_get_modify. Qed.

(** C4, as the code has it.  After a tick the production rate of the resource
    under the key ["energy"] is the sum of efficiency * (1 + experience of
    gathering * 0.1) over the entities of type ["gatherer"] whose task is
    ["gathering"], with the experience the tick has just given them; it is a
    function of the entities before the tick alone.  Every other resource
    keeps the rate it had. *)
Theorem production_rate_after_tick (g : GameLogic.t) (rnd : RandomModule.t) :
  let s := state g in
  let s' := state (fst (fst (tick g rnd))) in
  (forall r',
     dict_get (GameState.resources s') "energy" = Some r' ->
     Resource.production_rate r'
     = sum (map gatherer_rate
              (filter is_gatherer (dict_values (GameState.entities s'))))
     /\ Resource.production_rate r'
        = sum (map gatherer_rate
                 (filter is_gatherer
                    (map entity_after (dict_values (GameState.entities s))))))
  /\ (forall k r',
        k <> "energy" ->
        dict_get (GameState.resources s') k = Some r' ->
        exists r,
          dict_get (GameState.resources s) k = Some r
          /\ Resource.production_rate r' = Resource.production_rate r).
Proof.
  cbv zeta. rewrite tick_state. split.
  - intros r'. rewrite advanced_entities, advanced_resources, dict_get_map_values,
      set_rate_get, String.eqb_refl.
    destruct (dict_get (yielded (state g)) "energy") as [r|]; [|discriminate].
    cbn [option_map]. intros [= <-].
    rewrite apply_production_rate, <- map_values_values. split; reflexivity.
  - intros k r' Hk. rewrite advanced_resources, dict_get_map_values, set_rate_get.
    destruct (String.eqb "energy" k) eqn:E.
    { apply String.eqb_eq in E. congruence. }
    rewrite yielded_get, E.
    destruct (dict_get (GameState.resources (state g)) k) as [r|]; [|discriminate].
    cbn [option_map]. intros [= <-]. exists r. split; [reflexivity|].
    apply apply_production_rate.
Qed.

(** In the scenario the rate of energy is that sum. *)
Lemma production_rate_after_tick_witness :
  let s' := state (fst (fst (tick Scenario.logic Scenario.quiet))) in
  exists r',
    dict_get (GameState.resources s') "energy" = Some r'
    /\ Resource.production_rate r'
       = sum (map gatherer_rate
                (filter is_gatherer (dict_values (GameState.entities s')))).
Proof.
  cbv zeta. eexists. split; [vm_compute; reflexivity|].
  refine (proj1 (proj1 (production_rate_after_tick Scenario.logic Scenario.quiet) _ _)).
  vm_compute. reflexivity.
Defined.

(** C4 as stated fails: the philosopher's task feeds energy (its yield is
    added), yet it does not count in the rate of energy, which is 0 and not
    the claimed 1.01; and the rate of the second resource, fed by nobody, is
    the stored 5.0 and not 0. *)
Lemma rate_is_not_the_sum_over_producers :
  let s' := state (fst (fst (tick Philosopher.logic Scenario.quiet))) in
  exists energy knowledge,
    dict_get (GameState.resources s') "energy" = Some energy
    /\ dict_get (GameState.resources s') "knowledge" = Some knowledge
    /\ (Resource.amount energy == 11.0)%Q
    /\ (Resource.production_rate energy == 0)%Q
    /\ (claimed_rate s' "energy" == 1.01)%Q
    /\ ~ (Resource.production_rate energy == claimed_rate s' "energy")%Q
    /\ (Resource.production_rate knowledge == 5.0)%Q
    /\ ~ (Resource.production_rate knowledge == claimed_rate s' "knowledge")%Q.
Proof.
  cbv zeta. do 2 eexists.
  split; [vm_compute; reflexivity|].
  split; [vm_compute; reflexivity|].
  repeat split; try (vm_compute; reflexivity);
    intros H; vm_compute in H; discriminate H.
Qed.

(** ** C6: the input queue *)

(** C6, as the code has it.  The queue is a first-in first-out queue without
    bound.  When two keys are put before the loop takes any, both are kept;
    the next [get_input] gives what the first key stands for, exactly as if
    the second had not been put, and leaves the second in the queue; the
    [get_input] after that gives what the second key stands for.  A round of
    the input thread that reads a key always adds it, whatever is waiting. *)
Theorem input_queue_is_fifo (selection : Z) (items : list (string * string * string))
    (k1 k2 : Z) :
  let d := NCursesDisplay.mk [] selection items in
  let d2 := put (put d k1) k2 in
  input_queue d2 = [k1; k2]
  /\ snd (get_input d2) = snd (get_input (put d k1))
  /\ input_queue (fst (get_input d2)) = [k2]
  /\ get_input (fst (get_input d2)) = get_input (put (fst (get_input (put d k1))) k2)
  /\ (forall d' key,
        key <> -1 ->
        exists d'',
          _input_handler_step d' (Key key) = Some d''
          /\ input_queue d'' = input_queue d' ++ [key]).
Proof.
  cbv zeta. split; [reflexivity|].
  assert (H : forall q,
             get_input (NCursesDisplay.mk (k1 :: q) selection items) =
             (NCursesDisplay.mk q (current_selection
                                     (fst (get_input (NCursesDisplay.mk [k1] selection items))))
                                items,
              snd (get_input (NCursesDisplay.mk [k1] selection items)))).
  { intros q. unfold get_input. cbn [input_queue current_selection selectable_items].
    repeat (destruct (_ =? _); cbn [orb];
            [try reflexivity; destruct (_ && _); reflexivity|]).
    reflexivity. }
  unfold put. cbn [input_queue current_selection selectable_items app].
  rewrite (H [k2]), (H []). cbn [fst snd input_queue].
  repeat split.
  intros d' key Hk. unfold _input_handler_step.
  apply Z.eqb_neq in Hk. rewrite Hk. cbn [negb]. eexists. split; reflexivity.
Qed.

(** A key read while another is waiting is added behind it. *)
Lemma input_queue_is_fifo_witness :
  exists d'',
    _input_handler_step (put NCursesDisplay.new (ord "q")) (Key (ord "s")) = Some d''
    /\ input_queue d'' = input_queue (put NCursesDisplay.new (ord "q")) ++ [ord "s"].
Proof.
  apply (proj2 (proj2 (proj2 (proj2 (input_queue_is_fifo 0 [] 0 0))))
           (put NCursesDisplay.new (ord "q")) (ord "s")).
  discriminate.
Defined.

(** C6 as stated fails: after the keys q and s are put, two keys are
    waiting, and the next [get_input] gives "quit", not "save". *)
Lemma first_key_wins_and_both_are_kept :
  let d := put (put NCursesDisplay.new (ord "q")) (ord "s") in
  List.length (input_queue d) = 2%nat
  /\ snd (get_input d) = Some "quit"
  /\ snd (get_input d) <> Some "save"
  /\ input_queue (fst (get_input d)) = [ord "s"]
  /\ snd (get_input (fst (get_input d))) = Some "save".
Proof.
  cbv zeta. repeat split; try reflexivity.
  vm_compute. discriminate.
Qed.

(** ** C7: what a tick does to the database *)

Lemma tick_database g rnd :
  database (fst (fst (tick g rnd))) =
  if auto_save_interval g =? 0 then database g
  else if (GameState.tick (state g) + 1) mod auto_save_interval g =? 0
       then fst (GameDatabase.save_game_state (advanced (state g)) (database g))
       else database g.
Proof.
  rewrite tick_closed. cbv zeta.
  destruct (auto_save_interval g =? 0); [reflexivity|].
  destruct (_ mod _ =? 0); cbn [fst]; [|reflexivity].
  now rewrite save_game_database.
Qed.

Lemma tick_result g rnd :
  snd (tick g rnd) =
  let events :=
    discoveries (dict_values (GameState.entities (state g)))
      (RandomModule.tape rnd) (RandomModule.cursor rnd) in
  if auto_save_interval g =? 0 then Raise ZeroDivisionError
  else if (GameState.tick (state g) + 1) mod auto_save_interval g =? 0 then
    match snd (GameDatabase.save_game_state (advanced (state g)) (database g)) with
    | Ok _ => Ok (tick_data (advanced (state g)) (events ++ [auto_saved]))
    | Raise e => Raise e
    end
  else Ok (tick_data (advanced (state g)) events).
Proof.
  rewrite tick_closed. cbv zeta.
  destruct (auto_save_interval g =? 0); [reflexivity|].
  destruct (_ mod _ =? 0); cbn [snd]; [|reflexivity].
  unfold save_game, advanced_logic. cbn [state database set_state].
  destruct (GameDatabase.save_game_state _ _) as [db' [a|e]]; reflexivity.
Qed.

Lemma tick_rnd g rnd :
  snd (fst (tick g rnd)) =
  drawn rnd (draws_taken (dict_values (GameState.entities (state g)))).
Proof.
  rewrite tick_closed. cbv zeta.
  destruct (auto_save_interval g =? 0); [reflexivity|].
  destruct (_ mod _ =? 0); reflexivity.
Qed.

Lemma discoveries_type entities tape cursor ev :
  In ev (discoveries entities tape cursor) -> ev_type ev = "discovery".
Proof.
  revert cursor.
  induction entities as [|e rest IH]; intros cursor; cbn [discoveries].
  - intros [].
  - destruct (is_gathering e); [|apply IH].
    destruct (Qlt_bool _ _); [|apply IH].
    intros [<-|H]; [reflexivity | now apply IH in H].
Qed.

Lemma discoveries_not_auto_saved entities tape cursor :
  ~ In auto_saved (discoveries entities tape cursor).
Proof. intros H. apply discoveries_type in H. discriminate H. Qed.

Lemma save_game_state_returns_1 s db db' a :
  GameDatabase.save_game_state s db = (db', Ok a) -> a = 1.
Proof.
  unfold GameDatabase.save_game_state, GameDatabase.bind. intros E.
  repeat match type of E with
         | context [match ?x with _ => _ end] =>
             destruct x as [? [?|?]]; try discriminate
         end.
  unfold GameDatabase.ret in E. congruence.
Qed.

(** C7, as the code has it.  [tick] itself writes the database: when the
    counter it has just incremented is a multiple of the interval, the
    database it leaves is the one [save_game_state] makes of the state just
    computed, and the system event is reported only when that save did not
    raise.  On every other tick the database is untouched. *)
Theorem tick_performs_the_save (g : GameLogic.t) (rnd : RandomModule.t) :
  let cadence :=
    negb (auto_save_interval g =? 0)
    && ((GameState.tick (state g) + 1) mod auto_save_interval g =? 0) in
  let s' := state (fst (fst (tick g rnd))) in
  database (fst (fst (tick g rnd))) =
    (if cadence
     then fst (GameDatabase.save_game_state s' (database g))
     else database g)
  /\ (forall data,
        snd (tick g rnd) = Ok data ->
        In auto_saved (td_events data) ->
        cadence = true
        /\ GameDatabase.save_game_state s' (database g)
           = (database (fst (fst (tick g rnd))), Ok 1)).
Proof.
  cbv zeta. rewrite tick_state, tick_database, tick_result. cbv zeta.
  destruct (auto_save_interval g =? 0); cbn [negb andb];
    [split; [reflexivity|discriminate]|].
  destruct (_ mod _ =? 0).
  - split; [reflexivity|]. intros data H _. split; [reflexivity|].
    destruct (GameDatabase.save_game_state _ _) as [db' [a|e]] eqn:E;
      cbn [fst snd] in *; [|discriminate].
    now rewrite (save_game_state_returns_1 _ _ _ _ E).
  - split; [reflexivity|]. intros data [= <-] Hin.
    now apply discoveries_not_auto_saved in Hin.
Qed.

(** The tenth tick of the scenario saves, and reports it. *)
Lemma tick_performs_the_save_witness :
  exists data,
    snd (tick Scenario.logic_at_9 Scenario.quiet) = Ok data
    /\ In auto_saved (td_events data)
    /\ GameDatabase.save_game_state
         (state (fst (fst (tick Scenario.logic_at_9 Scenario.quiet))))
         (database Scenario.logic_at_9)
       = (database (fst (fst (tick Scenario.logic_at_9 Scenario.quiet))), Ok 1).
Proof.
  eexists. split; [vm_compute; reflexivity|]. split; [now left|].
  refine (proj2 (proj2 (tick_performs_the_save Scenario.logic_at_9 Scenario.quiet)
                   _ _ _)).
  - vm_compute. reflexivity.
  - now left.
Defined.

(** C7 as stated fails: the tenth tick of the scenario, run on an empty
    database, leaves a database that holds the saved game. *)
Lemma tenth_tick_writes_the_database :
  let g' := fst (fst (tick Scenario.logic_at_9 Scenario.quiet)) in
  database Scenario.logic_at_9 = GameDatabase.empty
  /\ GameDatabase.game_state (database g') = [Row.mk_game_state 1 10 0 1.0]
  /\ List.length (GameDatabase.resources (database g')) = 1%nat
  /\ List.length (GameDatabase.entities (database g')) = 3%nat
  /\ List.length (GameDatabase.entity_experience (database g')) = 3%nat
  /\ database g' <> database Scenario.logic_at_9.
Proof.
  cbv zeta. repeat split; try reflexivity.
  vm_compute. discriminate.
Qed.

(** ** C8: the draws of a tick *)

Lemma discoveries_agree entities t1 c1 t2 c2 :
  (forall i, (i < draws_taken entities)%nat -> t1 (c1 + i)%nat = t2 (c2 + i)%nat) ->
  discoveries entities t1 c1 = discoveries entities t2 c2.
Proof.
  revert c1 c2.
  induction entities as [|e rest IH]; intros c1 c2 H; cbn [discoveries];
    [reflexivity|].
  unfold draws_taken in H. cbn [filter] in H.
  destruct (is_gathering e).
  - cbn [List.length] in H.
    assert (H0 : t1 c1 = t2 c2).
    { specialize (H 0%nat). rewrite !Nat.add_0_r in H. apply H. lia. }
    rewrite H0.
    assert (Hr : discoveries rest t1 (S c1) = discoveries rest t2 (S c2)).
    { apply IH. intros i Hi. specialize (H (S i)).
      rewrite !Nat.add_succ_r in H. apply H. unfold draws_taken in Hi. lia. }
    now rewrite Hr.
  - now apply IH.
Qed.

(** C8, as the code has it.  The draws come from the generator of Python's
    [random] module, which is global to the process and is no argument of
    [tick].  One tick takes one draw for each entity that is gathering, in
    the order of the entity map, and none for the others; the entity has its
    discovery event when its own draw is below 0.05.  The state a tick leaves
    does not depend on the generator at all; and when two generators agree
    on the draws the tick takes, the two runs leave the same game, return the
    same result with the same events, and have each advanced their generator
    by the number of gathering entities. *)
Theorem tick_draws_from_the_global_generator (g : GameLogic.t)
    (r1 r2 : RandomModule.t) :
  let entities := dict_values (GameState.entities (state g)) in
  let n := draws_taken entities in
  state (fst (fst (tick g r1))) = state (fst (fst (tick g r2)))
  /\ snd (fst (tick g r1)) = drawn r1 n
  /\ (forall data,
        snd (tick g r1) = Ok data ->
        filter (fun ev => String.eqb (ev_type ev) "discovery") (td_events data)
        = discoveries entities (RandomModule.tape r1) (RandomModule.cursor r1))
  /\ ((forall i, (i < n)%nat ->
         RandomModule.tape r1 (RandomModule.cursor r1 + i)%nat
         = RandomModule.tape r2 (RandomModule.cursor r2 + i)%nat) ->
      fst (fst (tick g r1)) = fst (fst (tick g r2))
      /\ snd (tick g r1) = snd (tick g r2)).
Proof.
  cbv zeta. split; [now rewrite !tick_state|]. split; [apply tick_rnd|]. split.
  - intros data. rewrite tick_result. cbv zeta.
    assert (Hf : forall l,
               (forall ev, In ev l -> ev_type ev = "discovery") ->
               filter (fun ev => String.eqb (ev_type ev) "discovery") l = l).
    { induction l as [|ev l IH]; intros H; cbn [filter]; [reflexivity|].
      rewrite (H ev (or_introl eq_refl)), String.eqb_refl.
      f_equal. apply IH. intros ev' H'. apply H. now right. }
    destruct (auto_save_interval g =? 0); [discriminate|].
    destruct (_ mod _ =? 0).
    + destruct (snd (GameDatabase.save_game_state _ _)); [|discriminate].
      intros [= <-]. cbn [td_events tick_data].
      rewrite filter_app, Hf by (intros ev; apply discoveries_type).
      cbn. apply app_nil_r.
    + intros [= <-]. cbn [td_events tick_data].
      apply Hf. intros ev; apply discoveries_type.
  - intros H. apply discoveries_agree in H.
    rewrite !tick_closed. cbv zeta. rewrite H.
    destruct (auto_save_interval g =? 0); [split; reflexivity|].
    destruct (_ mod _ =? 0); split; reflexivity.
Qed.

(** The scenario takes three draws: two generators that agree on three draws
    and differ afterwards give the same tick. *)
Lemma tick_draws_from_the_global_generator_witness :
  fst (fst (tick Scenario.logic Scenario.quiet))
  = fst (fst (tick Scenario.logic Scenario.quiet_then_lucky))
  /\ snd (tick Scenario.logic Scenario.quiet)
     = snd (tick Scenario.logic Scenario.quiet_then_lucky).
Proof.
  refine (proj2 (proj2 (proj2
            (tick_draws_from_the_global_generator Scenario.logic Scenario.quiet
               Scenario.quiet_then_lucky))) _).
  intros i Hi. vm_compute in Hi.
  destruct i as [|[|[|i]]]; try reflexivity.
  exfalso. revert Hi. clear. intros Hi. repeat apply le_S_n in Hi. inversion Hi.
Defined.

(** C8 as stated fails: [tick] is given no randomness source; the same call
    on the same game gives no event under one state of the global generator
    and three discovery events under another. *)
Lemma same_call_other_events :
  exists quiet_data lucky_data,
    snd (tick Scenario.logic Scenario.quiet) = Ok quiet_data
    /\ snd (tick Scenario.logic Scenario.lucky) = Ok lucky_data
    /\ td_events quiet_data = []
    /\ map ev_type (td_events lucky_data) = ["discovery"; "discovery"; "discovery"]
    /\ td_events quiet_data <> td_events lucky_data.
Proof.
  do 2 eexists.
  split; [vm_compute; reflexivity|].
  split; [vm_compute; reflexivity|].
  repeat split. discriminate.
Qed.

(** ** Saving: when [save_game_state] does not raise *)

Lemma existsb_false {A} (f : A -> bool) (l : list A) :
  (forall x, In x l -> f x = false) -> existsb f l = false.
Proof.
  intros H. induction l as [|x l IH]; cbn [existsb]; [reflexivity|].
  rewrite (H x (or_introl eq_refl)). apply IH. intros y Hy. apply H. now right.
Qed.

Lemma insert_resources_loop (l : list Resource.t) (db : GameDatabase.t) :
  NoDup (map Resource.name l) ->
  (forall r', In r' (GameDatabase.resources db) -> Row.res_game_id r' = 1 ->
              ~ In (Row.res_name r') (map Resource.name l)) ->
  GameDatabase.for_each l
    (fun resource => GameDatabase.insert_resources (resource_row resource)) db
  = (GameDatabase.mk (GameDatabase.game_state db)
       (GameDatabase.resources db ++ map resource_row l)
       (GameDatabase.entities db) (GameDatabase.entity_experience db)
       (GameDatabase.technologies db),
     Ok tt).
Proof.
  revert db. induction l as [|a l IH]; intros db Hnd Hdb.
  - cbn. rewrite app_nil_r. now destruct db.
  - cbn [GameDatabase.for_each map]. unfold GameDatabase.bind.
    unfold GameDatabase.insert_resources at 1.
    rewrite existsb_false.
    2:{ intros r' Hr'. unfold GameDatabase.same_resource. cbn [resource_row Row.res_game_id Row.res_name].
        destruct (Row.res_game_id r' =? 1) eqn:E1; [|reflexivity].
        destruct (String.eqb (Row.res_name r') (Resource.name a)) eqn:E2; [|reflexivity].
        exfalso. apply Z.eqb_eq in E1. apply String.eqb_eq in E2.
        apply (Hdb r' Hr' E1). left. now symmetry. }
    inversion Hnd as [|? ? Hnotin Hnd']; subst.
    rewrite IH; cbn [GameDatabase.resources GameDatabase.game_state
                       GameDatabase.entities GameDatabase.entity_experience
                       GameDatabase.technologies].
    + now rewrite <- app_assoc.
    + exact Hnd'.
    + intros r' Hr' Hg Hin. apply in_app_or in Hr'. destruct Hr' as [Hr'|[<-|[]]].
      * apply (Hdb r' Hr' Hg). now right.
      * now apply Hnotin.
Qed.

Lemma insert_technologies_loop (tick : Z) (l : list string) (db : GameDatabase.t) :
  NoDup l ->
  (forall r', In r' (GameDatabase.technologies db) -> Row.tech_game_id r' = 1 ->
              ~ In (Row.tech_name r') l) ->
  GameDatabase.for_each l
    (fun tech => GameDatabase.insert_technologies (technology_row tick tech)) db
  = (GameDatabase.mk (GameDatabase.game_state db) (GameDatabase.resources db)
       (GameDatabase.entities db) (GameDatabase.entity_experience db)
       (GameDatabase.technologies db ++ map (technology_row tick) l),
     Ok tt).
Proof.
  revert db. induction l as [|a l IH]; intros db Hnd Hdb.
  - cbn. rewrite app_nil_r. now destruct db.
  - cbn [GameDatabase.for_each map]. unfold GameDatabase.bind.
    unfold GameDatabase.insert_technologies at 1.
    rewrite existsb_false.
    2:{ intros r' Hr'. unfold GameDatabase.same_technology.
        cbn [technology_row Row.tech_game_id Row.tech_name].
        destruct (Row.tech_game_id r' =? 1) eqn:E1; [|reflexivity].
        destruct (String.eqb (Row.tech_name r') a) eqn:E2; [|reflexivity].
        exfalso. apply Z.eqb_eq in E1. apply String.eqb_eq in E2.
        apply (Hdb r' Hr' E1). now left. }
    inversion Hnd as [|? ? Hnotin Hnd']; subst.
    rewrite IH; cbn [GameDatabase.resources GameDatabase.game_state
                       GameDatabase.entities GameDatabase.entity_experience
                       GameDatabase.technologies].
    + now rewrite <- app_assoc.
    + exact Hnd'.
    + intros r' Hr' Hg Hin. apply in_app_or in Hr'. destruct Hr' as [Hr'|[<-|[]]].
      * apply (Hdb r' Hr' Hg). now right.
      * now apply Hnotin.
Qed.

Lemma insert_experience_loop (entity_id : string) (items : dict Q)
    (db : GameDatabase.t) :
  dict_wf items ->
  (forall r', In r' (GameDatabase.entity_experience db) ->
              Row.exp_game_id r' = 1 -> Row.exp_entity_id r' = entity_id ->
              ~ In (Row.exp_task_type r') (dict_keys items)) ->
  GameDatabase.for_each items
    (fun item => GameDatabase.insert_entity_experience (experience_row entity_id item))
    db
  = (GameDatabase.mk (GameDatabase.game_state db) (GameDatabase.resources db)
       (GameDatabase.entities db)
       (GameDatabase.entity_experience db ++ map (experience_row entity_id) items)
       (GameDatabase.technologies db),
     Ok tt).
Proof.
  unfold dict_wf, dict_keys.
  revert db. induction items as [|a l IH]; intros db Hnd Hdb.
  - cbn. rewrite app_nil_r. now destruct db.
  - cbn [GameDatabase.for_each map]. unfold GameDatabase.bind.
    unfold GameDatabase.insert_entity_experience at 1.
    rewrite existsb_false.
    2:{ intros r' Hr'. unfold GameDatabase.same_experience.
        cbn [experience_row Row.exp_game_id Row.exp_entity_id Row.exp_task_type].
        destruct (Row.exp_game_id r' =? 1) eqn:E1; [|reflexivity].
        destruct (String.eqb (Row.exp_entity_id r') entity_id) eqn:E2; [|reflexivity].
        destruct (String.eqb (Row.exp_task_type r') (fst a)) eqn:E3; [|reflexivity].
        exfalso. apply Z.eqb_eq in E1. apply String.eqb_eq in E2, E3.
        apply (Hdb r' Hr' E1 E2). left. now symmetry. }
    cbn [map] in Hnd. inversion Hnd as [|? ? Hnotin Hnd']; subst.
    rewrite IH; cbn [GameDatabase.resources GameDatabase.game_state
                       GameDatabase.entities GameDatabase.entity_experience
                       GameDatabase.technologies].
    + now rewrite <- app_assoc.
    + exact Hnd'.
    + intros r' Hr' Hg He Hin. apply in_app_or in Hr'.
      destruct Hr' as [Hr'|[<-|[]]].
      * apply (Hdb r' Hr' Hg He). now right.
      * now apply Hnotin.
Qed.

Lemma experience_rows_entity_id e r :
  In r (experience_rows e) ->
  Row.exp_game_id r = 1 /\ Row.exp_entity_id r = Entity.id e.
Proof.
  unfold experience_rows. rewrite in_map_iff. intros (item & <- & _).
  now split.
Qed.

Lemma insert_entities_loop (l : list Entity.t) (db : GameDatabase.t) :
  NoDup (map Entity.id l) ->
  Forall (fun e => dict_wf (Entity.experience e)) l ->
  (forall r', In r' (GameDatabase.entities db) -> Row.ent_game_id r' = 1 ->
              ~ In (Row.ent_entity_id r') (map Entity.id l)) ->
  (forall r', In r' (GameDatabase.entity_experience db) -> Row.exp_game_id r' = 1 ->
              ~ In (Row.exp_entity_id r') (map Entity.id l)) ->
  GameDatabase.for_each l
    (fun entity =>
       GameDatabase.bind (GameDatabase.insert_entities (entity_row entity))
         (fun _ =>
            GameDatabase.for_each (dict_items (Entity.experience entity))
              (fun item =>
                 GameDatabase.insert_entity_experience
                   (experience_row (Entity.id entity) item))))
    db
  = (GameDatabase.mk (GameDatabase.game_state db) (GameDatabase.resources db)
       (GameDatabase.entities db ++ map entity_row l)
       (GameDatabase.entity_experience db ++ flat_map experience_rows l)
       (GameDatabase.technologies db),
     Ok tt).
Proof.
  revert db. induction l as [|a l IH]; intros db Hnd Hwf Hent Hexp.
  - cbn. rewrite !app_nil_r. now destruct db.
  - cbn [GameDatabase.for_each map flat_map].
    unfold GameDatabase.bind at 1. unfold GameDatabase.bind at 1.
    unfold GameDatabase.insert_entities at 1.
    rewrite existsb_false.
    2:{ intros r' Hr'. unfold GameDatabase.same_entity.
        cbn [entity_row Row.ent_game_id Row.ent_entity_id].
        destruct (Row.ent_game_id r' =? 1) eqn:E1; [|reflexivity].
        destruct (String.eqb (Row.ent_entity_id r') (Entity.id a)) eqn:E2; [|reflexivity].
        exfalso. apply Z.eqb_eq in E1. apply String.eqb_eq in E2.
        apply (Hent r' Hr' E1). left. now symmetry. }
    inversion Hnd as [|? ? Hnotin Hnd']; subst.
    inversion Hwf as [|? ? Hwfa Hwf']; subst.
    unfold dict_items. rewrite insert_experience_loop;
      cbn [GameDatabase.resources GameDatabase.game_state
             GameDatabase.entities GameDatabase.entity_experience
             GameDatabase.technologies].
    2: exact Hwfa.
    2:{ intros r' Hr' Hg He _. apply (Hexp r' Hr' Hg). left. now symmetry. }
    rewrite IH; cbn [GameDatabase.resources GameDatabase.game_state
                       GameDatabase.entities GameDatabase.entity_experience
                       GameDatabase.technologies].
    + unfold experience_rows at 2. unfold dict_items.
      now rewrite <- !app_assoc.
    + exact Hnd'.
    + exact Hwf'.
    + intros r' Hr' Hg Hin. apply in_app_or in Hr'. destruct Hr' as [Hr'|[<-|[]]].
      * apply (Hent r' Hr' Hg). now right.
      * now apply Hnotin.
    + intros r' Hr' Hg Hin. apply in_app_or in Hr'. destruct Hr' as [Hr'|Hr'].
      * apply (Hexp r' Hr' Hg). now right.
      * apply in_map_iff in Hr'. destruct Hr' as (item & <- & _).
        now apply Hnotin.
Qed.

Lemma filter_negb_not_in {A} (f : A -> bool) (l : list A) x :
  In x (filter (fun r => negb (f r)) l) -> f x = false.
Proof.
  rewrite filter_In. intros [_ H]. now apply negb_true_iff in H.
Qed.

(** A state no two rows of which share a primary key is saved whole, whatever
    the database held. *)
Lemma save_game_state_saved (s : GameState.t) (db : GameDatabase.t) :
  persistable s ->
  GameDatabase.save_game_state s db = (saved s db, Ok 1).
Proof.
  intros (Hres & Hent & Hexp & Htech).
  unfold GameDatabase.save_game_state. cbv zeta.
  unfold GameDatabase.bind at 1.
  unfold GameDatabase.insert_or_replace_game_state.
  unfold GameDatabase.bind at 1. unfold GameDatabase.delete_resources.
  unfold GameDatabase.bind at 1. unfold GameDatabase.delete_entities.
  unfold GameDatabase.bind at 1. unfold GameDatabase.delete_entity_experience.
  unfold GameDatabase.bind at 1. unfold GameDatabase.delete_technologies.
  cbn [GameDatabase.resources GameDatabase.game_state GameDatabase.entities
         GameDatabase.entity_experience GameDatabase.technologies Row.gs_id].
  unfold GameDatabase.bind at 1.
  change (fun resource : Resource.t =>
            GameDatabase.insert_resources
              (Row.mk_resources 1 (Resource.name resource) (Resource.amount resource)
                 (Resource.production_rate resource)))
    with (fun resource => GameDatabase.insert_resources (resource_row resource)).
  rewrite insert_resources_loop; [|exact Hres|].
  2:{ cbn [GameDatabase.resources]. intros r' Hr' Hg.
      apply filter_negb_not_in in Hr'. apply Z.eqb_neq in Hr'. contradiction. }
  cbn [GameDatabase.resources GameDatabase.game_state GameDatabase.entities
         GameDatabase.entity_experience GameDatabase.technologies].
  unfold GameDatabase.bind at 1.
  rewrite (insert_entities_loop _ _ Hent Hexp).
  2:{ cbn [GameDatabase.entities]. intros r' Hr' Hg.
      apply filter_negb_not_in in Hr'. apply Z.eqb_neq in Hr'. contradiction. }
  2:{ cbn [GameDatabase.entity_experience]. intros r' Hr' Hg.
      apply filter_negb_not_in in Hr'. apply Z.eqb_neq in Hr'. contradiction. }
  cbn [GameDatabase.resources GameDatabase.game_state GameDatabase.entities
         GameDatabase.entity_experience GameDatabase.technologies].
  unfold GameDatabase.bind at 1.
  change (fun tech : string =>
            GameDatabase.insert_technologies
              (Row.mk_technologies 1 tech (GameState.tick s)))
    with (fun tech => GameDatabase.insert_technologies
                        (technology_row (GameState.tick s) tech)).
  rewrite insert_technologies_loop; [|exact Htech|].
  2:{ cbn [GameDatabase.technologies]. intros r' Hr' Hg.
      apply filter_negb_not_in in Hr'. apply Z.eqb_neq in Hr'. contradiction. }
  reflexivity.
Qed.

(** ** The tick keeps a state persistable *)

Lemma dict_keys_set {V} (d : dict V) k (v : V) :
  dict_keys (dict_set d k v) =
  if dict_contains d k then dict_keys d else dict_keys d ++ [k].
Proof.
  unfold dict_contains.
  induction d as [|[k0 v0] d IH]; cbn [dict_set dict_get dict_keys map fst app];
    [reflexivity|].
  destruct (String.eqb k0 k) eqn:E; cbn [dict_keys map fst]; [reflexivity|].
  fold (dict_keys (dict_set d k v)). rewrite IH.
  now destruct (dict_get d k).
Qed.

Lemma dict_get_None_not_in {V} (d : dict V) k :
  dict_get d k = None <-> ~ In k (dict_keys d).
Proof.
  induction d as [|[k0 v0] d IH]; cbn [dict_get dict_keys map fst In].
  - tauto.
  - destruct (String.eqb k0 k) eqn:E.
    + apply String.eqb_eq in E. split; [discriminate|]. intros H. exfalso. auto.
    + apply String.eqb_neq in E. rewrite IH. tauto.
Qed.

Lemma dict_wf_set {V} (d : dict V) k (v : V) : dict_wf d -> dict_wf (dict_set d k v).
Proof.
  unfold dict_wf. rewrite dict_keys_set. unfold dict_contains.
  destruct (dict_get d k) eqn:G; [trivial|]. intros H.
  apply dict_get_None_not_in in G.
  apply NoDup_app; [exact H | repeat constructor; intros [] | ].
  intros x Hx [<-|[]]. contradiction.
Qed.

Lemma entity_after_id e : Entity.id (entity_after e) = Entity.id e.
Proof. unfold entity_after. now destruct (is_gathering e). Qed.

Lemma entity_after_wf e :
  dict_wf (Entity.experience e) -> dict_wf (Entity.experience (entity_after e)).
Proof.
  unfold entity_after. destruct (is_gathering e); [|trivial].
  apply dict_wf_set.
Qed.

Lemma dict_modify_names (d : dict Resource.t) k f :
  (forall r, Resource.name (f r) = Resource.name r) ->
  map Resource.name (dict_values (dict_modify d k f)) = map Resource.name (dict_values d).
Proof.
  intros Hf. induction d as [|[k0 r] d IH]; [reflexivity|].
  cbn [dict_modify]. destruct (String.eqb k0 k); cbn [dict_values map snd].
  - now rewrite Hf.
  - f_equal. exact IH.
Qed.

Lemma yielded_names s :
  map Resource.name (dict_values (yielded s))
  = map Resource.name (dict_values (GameState.resources s)).
Proof.
  unfold yielded. generalize (GameState.resources s) as resources.
  induction (dict_values (GameState.entities s)) as [|e l IH]; intros resources;
    [reflexivity|].
  cbn [fold_left]. rewrite IH. unfold resources_after.
  destruct (is_gathering e); [|reflexivity].
  destruct (dict_contains resources "energy"); [|reflexivity].
  now apply dict_modify_names.
Qed.

Lemma advanced_names s :
  map Resource.name (dict_values (GameState.resources (advanced s)))
  = map Resource.name (dict_values (GameState.resources s)).
Proof.
  rewrite advanced_resources, map_values_values, map_map.
  rewrite <- yielded_names. unfold set_rate.
  rewrite <- (dict_modify_names (yielded s) "energy"
                (fun r => Resource.set_production_rate r
                   (energy_rate (map_values entity_after (GameState.entities s))))) by reflexivity.
  apply map_ext. intros r. unfold apply_production. now destruct (Qlt_bool _ _).
Qed.

Lemma advanced_persistable s : persistable s -> persistable (advanced s).
Proof.
  intros (Hres & Hent & Hexp & Htech). unfold persistable.
  rewrite advanced_names, advanced_entities, advanced_technologies, map_values_values.
  repeat split; trivial.
  - rewrite map_map. erewrite map_ext; [exact Hent|]. apply entity_after_id.
  - rewrite Forall_map. eapply Forall_impl; [|exact Hexp].
    intros e. apply entity_after_wf.
Qed.

(** A tick returns its data unless the interval is 0 or the save it makes
    raises. *)
Lemma tick_returns g rnd :
  auto_save_interval g <> 0 ->
  (GameState.tick (state g) + 1) mod auto_save_interval g <> 0 \/ persistable (state g) ->
  exists data, snd (tick g rnd) = Ok data.
Proof.
  intros Hi H. rewrite tick_result. cbv zeta.
  apply Z.eqb_neq in Hi. rewrite Hi.
  destruct (_ mod _ =? 0) eqn:E; [|eexists; reflexivity].
  destruct H as [H|H]; [apply Z.eqb_eq in E; contradiction|].
  rewrite save_game_state_saved by now apply advanced_persistable.
  eexists. reflexivity.
Qed.

(** ** C9: totality, and entities whose resource is missing *)

(** C9, as the code has it.  With a non-zero interval, a tick returns its
    data whenever it is not the tick of an auto-save, and also then when no
    two resources share a name, no two entities an id and no two technologies
    a name.  An entity that is gathering while the state has no energy
    resource leaves the resource map as it is, but still gains its learning
    rate in gathering experience and still takes its draw.  An entity whose
    task is not gathering changes nothing, takes no draw and has no event. *)
Theorem tick_total_and_entity_without_resource (g : GameLogic.t)
    (rnd : RandomModule.t) (resources : dict Resource.t) (e : Entity.t) :
  (auto_save_interval g <> 0 ->
   (GameState.tick (state g) + 1) mod auto_save_interval g <> 0
   \/ persistable (state g) ->
   exists data, snd (tick g rnd) = Ok data)
  /\ (is_gathering e = true ->
      dict_get resources "energy" = None ->
      fst (fst (fst (_process_entity_action resources rnd e))) = resources
      /\ snd (fst (fst (_process_entity_action resources rnd e))) = drawn rnd 1
      /\ snd (fst (_process_entity_action resources rnd e))
         = Entity.set_experience e
             (dict_set (Entity.experience e) "gathering"
                (dict_get_default (Entity.experience e) "gathering" 0
                 + EntityTraits.learning_rate (Entity.traits e))%Q))
  /\ (is_gathering e = false ->
      _process_entity_action resources rnd e = (resources, rnd, e, None)).
Proof.
  split; [apply tick_returns|]. split.
  - intros Hg Hr.
    rewrite process_entity_action_resources, process_entity_action_rnd,
      process_entity_action_entity.
    unfold resources_after, entity_after, dict_contains, drawn.
    rewrite Hg, Hr, Nat.add_1_r. repeat split.
  - intros Hg. unfold _process_entity_action. now rewrite Hg.
Qed.

(** The first tick of the game without energy returns, and its gatherer leaves
    the resources as they are. *)
Lemma tick_total_and_entity_without_resource_witness :
  (exists data, snd (tick NoEnergy.logic Scenario.quiet) = Ok data)
  /\ fst (fst (fst (_process_entity_action (GameState.resources NoEnergy.start)
                      Scenario.quiet (Scenario.gatherer "entity_0" "Zara"))))
     = GameState.resources NoEnergy.start.
Proof.
  pose proof (tick_total_and_entity_without_resource NoEnergy.logic Scenario.quiet
                (GameState.resources NoEnergy.start)
                (Scenario.gatherer "entity_0" "Zara")) as (Ht & Hg & _).
  split.
  - apply Ht; [discriminate|]. left. vm_compute. discriminate.
  - apply Hg; reflexivity.
Defined.

(** C9 as stated fails twice.  A gathering entity in a state without energy
    goes from experience 0.0 to 0.0 + 0.1; and the tenth tick of a state that
    lists a technology twice raises, out of the save it makes. *)
Lemma experience_grows_without_energy_and_tick_may_raise :
  let s' := state (fst (fst (tick NoEnergy.logic Scenario.quiet))) in
  dict_get (GameState.resources NoEnergy.start) "energy" = None
  /\ GameState.resources s' = GameState.resources NoEnergy.start
  /\ (exists e e',
        dict_get (GameState.entities NoEnergy.start) "entity_0" = Some e
        /\ dict_get (GameState.entities s') "entity_0" = Some e'
        /\ Entity.experience e = [("gathering", 0.0%Q)]
        /\ Entity.experience e' = [("gathering", (0.0 + 0.1)%Q)]
        /\ ~ (0.0 + 0.1 == 0.0)%Q)
  /\ snd (tick Duplicate.logic Scenario.quiet) = Raise IntegrityError.
Proof.
  cbv zeta. split; [reflexivity|]. split; [reflexivity|]. split.
  - do 2 eexists. split; [reflexivity|]. split; [reflexivity|].
    split; [reflexivity|]. split; [reflexivity|]. intros H. discriminate H.
  - reflexivity.
Qed.

(** ** C10: the auto-save event *)



(** With the interval at 10 the scenario reports the event on the ticks that
    bring the counter to 10, 20 and 30, and not on those that bring it to 5
    and 15. *)
Example auto_save_at_10_20_30_not_at_5_15 :
  let reports n :=
    match snd (tick (GameLogic.mk GameDatabase.empty
                       (GameState.set_tick Scenario.start (n - 1)) 10)
                    Scenario.quiet) with
    | Ok data => existsb (fun ev => String.eqb (ev_type ev) "system") (td_events data)
    | Raise _ => false
    end in
  map reports [5; 10; 15; 20; 30] = [false; true; false; true; true].
Proof. vm_compute. reflexivity. Qed.


(** ** Loading: dictionaries rebuilt from rows *)

Lemma build_get_other {A V} (key : A -> string) (val : A -> V) rows d0 k :
  (forall r, In r rows -> key r <> k) ->
  dict_get (build key val rows d0) k = dict_get d0 k.
Proof.
  unfold build. revert d0.
  induction rows as [|r rows IH]; intros d0 H; cbn [fold_left]; [reflexivity|].
  rewrite IH by (intros r' Hr'; apply H; now right).
  rewrite dict_get_set.
  destruct (String.eqb (key r) k) eqn:E; [|reflexivity].
  apply String.eqb_eq in E. exfalso. apply (H r); [now left | exact E].
Qed.

Lemma build_get_row {A V} (key : A -> string) (val : A -> V) rows d0 r :
  NoDup (map key rows) -> In r rows ->
  dict_get (build key val rows d0) (key r) = Some (val r).
Proof.
  unfold build. revert d0.
  induction rows as [|r0 rows IH]; intros d0 Hnd Hin; [destruct Hin|].
  cbn [fold_left]. cbn [map] in Hnd. inversion Hnd as [|? ? Hnotin Hnd']; subst.
  destruct Hin as [->|Hin].
  - fold (build key val rows (dict_set d0 (key r) (val r))).
    rewrite build_get_other.
    + now rewrite dict_get_set, String.eqb_refl.
    + intros r' Hr' E. apply Hnotin. rewrite <- E. now apply in_map.
  - now apply IH.
Qed.

Lemma build_wf {A V} (key : A -> string) (val : A -> V) rows d0 :
  dict_wf d0 -> dict_wf (build key val rows d0).
Proof.
  unfold build. revert d0.
  induction rows as [|r rows IH]; intros d0 H; cbn [fold_left]; [exact H|].
  apply IH. now apply dict_wf_set.
Qed.

Lemma dict_set_Forall {V} (P : string * V -> Prop) (d : dict V) k v :
  Forall P d -> P (k, v) -> Forall P (dict_set d k v).
Proof.
  intros Hd Hk.
  induction d as [|[k0 v0] d IH]; cbn [dict_set]; [now repeat constructor|].
  inversion Hd as [|? ? H0 Hd']; subst.
  destruct (String.eqb k0 k) eqn:E.
  - apply String.eqb_eq in E. subst k0. now constructor.
  - constructor; [exact H0 | now apply IH].
Qed.

Lemma build_Forall {A V} (key : A -> string) (val : A -> V) (P : string * V -> Prop)
    rows d0 :
  (forall r, In r rows -> P (key r, val r)) -> Forall P d0 ->
  Forall P (build key val rows d0).
Proof.
  unfold build. revert d0.
  induction rows as [|r rows IH]; intros d0 H H0; cbn [fold_left]; [exact H0|].
  apply IH.
  - intros r' Hr'. apply H. now right.
  - apply dict_set_Forall; [exact H0 | apply H; now left].
Qed.

Lemma dict_get_Some_In {V} (d : dict V) k v :
  dict_get d k = Some v -> In (k, v) d.
Proof.
  induction d as [|[k0 v0] d IH]; cbn [dict_get]; [discriminate|].
  destruct (String.eqb k0 k) eqn:E.
  - apply String.eqb_eq in E. intros [= ->]. left. now subst.
  - intros H. right. now apply IH.
Qed.

(** A dict written out as rows, one row per entry under the key of the entry,
    and read back from the rows in any order, has under each key the value
    its row gives. *)
Lemma build_of_dict_get {A V W} (D : dict V) (row : string * V -> A)
    (key : A -> string) (val : A -> W) (rows' : list A) (k : string) :
  dict_wf D ->
  (forall kv, In kv D -> key (row kv) = fst kv) ->
  Permutation rows' (map row D) ->
  dict_get (build key val rows' []) k
  = option_map (fun v => val (row (k, v))) (dict_get D k).
Proof.
  intros Hwf Hkey Hperm.
  assert (Hnd : NoDup (map key rows')).
  { apply (Permutation_NoDup (l := map key (map row D))).
    - apply Permutation_map. now apply Permutation_sym.
    - rewrite map_map. erewrite map_ext_in; [exact Hwf|]. exact Hkey. }
  destruct (dict_get D k) as [v|] eqn:G; cbn [option_map].
  - apply dict_get_Some_In in G.
    assert (Hin : In (row (k, v)) rows').
    { eapply Permutation_in; [apply Permutation_sym; exact Hperm|].
      now apply in_map. }
    rewrite <- (Hkey (k, v) G) at 1.
    now apply build_get_row.
  - rewrite build_get_other; [reflexivity|].
    intros r Hr E.
    apply (Permutation_in _ Hperm) in Hr. apply in_map_iff in Hr.
    destruct Hr as (kv & <- & Hkv).
    rewrite (Hkey kv Hkv) in E.
    apply dict_get_None_not_in in G. apply G. rewrite <- E.
    unfold dict_keys. now apply in_map.
Qed.

Lemma load_game_state_closed fetch db game_id :
  GameDatabase.load_game_state fetch db game_id =
  match
    GameDatabase.fetchone fetch
      (filter (fun r => Row.gs_id r =? game_id) (GameDatabase.game_state db))
  with
  | None => None
  | Some game_row =>
      Some (GameState.mk (Row.gs_tick game_row)
              (build Row.res_name resource_of_row
                 (fetch _ (filter (fun r => Row.res_game_id r =? game_id)
                                  (GameDatabase.resources db)))
                 [])
              (build Row.ent_entity_id (entity_of_row fetch db game_id)
                 (fetch _ (filter (fun r => Row.ent_game_id r =? game_id)
                                  (GameDatabase.entities db)))
                 [])
              (map Row.tech_name
                 (fetch _ (filter (fun r => Row.tech_game_id r =? game_id)
                                  (GameDatabase.technologies db))))
              (Row.gs_prestige_tokens game_row) (Row.gs_player_boost game_row))
  end.
Proof.
  unfold GameDatabase.load_game_state.
  destruct (GameDatabase.fetchone _ _) as [game_row|]; [|reflexivity].
  cbv zeta. unfold GameDatabase.fetchall. f_equal.
  set (rrows := fetch _ (filter _ (GameDatabase.resources db))).
  set (erows := fetch _ (filter _ (GameDatabase.entities db))).
  set (trows := fetch _ (filter _ (GameDatabase.technologies db))).
  set (s0 := GameState.mk _ _ _ _ _ _).
  assert (Hr : forall rows st,
             fold_left
               (fun state row =>
                  GameState.set_resources state
                    (dict_set (GameState.resources state)
                       (Resource.name
                          (Resource.mk (Row.res_name row) (Row.res_amount row)
                                       (Row.res_production_rate row)))
                       (Resource.mk (Row.res_name row) (Row.res_amount row)
                                    (Row.res_production_rate row))))
               rows st
             = GameState.set_resources st
                 (build Row.res_name resource_of_row rows (GameState.resources st))).
  { induction rows as [|r rows IH]; intros st; cbn [fold_left build].
    - now destruct st.
    - rewrite IH. reflexivity. }
  assert (He : forall rows st,
             fold_left
               (fun state row =>
                  GameState.set_entities state
                    (dict_set (GameState.entities state)
                       (Entity.id
                          (Entity.mk (Row.ent_entity_id row) (Row.ent_name row)
                             (Row.ent_entity_type row)
                             (EntityTraits.mk (Row.ent_efficiency row)
                                (Row.ent_learning_rate row)
                                (Row.ent_cooperation row) (Row.ent_stamina row))
                             (GameDatabase.load_experience fetch db game_id
                                (Row.ent_entity_id row))
                             (Row.ent_current_task row)))
                       (Entity.mk (Row.ent_entity_id row) (Row.ent_name row)
                          (Row.ent_entity_type row)
                          (EntityTraits.mk (Row.ent_efficiency row)
                             (Row.ent_learning_rate row)
                             (Row.ent_cooperation row) (Row.ent_stamina row))
                          (GameDatabase.load_experience fetch db game_id
                             (Row.ent_entity_id row))
                          (Row.ent_current_task row))))
               rows st
             = GameState.set_entities st
                 (build Row.ent_entity_id (entity_of_row fetch db game_id) rows
                        (GameState.entities st))).
  { induction rows as [|r rows IH]; intros st; cbn [fold_left build].
    - now destruct st.
    - rewrite IH. reflexivity. }
  rewrite Hr, He. reflexivity.
Qed.

(** ** Equality of states, and the states the program builds *)

Lemma keyed_by_NoDup {V} (key : V -> string) (d : dict V) :
  keyed_by key d -> NoDup (map key (dict_values d)).
Proof.
  intros [Hwf Hk]. unfold dict_values. rewrite map_map.
  erewrite map_ext_in; [exact Hwf|].
  intros kv Hkv. rewrite Forall_forall in Hk. now apply Hk.
Qed.

Lemma well_keyed_persistable s : well_keyed s -> persistable s.
Proof.
  intros (Hr & He & Hx & Ht). repeat split.
  - now apply keyed_by_NoDup.
  - now apply keyed_by_NoDup.
  - exact Hx.
  - rewrite Ht. constructor.
Qed.

Lemma filter_all {A} (f : A -> bool) (l : list A) :
  (forall x, In x l -> f x = true) -> filter f l = l.
Proof.
  intros H. induction l as [|x l IH]; cbn [filter]; [reflexivity|].
  rewrite (H x (or_introl eq_refl)). f_equal. apply IH.
  intros y Hy. apply H. now right.
Qed.

Lemma filter_none {A} (f : A -> bool) (l : list A) :
  (forall x, In x l -> f x = false) -> filter f l = [].
Proof.
  intros H. induction l as [|x l IH]; cbn [filter]; [reflexivity|].
  rewrite (H x (or_introl eq_refl)). apply IH.
  intros y Hy. apply H. now right.
Qed.

(** Selecting the rows of game 1 from a table just saved gives the rows of
    the state. *)
Lemma select_saved {A} (game_id : A -> Z) (old new : list A) :
  (forall r, In r new -> game_id r = 1) ->
  filter (fun r => game_id r =? 1)
         (filter (fun r => negb (game_id r =? 1)) old ++ new)
  = new.
Proof.
  intros H. rewrite filter_app, filter_none, filter_all; [reflexivity| |].
  - intros r Hr. apply Z.eqb_eq. now apply H.
  - intros r Hr. apply filter_In in Hr. destruct Hr as [_ Hr].
    now apply negb_true_iff in Hr.
Qed.

Lemma fetch_singleton (fetch : GameDatabase.Fetch) {A} (x : A) :
  GameDatabase.fetch_permutes fetch -> fetch A [x] = [x].
Proof.
  intros H. apply Permutation_length_1_inv, Permutation_sym, H.
Qed.

Lemma fetch_nil (fetch : GameDatabase.Fetch) {A} :
  GameDatabase.fetch_permutes fetch -> fetch A [] = [].
Proof.
  intros H. apply Permutation_nil, Permutation_sym, H.
Qed.

(** The experience rows of one entity among those of all. *)
Lemma select_experience_rows (l : list Entity.t) (e : Entity.t) :
  NoDup (map Entity.id l) -> In e l ->
  filter (fun r => (Row.exp_game_id r =? 1)
                   && String.eqb (Row.exp_entity_id r) (Entity.id e))
         (flat_map experience_rows l)
  = experience_rows e.
Proof.
  intros Hnd Hin.
  assert (Hown : forall a, Entity.id a = Entity.id e ->
            filter (fun r => (Row.exp_game_id r =? 1)
                             && String.eqb (Row.exp_entity_id r) (Entity.id e))
                   (experience_rows a) = experience_rows a).
  { intros a Ha. apply filter_all. intros r Hr.
    apply experience_rows_entity_id in Hr. destruct Hr as [-> ->].
    rewrite Ha, String.eqb_refl. reflexivity. }
  assert (Hother : forall a, Entity.id a <> Entity.id e ->
            filter (fun r => (Row.exp_game_id r =? 1)
                             && String.eqb (Row.exp_entity_id r) (Entity.id e))
                   (experience_rows a) = []).
  { intros a Ha. apply filter_none. intros r Hr.
    apply experience_rows_entity_id in Hr. destruct Hr as [-> ->].
    apply String.eqb_neq in Ha. rewrite Ha. reflexivity. }
  assert (Hrest : forall rest, ~ In (Entity.id e) (map Entity.id rest) ->
            filter (fun r => (Row.exp_game_id r =? 1)
                             && String.eqb (Row.exp_entity_id r) (Entity.id e))
                   (flat_map experience_rows rest) = []).
  { induction rest as [|a rest IH]; intros Hn; cbn [flat_map]; [reflexivity|].
    rewrite filter_app, Hother, IH; [reflexivity| |].
    - intros H. apply Hn. now right.
    - intros H. apply Hn. left. exact H. }
  induction l as [|a l IH]; [destruct Hin|].
  cbn [map] in Hnd. inversion Hnd as [|? ? Hnotin Hnd']; subst.
  cbn [flat_map]. rewrite filter_app.
  destruct Hin as [->|Hin].
  - rewrite Hown, Hrest by trivial. apply app_nil_r.
  - rewrite Hother, IH by (trivial; intros E; apply Hnotin; rewrite E; now apply in_map).
    reflexivity.
Qed.

Lemma load_experience_saved fetch s db e :
  GameDatabase.fetch_permutes fetch ->
  well_keyed s ->
  In e (dict_values (GameState.entities s)) ->
  dict_rel eq (GameDatabase.load_experience fetch (saved s db) 1 (Entity.id e))
              (Entity.experience e)
  /\ dict_wf (GameDatabase.load_experience fetch (saved s db) 1 (Entity.id e)).
Proof.
  intros Hf (_ & He & Hx & _) Hin.
  unfold GameDatabase.load_experience, GameDatabase.fetchall.
  fold (build Row.exp_task_type Row.exp_experience
          (fetch _ (filter (fun r => (Row.exp_game_id r =? 1)
                                     && String.eqb (Row.exp_entity_id r) (Entity.id e))
                           (GameDatabase.entity_experience (saved s db)))) []).
  split; [|apply build_wf; constructor].
  cbn [saved GameDatabase.entity_experience].
  rewrite filter_app, filter_none.
  2:{ intros r Hr. apply filter_In in Hr. destruct Hr as [_ Hr].
      apply negb_true_iff in Hr. now rewrite Hr. }
  rewrite select_experience_rows by (trivial; now apply keyed_by_NoDup).
  cbn [app]. intros k.
  rewrite (build_of_dict_get (Entity.experience e) (experience_row (Entity.id e))).
  - destruct (dict_get (Entity.experience e) k); cbn [option_map]; trivial.
  - rewrite Forall_forall in Hx. now apply Hx.
  - reflexivity.
  - apply Hf.
Qed.

(** Loading what was just saved of a well-keyed state. *)
Lemma load_saved fetch s db :
  GameDatabase.fetch_permutes fetch ->
  well_keyed s ->
  exists s',
    GameDatabase.load_game_state fetch (saved s db) 1 = Some s'
    /\ state_equiv s' s
    /\ well_keyed s'.
Proof.
  intros Hf Hwk. pose proof Hwk as ((Hrw & Hrk) & (Hew & Hek) & Hx & Ht).
  rewrite load_game_state_closed.
  cbn [saved GameDatabase.game_state GameDatabase.resources GameDatabase.entities
         GameDatabase.technologies].
  rewrite (select_saved Row.gs_id) by (intros r [<-|[]]; reflexivity).
  rewrite (select_saved Row.res_game_id)
    by (intros r Hr; apply in_map_iff in Hr; destruct Hr as (x & <- & _); reflexivity).
  rewrite (select_saved Row.ent_game_id)
    by (intros r Hr; apply in_map_iff in Hr; destruct Hr as (x & <- & _); reflexivity).
  rewrite (select_saved Row.tech_game_id)
    by (intros r Hr; apply in_map_iff in Hr; destruct Hr as (x & <- & _); reflexivity).
  unfold GameDatabase.fetchone. rewrite fetch_singleton by exact Hf.
  cbn [hd_error]. rewrite Ht. cbn [map]. rewrite fetch_nil by exact Hf.
  cbn [map game_row Row.gs_tick Row.gs_prestige_tokens Row.gs_player_boost].
  eexists. split; [reflexivity|].
  set (rrows := fetch _ (map resource_row _)).
  set (erows := fetch _ (map entity_row _)).
  assert (Hrp : Permutation rrows
                  (map (fun kv => resource_row (snd kv)) (GameState.resources s))).
  { unfold rrows, dict_values. rewrite map_map. apply Hf. }
  assert (Hep : Permutation erows
                  (map (fun kv => entity_row (snd kv)) (GameState.entities s))).
  { unfold erows, dict_values. rewrite map_map. apply Hf. }
  split.
  - (* the loaded state equals the saved one *)
    unfold state_equiv.
    cbn [GameState.tick GameState.resources GameState.entities
           GameState.technologies GameState.prestige_tokens GameState.player_boost].
    repeat split; trivial.
    + intros k.
      rewrite (build_of_dict_get (GameState.resources s)
                 (fun kv => resource_row (snd kv))); trivial.
      * destruct (dict_get (GameState.resources s) k) as [[n a p]|];
          cbn [option_map]; trivial.
      * intros kv Hkv. rewrite Forall_forall in Hrk. now apply Hrk.
    + intros k.
      rewrite (build_of_dict_get (GameState.entities s)
                 (fun kv => entity_row (snd kv))); trivial.
      * destruct (dict_get (GameState.entities s) k) as [e|] eqn:G;
          cbn [option_map]; trivial.
        apply dict_get_In in G.
        destruct (load_experience_saved fetch s db e Hf Hwk G) as [Hx' _].
        unfold entity_equiv, entity_of_row.
        cbn [snd entity_row Row.ent_entity_id Row.ent_name Row.ent_entity_type
               Row.ent_current_task Row.ent_efficiency Row.ent_learning_rate
               Row.ent_cooperation Row.ent_stamina
               Entity.id Entity.name Entity.entity_type Entity.traits
               Entity.experience Entity.current_task].
        repeat split; trivial.
        now destruct (Entity.traits e).
      * intros kv Hkv. rewrite Forall_forall in Hek. now apply Hek.
    + now rewrite Ht.
  - (* and is well keyed *)
    unfold well_keyed.
    cbn [GameState.resources GameState.entities GameState.technologies].
    repeat split.
    + apply build_wf. constructor.
    + apply build_Forall; [|constructor]. reflexivity.
    + apply build_wf. constructor.
    + apply build_Forall; [|constructor]. reflexivity.
    + unfold dict_values. rewrite Forall_map.
      apply build_Forall; [|constructor].
      intros r Hr. cbn [snd entity_of_row Entity.experience].
      unfold GameDatabase.load_experience. apply (build_wf Row.exp_task_type Row.exp_experience).
      constructor.
Qed.

(** ** The states the program reaches *)

Lemma keyed_by_labels {V} (key : V -> string) (d d' : dict V) :
  labels key d' = labels key d -> keyed_by key d -> keyed_by key d'.
Proof.
  intros H [Hwf Hk]. split.
  - unfold dict_wf, dict_keys in *.
    replace (map fst d') with (map fst (labels key d'))
      by (unfold labels; rewrite map_map; reflexivity).
    rewrite H. unfold labels. rewrite map_map. exact Hwf.
  - assert (Hl : Forall (fun p => snd p = fst p) (labels key d)).
    { unfold labels. rewrite Forall_map. exact Hk. }
    rewrite <- H in Hl. unfold labels in Hl. rewrite Forall_map in Hl. exact Hl.
Qed.

Lemma labels_modify {V} (key : V -> string) (d : dict V) k f :
  (forall v, key (f v) = key v) ->
  labels key (dict_modify d k f) = labels key d.
Proof.
  intros Hf. induction d as [|[k0 v] d IH]; [reflexivity|].
  cbn [dict_modify]. destruct (String.eqb k0 k); cbn [labels map fst snd].
  - now rewrite Hf.
  - f_equal. exact IH.
Qed.

Lemma labels_map_values {V} (key : V -> string) (d : dict V) f :
  (forall v, key (f v) = key v) ->
  labels key (map_values f d) = labels key d.
Proof.
  intros Hf. unfold labels, map_values. rewrite map_map.
  apply map_ext. intros [k v]. cbn [fst snd]. now rewrite Hf.
Qed.

Lemma yielded_labels s :
  labels Resource.name (yielded s) = labels Resource.name (GameState.resources s).
Proof.
  unfold yielded. generalize (GameState.resources s) as resources.
  induction (dict_values (GameState.entities s)) as [|e l IH]; intros resources;
    [reflexivity|].
  cbn [fold_left]. rewrite IH. unfold resources_after.
  destruct (is_gathering e); [|reflexivity].
  destruct (dict_contains resources "energy"); [|reflexivity].
  now apply labels_modify.
Qed.

Lemma advanced_well_keyed s : well_keyed s -> well_keyed (advanced s).
Proof.
  intros (Hr & He & Hx & Ht). unfold well_keyed.
  rewrite advanced_resources, advanced_entities, advanced_technologies.
  repeat split; try (apply Hr || apply He || exact Ht).
  - eapply keyed_by_labels; [|exact Hr].
    rewrite labels_map_values
      by (intros r; unfold apply_production; now destruct (Qlt_bool _ _)).
    unfold set_rate. rewrite labels_modify by reflexivity. apply yielded_labels.
  - eapply keyed_by_labels; [|exact Hr].
    rewrite labels_map_values
      by (intros r; unfold apply_production; now destruct (Qlt_bool _ _)).
    unfold set_rate. rewrite labels_modify by reflexivity. apply yielded_labels.
  - eapply keyed_by_labels; [|exact He].
    apply labels_map_values, entity_after_id.
  - eapply keyed_by_labels; [|exact He].
    apply labels_map_values, entity_after_id.
  - rewrite map_values_values, Forall_map.
    eapply Forall_impl; [|exact Hx]. intros e. apply entity_after_wf.
Qed.

Lemma boost_well_keyed g entity_id m :
  well_keyed (state g) -> well_keyed (state (fst (apply_player_boost g entity_id m))).
Proof.
  intros Hwk. unfold apply_player_boost.
  destruct (dict_get _ entity_id) as [e|]; [|exact Hwk].
  destruct (is_gathering e); [|exact Hwk].
  cbv zeta. destruct (dict_contains _ "energy"); [|exact Hwk].
  cbn [fst state set_state].
  destruct Hwk as (Hr & He & Hx & Ht). unfold well_keyed.
  cbn [GameState.resources GameState.entities GameState.technologies
         GameState.set_resources].
  repeat split; try (apply He || exact Hx || exact Ht);
    (eapply keyed_by_labels; [|exact Hr]); now apply labels_modify.
Qed.

(** The new game: energy = 10.0 and three gatherers under the ids
    entity_0, entity_1 and entity_2, whatever the generator gives. *)
Lemma new_game_shape rnd :
  exists e0 e1 e2,
    fst (_initialize_base_game GameState.default rnd)
    = GameState.mk 0 [("energy", Resource.mk "energy" 10.0 0.0)]
        [("entity_0", e0); ("entity_1", e1); ("entity_2", e2)] [] 0 1.0
    /\ Forall2 (fun e entity_id =>
                  Entity.id e = entity_id
                  /\ Entity.entity_type e = "gatherer"
                  /\ Entity.experience e = [("gathering", 0.0%Q)]
                  /\ Entity.current_task e = Some "gathering")
               [e0; e1; e2] ["entity_0"; "entity_1"; "entity_2"].
Proof.
  assert (Hgen : forall entity_id rnd0,
            let e := fst (_generate_entity entity_id "gatherer" rnd0) in
            Entity.id e = entity_id
            /\ Entity.entity_type e = "gatherer"
            /\ Entity.experience e = [("gathering", 0.0%Q)]
            /\ Entity.current_task e = Some "gathering").
  { intros entity_id rnd0. cbv zeta.
    unfold _generate_entity, RandomModule.uniform, RandomModule.choice,
      RandomModule.random.
    cbn [fst Entity.id Entity.entity_type Entity.experience Entity.current_task].
    repeat split. }
  unfold _initialize_base_game. cbn [fold_left].
  pose proof (Hgen "entity_0" rnd) as H0. cbv zeta in H0.
  destruct (_generate_entity "entity_0" "gatherer" rnd) as [e0 rnd0].
  pose proof (Hgen "entity_1" rnd0) as H1. cbv zeta in H1.
  destruct (_generate_entity "entity_1" "gatherer" rnd0) as [e1 rnd1].
  pose proof (Hgen "entity_2" rnd1) as H2. cbv zeta in H2.
  destruct (_generate_entity "entity_2" "gatherer" rnd1) as [e2 rnd2].
  cbn [fst snd] in *.
  exists e0, e1, e2. split.
  - rewrite (proj1 H0), (proj1 H1), (proj1 H2). reflexivity.
  - repeat (constructor; [assumption|]). constructor.
Qed.

Lemma new_game_well_keyed rnd :
  well_keyed (fst (_initialize_base_game GameState.default rnd)).
Proof.
  destruct (new_game_shape rnd) as (e0 & e1 & e2 & -> & H).
  inversion H as [|? ? ? ? (I0 & _ & X0 & _) H']; subst.
  inversion H' as [|? ? ? ? (I1 & _ & X1 & _) H'']; subst.
  inversion H'' as [|? ? ? ? (I2 & _ & X2 & _) _]; subst.
  unfold well_keyed, keyed_by, dict_wf, dict_keys, dict_values.
  cbn [GameState.resources GameState.entities GameState.technologies map fst snd].
  repeat split; repeat constructor; rewrite ?X0, ?X1, ?X2;
    repeat constructor; cbn [In map fst snd Resource.name];
    try assumption; intuition discriminate.
Qed.

Lemma reachable_well_keyed fetch s :
  GameDatabase.fetch_permutes fetch -> reachable fetch s -> well_keyed s.
Proof.
  intros Hf H. induction H as [rnd | g rnd _ IH | g entity_id m _ IH | s s' db _ IH Hl].
  - apply new_game_well_keyed.
  - rewrite tick_state. now apply advanced_well_keyed.
  - now apply boost_well_keyed.
  - rewrite save_game_state_saved in Hl by now apply well_keyed_persistable.
    destruct (load_saved fetch s db Hf IH) as (s'' & Hl' & _ & Hwk).
    cbn [fst] in Hl. congruence.
Qed.

(** ** C5: saving, then loading *)



(** Under that row order the loaded dicts come back in another order than
    they were saved in; as dicts they are the same. *)
Example backwards_load_reorders :
  exists s',
    GameDatabase.load_game_state Backwards.fetch
      (fst (GameDatabase.save_game_state (state Backwards.played) GameDatabase.empty)) 1
    = Some s'
    /\ dict_keys (GameState.entities (state Backwards.played))
       = ["entity_0"; "entity_1"; "entity_2"]
    /\ dict_keys (GameState.entities s') = ["entity_2"; "entity_1"; "entity_0"].
Proof.
  eexists. split; [vm_compute; reflexivity|]. split; reflexivity.
Qed.

(* ========================================================================= *)
(** * Further properties *)

Import Slot.

(** ** What a save leaves alone *)

Lemma keeps_ret {A X} (view : GameDatabase.t -> X) (a : A) :
  keeps view (GameDatabase.ret a).
Proof. intros db. reflexivity. Qed.

Lemma keeps_bind {A B X} (view : GameDatabase.t -> X)
    (m : GameDatabase.Cursor A) (f : A -> GameDatabase.Cursor B) :
  keeps view m -> (forall a, keeps view (f a)) -> keeps view (GameDatabase.bind m f).
Proof.
  intros Hm Hf db. unfold GameDatabase.bind.
  specialize (Hm db). destruct (m db) as [db' [a|e]]; cbn [fst] in *.
  - now rewrite Hf.
  - exact Hm.
Qed.

Lemma keeps_for_each {A X} (view : GameDatabase.t -> X) (l : list A)
    (body : A -> GameDatabase.Cursor unit) :
  (forall a, keeps view (body a)) -> keeps view (GameDatabase.for_each l body).
Proof.
  intros Hb. induction l as [|a l IH]; cbn [GameDatabase.for_each].
  - apply keeps_ret.
  - apply keeps_bind; [apply Hb | intros _; exact IH].
Qed.

Lemma filter_filter {A} (f : A -> bool) (l : list A) :
  filter f (filter f l) = filter f l.
Proof.
  apply filter_all. intros x Hx. now apply filter_In in Hx.
Qed.

Lemma filter_snoc_out {A} (f : A -> bool) (l : list A) (x : A) :
  f x = false -> filter f (l ++ [x]) = filter f l.
Proof.
  intros H. rewrite filter_app. cbn [filter]. rewrite H. apply app_nil_r.
Qed.

(** Every statement of [save_game_state] leaves the rows of other games. *)
Lemma keeps_other_insert_or_replace r :
  Row.gs_id r = 1 ->
  keeps other_games (GameDatabase.insert_or_replace_game_state r).
Proof.
  intros Hr db. unfold GameDatabase.insert_or_replace_game_state, other_games.
  cbn [fst GameDatabase.game_state GameDatabase.resources GameDatabase.entities
         GameDatabase.entity_experience GameDatabase.technologies].
  rewrite Hr, filter_snoc_out, filter_filter by (now rewrite Hr). reflexivity.
Qed.

Lemma keeps_other_deletes :
  keeps other_games (GameDatabase.delete_resources 1)
  /\ keeps other_games (GameDatabase.delete_entities 1)
  /\ keeps other_games (GameDatabase.delete_entity_experience 1)
  /\ keeps other_games (GameDatabase.delete_technologies 1).
Proof.
  repeat split; intros db; unfold other_games;
    cbn [fst GameDatabase.delete_resources GameDatabase.delete_entities
           GameDatabase.delete_entity_experience GameDatabase.delete_technologies
           GameDatabase.game_state GameDatabase.resources GameDatabase.entities
           GameDatabase.entity_experience GameDatabase.technologies];
    now rewrite filter_filter.
Qed.

Lemma keeps_other_insert_resources r :
  Row.res_game_id r = 1 -> keeps other_games (GameDatabase.insert_resources r).
Proof.
  intros Hr db. unfold GameDatabase.insert_resources.
  destruct (existsb _ _); [reflexivity|]. unfold other_games.
  cbn [fst GameDatabase.game_state GameDatabase.resources GameDatabase.entities
         GameDatabase.entity_experience GameDatabase.technologies].
  now rewrite filter_snoc_out by (now rewrite Hr).
Qed.

Lemma keeps_other_insert_entities r :
  Row.ent_game_id r = 1 -> keeps other_games (GameDatabase.insert_entities r).
Proof.
  intros Hr db. unfold GameDatabase.insert_entities.
  destruct (existsb _ _); [reflexivity|]. unfold other_games.
  cbn [fst GameDatabase.game_state GameDatabase.resources GameDatabase.entities
         GameDatabase.entity_experience GameDatabase.technologies].
  now rewrite filter_snoc_out by (now rewrite Hr).
Qed.

Lemma keeps_other_insert_entity_experience r :
  Row.exp_game_id r = 1 ->
  keeps other_games (GameDatabase.insert_entity_experience r).
Proof.
  intros Hr db. unfold GameDatabase.insert_entity_experience.
  destruct (existsb _ _); [reflexivity|]. unfold other_games.
  cbn [fst GameDatabase.game_state GameDatabase.resources GameDatabase.entities
         GameDatabase.entity_experience GameDatabase.technologies].
  now rewrite filter_snoc_out by (now rewrite Hr).
Qed.

Lemma keeps_other_insert_technologies r :
  Row.tech_game_id r = 1 -> keeps other_games (GameDatabase.insert_technologies r).
Proof.
  intros Hr db. unfold GameDatabase.insert_technologies.
  destruct (existsb _ _); [reflexivity|]. unfold other_games.
  cbn [fst GameDatabase.game_state GameDatabase.resources GameDatabase.entities
         GameDatabase.entity_experience GameDatabase.technologies].
  now rewrite filter_snoc_out by (now rewrite Hr).
Qed.

Lemma save_game_state_keeps_other_games s :
  keeps other_games (GameDatabase.save_game_state s).
Proof.
  destruct keeps_other_deletes as (D1 & D2 & D3 & D4).
  unfold GameDatabase.save_game_state. cbv zeta.
  apply keeps_bind; [now apply keeps_other_insert_or_replace|intros _].
  apply keeps_bind; [exact D1|intros _].
  apply keeps_bind; [exact D2|intros _].
  apply keeps_bind; [exact D3|intros _].
  apply keeps_bind; [exact D4|intros _].
  apply keeps_bind.
  { apply keeps_for_each. intros r. now apply keeps_other_insert_resources. }
  intros _. apply keeps_bind.
  { apply keeps_for_each. intros e. apply keeps_bind.
    - now apply keeps_other_insert_entities.
    - intros _. apply keeps_for_each. intros item.
      now apply keeps_other_insert_entity_experience. }
  intros _. apply keeps_bind.
  { apply keeps_for_each. intros tech. now apply keeps_other_insert_technologies. }
  intros _. apply keeps_ret.
Qed.

(** X1.  [save_game_state] never touches the rows of a game other than game
    1: for every state and every database, whether the save returns or raises
    half way, each of the five tables holds the same rows of other games, in
    the same order, as before. *)
Theorem save_leaves_other_games (s : GameState.t) (db : GameDatabase.t) :
  other_games (fst (GameDatabase.save_game_state s db)) = other_games db.
Proof. apply save_game_state_keeps_other_games. Qed.

Lemma saved_of_other_games s db db' :
  other_games db = other_games db' -> saved s db = saved s db'.
Proof.
  intros H. unfold saved.
  change (filter (fun r => negb (Row.gs_id r =? 1)) (GameDatabase.game_state db))
    with (GameDatabase.game_state (other_games db)).
  change (filter (fun r => negb (Row.res_game_id r =? 1)) (GameDatabase.resources db))
    with (GameDatabase.resources (other_games db)).
  change (filter (fun r => negb (Row.ent_game_id r =? 1)) (GameDatabase.entities db))
    with (GameDatabase.entities (other_games db)).
  change (filter (fun r => negb (Row.exp_game_id r =? 1))
                 (GameDatabase.entity_experience db))
    with (GameDatabase.entity_experience (other_games db)).
  change (filter (fun r => negb (Row.tech_game_id r =? 1))
                 (GameDatabase.technologies db))
    with (GameDatabase.technologies (other_games db)).
  now rewrite H.
Qed.

(** X2.  The save slot is single and the last save wins: saving a state no
    two rows of which share a primary key, after any earlier save (complete,
    or abandoned on an exception), returns game id 1 and leaves exactly the
    database that saving it directly would have left. *)
Theorem later_save_overwrites_earlier (s1 s2 : GameState.t) (db : GameDatabase.t) :
  persistable s2 ->
  GameDatabase.save_game_state s2 (fst (GameDatabase.save_game_state s1 db))
  = (fst (GameDatabase.save_game_state s2 db), Ok 1).
Proof.
  intros H.
  rewrite (save_game_state_saved s2 db H), (save_game_state_saved s2 _ H).
  cbn [fst]. f_equal. apply saved_of_other_games, save_game_state_keeps_other_games.
Qed.

(** The scenario saved after the state that lists a technology twice, whose
    own save raised. *)
Lemma later_save_overwrites_earlier_witness :
  snd (GameDatabase.save_game_state Duplicate.start GameDatabase.empty)
  = Raise IntegrityError
  /\ GameDatabase.save_game_state Scenario.start
       (fst (GameDatabase.save_game_state Duplicate.start GameDatabase.empty))
     = (fst (GameDatabase.save_game_state Scenario.start GameDatabase.empty), Ok 1).
Proof.
  split; [reflexivity|].
  apply (later_save_overwrites_earlier Duplicate.start Scenario.start
           GameDatabase.empty).
  repeat split; cbn; repeat constructor; cbn; intuition discriminate.
Defined.

(** ** A save always leaves a game to load *)





(** ** Existence and loading agree *)

(** X4.  [game_exists] and [load_game_state] agree on every database and
    game id, whatever order rows come back in: a game exists exactly when
    loading it returns a state; in particular nothing loads from a fresh
    database. *)
Theorem game_exists_iff_loads (fetch : GameDatabase.Fetch) (db : GameDatabase.t)
    (game_id : Z) :
  GameDatabase.fetch_permutes fetch ->
  (GameDatabase.game_exists db game_id = true
   <-> exists s, GameDatabase.load_game_state fetch db game_id = Some s)
  /\ (GameDatabase.game_exists db game_id = false
      <-> GameDatabase.load_game_state fetch db game_id = None)
  /\ GameDatabase.load_game_state fetch GameDatabase.empty game_id = None.
Proof.
  intros Hf.
  assert (H : forall db',
             (GameDatabase.game_exists db' game_id = true
              /\ exists s, GameDatabase.load_game_state fetch db' game_id = Some s)
             \/ (GameDatabase.game_exists db' game_id = false
                 /\ GameDatabase.load_game_state fetch db' game_id = None)).
  { intros db'. rewrite load_game_state_closed.
    unfold GameDatabase.game_exists, GameDatabase.fetchone.
    pose proof (Hf _ (filter (fun r => Row.gs_id r =? game_id)
                             (GameDatabase.game_state db'))) as Hp.
    destruct (filter _ (GameDatabase.game_state db')) as [|r rows].
    - apply Permutation_sym, Permutation_nil in Hp. rewrite Hp.
      right. split; reflexivity.
    - destruct (fetch _ (r :: rows)) as [|r' rows'].
      + apply Permutation_nil in Hp. discriminate Hp.
      + left. split; [reflexivity|]. eexists. reflexivity. }
  split; [|split].
  - destruct (H db) as [[E [s L]]|[E L]]; split; intros H'.
    + now exists s.
    + exact E.
    + congruence.
    + destruct H' as [s H']. congruence.
  - destruct (H db) as [[E [s L]]|[E L]]; split; intros H'; congruence.
  - destruct (H GameDatabase.empty) as [[E _]|[_ L]]; [discriminate E|exact L].
Qed.

(** On the database the scenario was saved to, game 1 exists and loads. *)
Lemma game_exists_iff_loads_witness :
  exists s,
    GameDatabase.load_game_state Backwards.fetch
      (fst (GameDatabase.save_game_state Scenario.start GameDatabase.empty)) 1
    = Some s.
Proof.
  apply (proj1 (game_exists_iff_loads Backwards.fetch
                  (fst (GameDatabase.save_game_state Scenario.start
                          GameDatabase.empty)) 1
                  (fun A rows => Permutation_sym (Permutation_rev rows)))).
  reflexivity.
Defined.

(** ** Saving and loading states with technologies *)

Lemma storable_persistable s : storable s -> persistable s.
Proof.
  intros (Hr & He & Hx & Ht). repeat split; trivial; now apply keyed_by_NoDup.
Qed.

Lemma load_experience_of_saved fetch s db e :
  GameDatabase.fetch_permutes fetch ->
  keyed_by Entity.id (GameState.entities s) ->
  Forall (fun e => dict_wf (Entity.experience e)) (dict_values (GameState.entities s)) ->
  In e (dict_values (GameState.entities s)) ->
  dict_rel eq (GameDatabase.load_experience fetch (saved s db) 1 (Entity.id e))
              (Entity.experience e).
Proof.
  intros Hf He Hx Hin.
  unfold GameDatabase.load_experience, GameDatabase.fetchall.
  fold (build Row.exp_task_type Row.exp_experience
          (fetch _ (filter (fun r => (Row.exp_game_id r =? 1)
                                     && String.eqb (Row.exp_entity_id r) (Entity.id e))
                           (GameDatabase.entity_experience (saved s db)))) []).
  cbn [saved GameDatabase.entity_experience].
  rewrite filter_app, filter_none.
  2:{ intros r Hr. apply filter_In in Hr. destruct Hr as [_ Hr].
      apply negb_true_iff in Hr. now rewrite Hr. }
  rewrite select_experience_rows by (trivial; now apply keyed_by_NoDup).
  cbn [app]. intros k.
  rewrite (build_of_dict_get (Entity.experience e) (experience_row (Entity.id e))).
  - destruct (dict_get (Entity.experience e) k); cbn [option_map]; trivial.
  - rewrite Forall_forall in Hx. now apply Hx.
  - reflexivity.
  - apply Hf.
Qed.

(** What loads from the save of a storable state, for any row order. *)
Lemma load_saved_storable fetch s db :
  GameDatabase.fetch_permutes fetch ->
  storable s ->
  exists s',
    GameDatabase.load_game_state fetch (saved s db) 1 = Some s'
    /\ GameState.tick s' = GameState.tick s
    /\ dict_rel eq (GameState.resources s') (GameState.resources s)
    /\ dict_rel entity_equiv (GameState.entities s') (GameState.entities s)
    /\ GameState.technologies s'
       = map Row.tech_name
           (fetch _ (map (technology_row (GameState.tick s))
                         (GameState.technologies s)))
    /\ GameState.prestige_tokens s' = GameState.prestige_tokens s
    /\ GameState.player_boost s' = GameState.player_boost s.
Proof.
  intros Hf ((Hrw & Hrk) & (Hew & Hek) & Hx & Ht).
  rewrite load_game_state_closed.
  cbn [saved GameDatabase.game_state GameDatabase.resources GameDatabase.entities
         GameDatabase.technologies].
  rewrite (select_saved Row.gs_id) by (intros r [<-|[]]; reflexivity).
  rewrite (select_saved Row.res_game_id)
    by (intros r Hr; apply in_map_iff in Hr; destruct Hr as (x & <- & _); reflexivity).
  rewrite (select_saved Row.ent_game_id)
    by (intros r Hr; apply in_map_iff in Hr; destruct Hr as (x & <- & _); reflexivity).
  rewrite (select_saved Row.tech_game_id)
    by (intros r Hr; apply in_map_iff in Hr; destruct Hr as (x & <- & _); reflexivity).
  unfold GameDatabase.fetchone. rewrite fetch_singleton by exact Hf.
  cbn [hd_error game_row Row.gs_tick Row.gs_prestige_tokens Row.gs_player_boost].
  eexists. split; [reflexivity|].
  cbn [GameState.tick GameState.resources GameState.entities
         GameState.technologies GameState.prestige_tokens GameState.player_boost].
  repeat split.
  - intros k.
    rewrite (build_of_dict_get (GameState.resources s)
               (fun kv => resource_row (snd kv))); trivial.
    + destruct (dict_get (GameState.resources s) k) as [[n a p]|];
        cbn [option_map]; trivial.
    + intros kv Hkv. rewrite Forall_forall in Hrk. now apply Hrk.
    + unfold dict_values. rewrite map_map. apply Hf.
  - intros k.
    rewrite (build_of_dict_get (GameState.entities s)
               (fun kv => entity_row (snd kv))); trivial.
    + destruct (dict_get (GameState.entities s) k) as [e|] eqn:G;
        cbn [option_map]; trivial.
      apply dict_get_In in G.
      pose proof (load_experience_of_saved fetch s db e Hf (conj Hew Hek) Hx G) as Hx'.
      unfold entity_equiv, entity_of_row.
      cbn [snd entity_row Row.ent_entity_id Row.ent_name Row.ent_entity_type
             Row.ent_current_task Row.ent_efficiency Row.ent_learning_rate
             Row.ent_cooperation Row.ent_stamina
             Entity.id Entity.name Entity.entity_type Entity.traits
             Entity.experience Entity.current_task].
      repeat split; trivial.
      now destruct (Entity.traits e).
    + intros kv Hkv. rewrite Forall_forall in Hek. now apply Hek.
    + unfold dict_values. rewrite map_map. apply Hf.
Qed.

Lemma tech_names_of_rows tick l : map Row.tech_name (map (technology_row tick) l) = l.
Proof. rewrite map_map. cbn [technology_row Row.tech_name]. apply map_id. Qed.

(** X5.  Saving and loading a state with technologies.  For every state
    whose resources sit under their name and entities under their id and
    which lists no technology twice, the save returns game id 1, and loading
    gives back the tick, tokens, boost, resources and entities; the list of
    technologies comes back as a permutation of the saved list, whose order
    is the order SQLite returns the rows in: it is the saved list itself when
    that is the order of the table. *)
Theorem save_then_load_with_technologies (fetch : GameDatabase.Fetch)
    (s : GameState.t) (db : GameDatabase.t) :
  GameDatabase.fetch_permutes fetch ->
  storable s ->
  exists db',
    GameDatabase.save_game_state s db = (db', Ok 1)
    /\ (exists s',
          GameDatabase.load_game_state fetch db' 1 = Some s'
          /\ GameState.tick s' = GameState.tick s
          /\ dict_rel eq (GameState.resources s') (GameState.resources s)
          /\ dict_rel entity_equiv (GameState.entities s') (GameState.entities s)
          /\ Permutation (GameState.technologies s') (GameState.technologies s)
          /\ GameState.prestige_tokens s' = GameState.prestige_tokens s
          /\ GameState.player_boost s' = GameState.player_boost s)
    /\ (exists s',
          GameDatabase.load_game_state table_order db' 1 = Some s'
          /\ state_equiv s' s).
Proof.
  intros Hf Hs. exists (saved s db).
  split; [apply save_game_state_saved; now apply storable_persistable|]. split.
  - destruct (load_saved_storable fetch s db Hf Hs)
      as (s' & Hl & H1 & H2 & H3 & H4 & H5 & H6).
    exists s'. repeat split; trivial.
    rewrite H4. rewrite <- (tech_names_of_rows (GameState.tick s)
                              (GameState.technologies s)) at 2.
    apply Permutation_map, Hf.
  - destruct (load_saved_storable table_order s db
                (fun A rows => Permutation_refl rows) Hs)
      as (s' & Hl & H1 & H2 & H3 & H4 & H5 & H6).
    exists s'. split; [exact Hl|]. unfold state_equiv. repeat split; trivial.
    rewrite H4. apply tech_names_of_rows.
Qed.

(** The scenario with fire and wheel unlocked, loaded with the rows coming
    back last first. *)
Lemma save_then_load_with_technologies_witness :
  exists db',
    GameDatabase.save_game_state Unlocked.start GameDatabase.empty = (db', Ok 1)
    /\ (exists s',
          GameDatabase.load_game_state Backwards.fetch db' 1 = Some s'
          /\ GameState.tick s' = GameState.tick Unlocked.start
          /\ dict_rel eq (GameState.resources s') (GameState.resources Unlocked.start)
          /\ dict_rel entity_equiv (GameState.entities s')
                      (GameState.entities Unlocked.start)
          /\ Permutation (GameState.technologies s')
                         (GameState.technologies Unlocked.start)
          /\ GameState.prestige_tokens s' = GameState.prestige_tokens Unlocked.start
          /\ GameState.player_boost s' = GameState.player_boost Unlocked.start)
    /\ (exists s',
          GameDatabase.load_game_state table_order db' 1 = Some s'
          /\ state_equiv s' Unlocked.start).
Proof.
  apply (save_then_load_with_technologies Backwards.fetch Unlocked.start
           GameDatabase.empty).
  - intros A rows. apply Permutation_sym, Permutation_rev.
  - unfold storable, keyed_by, dict_wf.
    repeat split; cbn; repeat constructor; cbn; intuition discriminate.
Defined.

(** With the rows coming back last first the technologies load in the
    opposite order: the loaded state is not [==] to the saved one. *)
Example technologies_load_reversed :
  exists s',
    GameDatabase.load_game_state Backwards.fetch
      (fst (GameDatabase.save_game_state Unlocked.start GameDatabase.empty)) 1
    = Some s'
    /\ GameState.technologies Unlocked.start = ["fire"; "wheel"]
    /\ GameState.technologies s' = ["wheel"; "fire"].
Proof.
  eexists. split; [vm_compute; reflexivity|]. split; reflexivity.
Qed.

(** ** Starting the program, and starting it again *)

Import Session.

Lemma game_exists_saved s db : GameDatabase.game_exists (saved s db) 1 = true.
Proof.
  unfold GameDatabase.game_exists. cbn [saved GameDatabase.game_state].
  rewrite (select_saved Row.gs_id) by (intros r [<-|[]]; reflexivity).
  reflexivity.
Qed.

(** X6.  Started on a database that holds no game 1, [GameLogic] sets up
    the new game (interval 10), saves it without raising, and leaves the
    database of that save.  Started again on the database it left, whatever
    order the rows come back in, it loads instead: it takes no draw, writes
    nothing, and its state is equal to the state of the first start. *)
Theorem init_starts_then_loads (fetch : GameDatabase.Fetch) (db : GameDatabase.t)
    (rnd : RandomModule.t) :
  GameDatabase.fetch_permutes fetch ->
  GameDatabase.game_exists db 1 = false ->
  let g := fst (fst (init fetch db rnd)) in
  init fetch db rnd
  = (GameLogic.mk
       (fst (GameDatabase.save_game_state
               (fst (_initialize_base_game GameState.default rnd)) db))
       (fst (_initialize_base_game GameState.default rnd)) 10,
     snd (_initialize_base_game GameState.default rnd),
     Ok tt)
  /\ forall rnd2,
       exists s2,
         init fetch (database g) rnd2 = (GameLogic.mk (database g) s2 10, rnd2, Ok tt)
         /\ state_equiv s2 (state g).
Proof.
  intros Hf Hno. cbv zeta.
  pose proof (new_game_well_keyed rnd) as Hwk.
  assert (E : init fetch db rnd
              = (GameLogic.mk
                   (saved (fst (_initialize_base_game GameState.default rnd)) db)
                   (fst (_initialize_base_game GameState.default rnd)) 10,
                 snd (_initialize_base_game GameState.default rnd), Ok tt)).
  { unfold init. rewrite Hno. cbn [state].
    destruct (_initialize_base_game GameState.default rnd) as [s rnd'] eqn:Es.
    cbn [fst snd] in *. unfold save_game. cbn [state database set_state].
    rewrite save_game_state_saved by now apply well_keyed_persistable.
    reflexivity. }
  rewrite E. cbn [fst snd state database].
  rewrite save_game_state_saved by now apply well_keyed_persistable.
  split; [reflexivity|]. intros rnd2. cbn [fst].
  destruct (load_saved fetch _ db Hf Hwk) as (s2 & Hl & He & _).
  exists s2. split; [|exact He].
  unfold init. rewrite game_exists_saved, Hl. reflexivity.
Qed.

(** A first start on the empty database, then a second with the rows coming
    back last first. *)
Lemma init_starts_then_loads_witness :
  let g := fst (fst (init Backwards.fetch GameDatabase.empty Scenario.quiet)) in
  exists s2,
    init Backwards.fetch (database g) Scenario.lucky
    = (GameLogic.mk (database g) s2 10, Scenario.lucky, Ok tt)
    /\ state_equiv s2 (state g).
Proof.
  refine (proj2 (init_starts_then_loads Backwards.fetch GameDatabase.empty
                   Scenario.quiet _ _) Scenario.lucky).
  - intros A rows. apply Permutation_sym, Permutation_rev.
  - reflexivity.
Defined.

(** ** Ticks of a run *)

(** X7.  In a run of the program the tick never raises: on every reachable
    state, with a non-zero interval, [tick] returns its data, the data carry
    the incremented counter, and the state it leaves is reachable again. *)
Theorem tick_returns_on_reachable (fetch : GameDatabase.Fetch) (g : GameLogic.t)
    (rnd : RandomModule.t) :
  GameDatabase.fetch_permutes fetch ->
  reachable fetch (state g) ->
  auto_save_interval g <> 0 ->
  exists data,
    snd (tick g rnd) = Ok data
    /\ td_tick data = GameState.tick (state g) + 1
    /\ reachable fetch (state (fst (fst (tick g rnd)))).
Proof.
  intros Hf Hr Hi.
  assert (Hp : persistable (state g))
    by now apply well_keyed_persistable, (reachable_well_keyed fetch).
  destruct (tick_returns g rnd Hi (or_intror Hp)) as [data Hd].
  exists data. split; [exact Hd|]. split; [|now apply reachable_tick].
  rewrite tick_result in Hd. cbv zeta in Hd.
  destruct (auto_save_interval g =? 0); [discriminate|].
  destruct (_ mod _ =? 0).
  - destruct (snd _); [|discriminate]. injection Hd as <-. apply advanced_tick.
  - injection Hd as <-. apply advanced_tick.
Qed.

(** The first tick of a new game with the interval at 1: a tick that saves. *)
Lemma tick_returns_on_reachable_witness :
  exists data,
    snd (tick (GameLogic.mk GameDatabase.empty
                 (fst (_initialize_base_game GameState.default Scenario.quiet))
                 1)
              Scenario.quiet)
    = Ok data.
Proof.
  destruct (tick_returns_on_reachable Backwards.fetch
              (GameLogic.mk GameDatabase.empty
                 (fst (_initialize_base_game GameState.default Scenario.quiet))
                 1)
              Scenario.quiet) as (data & H & _).
  - intros A rows. apply Permutation_sym, Permutation_rev.
  - exact (reachable_new Backwards.fetch Scenario.quiet).
  - discriminate.
  - exists data. exact H.
Defined.

Lemma iter_shift {A} (f : A -> A) (n : nat) (x : A) :
  Nat.iter n f (f x) = f (Nat.iter n f x).
Proof. induction n as [|n IH]; simpl; [reflexivity | now rewrite IH]. Qed.

Lemma ticks_state n g rnd :
  state (fst (ticks n g rnd)) = Nat.iter n advanced (state g).
Proof.
  revert g rnd. induction n as [|n IH]; intros g rnd; [reflexivity|].
  cbn [ticks]. pose proof (tick_state g rnd) as Hs.
  destruct (tick g rnd) as [[g' rnd'] res]. cbn [fst] in Hs.
  rewrite IH, Hs, iter_shift. reflexivity.
Qed.

Lemma iter_advanced_tick n s :
  GameState.tick (Nat.iter n advanced s) = GameState.tick s + Z.of_nat n.
Proof.
  induction n as [|n IH]; [cbn [Nat.iter nat_rect]; lia|].
  rewrite Nat.iter_succ, advanced_tick, IH. lia.
Qed.

Lemma iter_advanced_entities n s :
  GameState.entities (Nat.iter n advanced s)
  = map_values (Nat.iter n entity_after) (GameState.entities s).
Proof.
  induction n as [|n IH].
  - cbn [Nat.iter nat_rect]. unfold map_values.
    rewrite <- (map_id (GameState.entities s)) at 1.
    apply map_ext. now intros [k e].
  - rewrite Nat.iter_succ, advanced_entities, IH. unfold map_values.
    rewrite map_map. apply map_ext. intros [k e]. cbn [fst snd].
    now rewrite Nat.iter_succ.
Qed.

Lemma entity_after_frame e :
  Entity.id (entity_after e) = Entity.id e
  /\ Entity.name (entity_after e) = Entity.name e
  /\ Entity.entity_type (entity_after e) = Entity.entity_type e
  /\ Entity.traits (entity_after e) = Entity.traits e
  /\ Entity.current_task (entity_after e) = Entity.current_task e
  /\ is_gathering (entity_after e) = is_gathering e.
Proof. unfold entity_after. destruct (is_gathering e) eqn:E; repeat split; exact E. Qed.

Lemma iter_entity_after_frame n e :
  Entity.id (Nat.iter n entity_after e) = Entity.id e
  /\ Entity.name (Nat.iter n entity_after e) = Entity.name e
  /\ Entity.entity_type (Nat.iter n entity_after e) = Entity.entity_type e
  /\ Entity.traits (Nat.iter n entity_after e) = Entity.traits e
  /\ Entity.current_task (Nat.iter n entity_after e) = Entity.current_task e
  /\ is_gathering (Nat.iter n entity_after e) = is_gathering e.
Proof.
  induction n as [|n IH]; [repeat split|]. rewrite Nat.iter_succ.
  destruct (entity_after_frame (Nat.iter n entity_after e)) as (A & B & C & D & E & F).
  destruct IH as (A' & B' & C' & D' & E' & F').
  repeat split; congruence.
Qed.

Lemma iter_entity_after_experience n e :
  (forall task, task <> "gathering" ->
     dict_get (Entity.experience (Nat.iter n entity_after e)) task
     = dict_get (Entity.experience e) task)
  /\ (is_gathering e = false ->
      Entity.experience (Nat.iter n entity_after e) = Entity.experience e)
  /\ (is_gathering e = true ->
      (dict_get_default (Entity.experience (Nat.iter n entity_after e)) "gathering" 0
       == dict_get_default (Entity.experience e) "gathering" 0
          + inject_Z (Z.of_nat n) * EntityTraits.learning_rate (Entity.traits e))%Q).
Proof.
  induction n as [|n (IH1 & IH2 & IH3)].
  - cbn [Nat.iter nat_rect]. repeat split. intros _. cbn [Z.of_nat inject_Z]. ring.
  - rewrite Nat.iter_succ.
    destruct (iter_entity_after_frame n e) as (_ & _ & _ & Ht & _ & Hg).
    set (e' := Nat.iter n entity_after e) in *.
    unfold entity_after. rewrite Hg. split; [|split].
    + intros task Hk. destruct (is_gathering e); [|now apply IH1].
      cbn [Entity.experience Entity.set_experience]. rewrite dict_get_set.
      destruct (String.eqb "gathering" task) eqn:E; [|now apply IH1].
      apply String.eqb_eq in E. congruence.
    + intros E. rewrite E. now apply IH2.
    + intros E. rewrite E. cbn [Entity.experience Entity.set_experience].
      unfold dict_get_default at 1. rewrite dict_get_set, String.eqb_refl.
      rewrite (IH3 E), Ht, Nat2Z.inj_succ. unfold Z.succ. rewrite inject_Z_plus.
      ring.
Qed.

(** X8.  Over any number of ticks an entity stays under its key with the
    id, name, type, traits and task it had, and its experience in tasks other
    than gathering is untouched; an entity that is gathering has gained
    exactly n times its learning rate in gathering experience after n ticks,
    an entity that is not has the experience map it started with.  The
    counter has advanced by n. *)
Theorem experience_after_n_ticks (n : nat) (g : GameLogic.t) (rnd : RandomModule.t)
    (k : string) (e : Entity.t) :
  dict_get (GameState.entities (state g)) k = Some e ->
  let s' := state (fst (ticks n g rnd)) in
  GameState.tick s' = GameState.tick (state g) + Z.of_nat n
  /\ exists e',
       dict_get (GameState.entities s') k = Some e'
       /\ Entity.id e' = Entity.id e
       /\ Entity.name e' = Entity.name e
       /\ Entity.entity_type e' = Entity.entity_type e
       /\ Entity.traits e' = Entity.traits e
       /\ Entity.current_task e' = Entity.current_task e
       /\ (forall task, task <> "gathering" ->
             dict_get (Entity.experience e') task
             = dict_get (Entity.experience e) task)
       /\ (is_gathering e = false -> Entity.experience e' = Entity.experience e)
       /\ (is_gathering e = true ->
           (dict_get_default (Entity.experience e') "gathering" 0
            == dict_get_default (Entity.experience e) "gathering" 0
               + inject_Z (Z.of_nat n)
                 * EntityTraits.learning_rate (Entity.traits e))%Q).
Proof.
  intros G. cbv zeta. rewrite ticks_state. split; [apply iter_advanced_tick|].
  exists (Nat.iter n entity_after e).
  rewrite iter_advanced_entities, dict_get_map_values, G.
  destruct (iter_entity_after_frame n e) as (A & B & C & D & E & _).
  destruct (iter_entity_after_experience n e) as (X1 & X2 & X3).
  repeat split; trivial.
Qed.

(** Ten ticks of the scenario: the first gatherer has 10 * 0.1 = 1.0 of
    gathering experience, and the counter is at 10. *)
Lemma experience_after_n_ticks_witness :
  let s' := state (fst (ticks 10 Scenario.logic Scenario.quiet)) in
  GameState.tick s' = 10
  /\ exists e',
       dict_get (GameState.entities s') "entity_0" = Some e'
       /\ (dict_get_default (Entity.experience e') "gathering" 0 == 1.0)%Q.
Proof.
  destruct (experience_after_n_ticks 10 Scenario.logic Scenario.quiet "entity_0"
              (Scenario.gatherer "entity_0" "Zara") eq_refl)
    as (Ht & e' & Hg & _ & _ & _ & _ & _ & _ & _ & Hx).
  split; [exact Ht|]. exists e'. split; [exact Hg|].
  rewrite (Hx eq_refl). reflexivity.
Defined.

(** ** What a tick adds to the amounts *)

Lemma fold_Qplus_sum (l : list Q) (a : Q) : (fold_left Qplus l a == a + sum l)%Q.
Proof.
  unfold sum. revert a.
  induction l as [|x l IH]; intros a; cbn [fold_left]; [ring|].
  rewrite (IH (a + x)%Q), (IH (0 + x)%Q). ring.
Qed.

(** X9.  The amounts after a tick.  The energy resource keeps its name and
    gains the yield of every entity that is gathering, each computed from the
    experience it had before the tick, and then the production rate the tick
    has just set, when that rate is positive; every other resource gains its
    stored rate when that is positive, and nothing otherwise. *)
Theorem amounts_after_tick (g : GameLogic.t) (rnd : RandomModule.t) :
  let s := state g in
  let s' := state (fst (fst (tick g rnd))) in
  (forall r,
     dict_get (GameState.resources s) "energy" = Some r ->
     exists r',
       dict_get (GameState.resources s') "energy" = Some r'
       /\ Resource.name r' = Resource.name r
       /\ (Resource.amount r'
           == Resource.amount r
              + sum (map gathered (filter is_gathering (dict_values (GameState.entities s))))
              + (if Qlt_bool 0 (Resource.production_rate r')
                 then Resource.production_rate r' else 0))%Q)
  /\ (forall k r,
        k <> "energy" ->
        dict_get (GameState.resources s) k = Some r ->
        dict_get (GameState.resources s') k
        = Some (if Qlt_bool 0 (Resource.production_rate r)
                then Resource.set_amount r
                       (Resource.amount r + Resource.production_rate r)%Q
                else r)).
Proof.
  cbv zeta. rewrite tick_state. split.
  - intros r Hr. rewrite advanced_resources, dict_get_map_values, set_rate_get,
      String.eqb_refl, yielded_get, String.eqb_refl, Hr.
    cbn [option_map]. eexists. split; [reflexivity|].
    destruct r as [n a p].
    unfold apply_production, Resource.set_amount, Resource.set_production_rate.
    cbn [Resource.production_rate Resource.amount Resource.name].
    destruct (Qlt_bool 0 (energy_rate _)) eqn:E;
      cbn [Resource.production_rate Resource.amount Resource.name];
      rewrite ?E; (split; [reflexivity|]); rewrite fold_Qplus_sum; unfold gains; ring.
  - intros k r Hk Hr. rewrite advanced_resources, dict_get_map_values, set_rate_get.
    destruct (String.eqb "energy" k) eqn:E.
    { apply String.eqb_eq in E. congruence. }
    rewrite yielded_get, E, Hr. reflexivity.
Qed.

(** The philosopher: energy gains its yield 1.0 and no rate; knowledge gains
    its stored rate 5.0. *)
Lemma amounts_after_tick_witness :
  let s' := state (fst (fst (tick Philosopher.logic Scenario.quiet))) in
  dict_get (GameState.resources s') "knowledge"
  = Some (Resource.mk "knowledge" (0.0 + 5.0) 5.0).
Proof.
  apply (proj2 (amounts_after_tick Philosopher.logic Scenario.quiet) "knowledge"
           (Resource.mk "knowledge" 0.0 5.0)).
  - discriminate.
  - reflexivity.
Defined.

(** ** Generated entities *)

Import Generated.

Lemma uniform_in_range (a b u : Q) :
  (a <= b)%Q -> (0 <= u)%Q -> (u < 1)%Q ->
  (a <= a + (b - a) * u <= b)%Q.
Proof. intros Hab Hu0 Hu1. split; nra. Qed.

Lemma choice_in (seq : list string) (rnd : RandomModule.t) :
  seq <> [] -> in_unit_interval rnd ->
  In (fst (RandomModule.choice seq rnd)) seq.
Proof.
  intros Hne Hu. unfold RandomModule.choice, RandomModule.random. cbn [fst].
  destruct (Hu (RandomModule.cursor rnd)) as [H0 H1].
  set (u := RandomModule.tape rnd (RandomModule.cursor rnd)) in *.
  set (len := Z.of_nat (List.length seq)).
  assert (Hlen : 0 < len).
  { unfold len. destruct seq; [congruence|]. cbn [List.length]. lia. }
  assert (Hq : (0 < inject_Z len)%Q).
  { change 0%Q with (inject_Z 0). rewrite <- Zlt_Qlt. exact Hlen. }
  assert (Hlo : 0 <= Qfloor (u * inject_Z len)).
  { change 0 with (Qfloor 0). apply Qfloor_resp_le. nra. }
  assert (Hhi : Qfloor (u * inject_Z len) < len).
  { rewrite Zlt_Qlt. eapply Qle_lt_trans; [apply Qfloor_le|]. nra. }
  apply nth_In. apply Nat2Z.inj_lt. fold len. rewrite Z2Nat.id; assumption.
Qed.

Lemma generate_entity_fresh (entity_id entity_type : string)
    (rnd : RandomModule.t) :
  in_unit_interval rnd ->
  fresh entity_id entity_type (fst (_generate_entity entity_id entity_type rnd))
  /\ in_unit_interval (snd (_generate_entity entity_id entity_type rnd)).
Proof.
  intros Hu. unfold _generate_entity, RandomModule.uniform, RandomModule.random.
  cbn [RandomModule.tape RandomModule.cursor].
  set (r4 := RandomModule.mk _ (S (S (S (S (RandomModule.cursor rnd)))))).
  assert (Hu4 : in_unit_interval r4) by (intros n; apply Hu).
  pose proof (choice_in names r4) as Hc.
  destruct (RandomModule.choice _ r4) as [name r5] eqn:Ec.
  cbn [fst snd] in *. split.
  - unfold fresh, traits_in_range.
    cbn [Entity.id Entity.entity_type Entity.name Entity.traits Entity.experience
           Entity.current_task EntityTraits.efficiency EntityTraits.learning_rate
           EntityTraits.cooperation EntityTraits.stamina].
    repeat split; try (apply Hc; [discriminate|exact Hu4]);
      match goal with
      | |- (_ <= _ + _ * RandomModule.tape rnd ?n)%Q =>
          destruct (Hu n); apply uniform_in_range; trivial; lra
      | |- (_ + _ * RandomModule.tape rnd ?n <= _)%Q =>
          destruct (Hu n); apply uniform_in_range; trivial; lra
      end.
  - unfold RandomModule.choice, RandomModule.random in Ec.
    injection Ec as _ <-. intros n. apply Hu.
Qed.

(** X10.  [_generate_entity], on a generator whose values lie in [0, 1):
    the entity has the id and type asked for, one of the eight names, an
    efficiency in [0.8, 1.2], a learning rate in [0.05, 0.15], a cooperation
    in [0.9, 1.1], a stamina in [0.8, 1.2], no gathering experience yet, and
    the task gathering; the generator it leaves still has its values in
    [0, 1). *)
Theorem generate_entity_in_range (entity_id entity_type : string)
    (rnd : RandomModule.t) :
  in_unit_interval rnd ->
  fresh entity_id entity_type (fst (_generate_entity entity_id entity_type rnd))
  /\ in_unit_interval (snd (_generate_entity entity_id entity_type rnd)).
Proof. apply generate_entity_fresh. Qed.

(** A generator that always returns 0.5 gives an entity in range. *)
Lemma generate_entity_in_range_witness :
  fresh "entity_0" "gatherer" (fst (_generate_entity "entity_0" "gatherer" Scenario.quiet)).
Proof.
  apply (generate_entity_in_range "entity_0" "gatherer" Scenario.quiet).
  intros n. cbn. lra.
Defined.

(** X11.  [_initialize_base_game] on a fresh [GameState], with a generator
    whose values lie in [0, 1): the new game is at tick 0 with no technology
    and no token, has the one resource energy = 10.0 with rate 0.0, and three
    freshly generated gatherers under the keys entity_0, entity_1 and
    entity_2; every efficiency, learning rate, amount and experience in it is
    non-negative. *)
Theorem new_game_in_range (rnd : RandomModule.t) :
  in_unit_interval rnd ->
  let s := fst (_initialize_base_game GameState.default rnd) in
  (exists e0 e1 e2,
     s = GameState.mk 0 [("energy", Resource.mk "energy" 10.0 0.0)]
           [("entity_0", e0); ("entity_1", e1); ("entity_2", e2)] [] 0 1.0
     /\ fresh "entity_0" "gatherer" e0
     /\ fresh "entity_1" "gatherer" e1
     /\ fresh "entity_2" "gatherer" e2)
  /\ nonneg_state s.
Proof.
  intros Hu. cbv zeta.
  assert (H : exists e0 e1 e2,
             fst (_initialize_base_game GameState.default rnd)
             = GameState.mk 0 [("energy", Resource.mk "energy" 10.0 0.0)]
                 [("entity_0", e0); ("entity_1", e1); ("entity_2", e2)] [] 0 1.0
             /\ fresh "entity_0" "gatherer" e0
             /\ fresh "entity_1" "gatherer" e1
             /\ fresh "entity_2" "gatherer" e2).
  { unfold _initialize_base_game. cbn [fold_left].
    destruct (generate_entity_fresh "entity_0" "gatherer" rnd Hu) as [F0 U0].
    destruct (_generate_entity "entity_0" "gatherer" rnd) as [e0 r0].
    cbn [fst snd] in F0, U0.
    destruct (generate_entity_fresh "entity_1" "gatherer" r0 U0) as [F1 U1].
    destruct (_generate_entity "entity_1" "gatherer" r0) as [e1 r1].
    cbn [fst snd] in F1, U1.
    destruct (generate_entity_fresh "entity_2" "gatherer" r1 U1) as [F2 U2].
    destruct (_generate_entity "entity_2" "gatherer" r1) as [e2 r2].
    cbn [fst snd] in F2, U2.
    exists e0, e1, e2. split; [|split; [exact F0|split; [exact F1|exact F2]]].
    destruct F0 as (I0 & _), F1 as (I1 & _), F2 as (I2 & _).
    cbn [fst GameState.set_entities GameState.set_resources GameState.entities
           GameState.resources GameState.default GameState.tick
           GameState.technologies GameState.prestige_tokens GameState.player_boost].
    rewrite I0, I1, I2. reflexivity. }
  split; [exact H|].
  destruct H as (e0 & e1 & e2 & -> & F0 & F1 & F2).
  assert (Hn : forall i t e, fresh i t e -> nonneg_entity e).
  { intros i t e (_ & _ & _ & ((A & _) & (B & _) & _) & X & _).
    unfold nonneg_entity. rewrite X. repeat split; try lra.
    repeat constructor. cbn. lra. }
  split; cbn [GameState.entities GameState.resources dict_values map snd].
  - repeat constructor; eapply Hn; eassumption.
  - repeat constructor. cbn. lra.
Qed.

(** The new game of a generator that always returns 0.5. *)
Lemma new_game_in_range_witness :
  nonneg_state (fst (_initialize_base_game GameState.default Scenario.quiet)).
Proof.
  apply (new_game_in_range Scenario.quiet).
  intros n. cbn. lra.
Defined.

(** ** The display: selection and input thread *)

Import NCursesSelection.

Lemma get_input_head key q selection items :
  get_input (NCursesDisplay.mk (key :: q) selection items)
  = (NCursesDisplay.mk q
       (current_selection (fst (get_input (NCursesDisplay.mk [key] selection items))))
       items,
     snd (get_input (NCursesDisplay.mk [key] selection items))).
Proof.
  unfold get_input. cbn [input_queue current_selection selectable_items].
  repeat (destruct (_ =? _); cbn [orb];
          [try reflexivity; destruct (_ && _); reflexivity|]).
  reflexivity.
Qed.

(** X12.  The selection stays on an item.  A render given at least one
    entity brings any non-negative selection onto an item, lists exactly the
    entity ids of the data, in their order, and leaves the queue alone.  From
    then on [get_input], whatever key it takes, and [put] keep the selection
    on an item and the items as they are; [get_input] takes exactly the first
    key of the queue, and when that key is the space bar the command is
    ["boost:"] followed by the id of the selected item. *)
Theorem selection_stays_on_an_item (d : NCursesDisplay.t) :
  (forall game_data,
     td_entities game_data <> [] ->
     0 <= current_selection d ->
     in_range (_update_selectable_items d game_data)
     /\ item_ids (_update_selectable_items d game_data)
        = dict_keys (td_entities game_data)
     /\ input_queue (_update_selectable_items d game_data) = input_queue d)
  /\ (in_range d ->
      in_range (fst (get_input d))
      /\ selectable_items (fst (get_input d)) = selectable_items d
      /\ input_queue (fst (get_input d)) = tl (input_queue d)
      /\ (forall key, in_range (put d key)))
  /\ (forall q,
        in_range d ->
        input_queue d = ord " " :: q ->
        snd (get_input d)
        = Some ("boost:"
                ++ nth (Z.to_nat (current_selection d)) (item_ids d) "")%string
        /\ In (nth (Z.to_nat (current_selection d)) (item_ids d) "") (item_ids d)).
Proof.
  split; [|split].
  - intros game_data Hne H0. unfold _update_selectable_items, in_range, item_ids.
    cbn [current_selection selectable_items input_queue].
    rewrite length_map.
    assert (Hlen : 0 < Z.of_nat (List.length (td_entities game_data))).
    { destruct (td_entities game_data); [congruence|]. cbn [List.length]. lia. }
    split; [|split; [|reflexivity]].
    + destruct (_ <=? _) eqn:E; [lia|]. apply Z.leb_gt in E. lia.
    + rewrite map_map. unfold dict_keys. apply map_ext. now intros [k v].
  - intros [H0 H1]. destruct d as [[|key q] selection items];
      cbn [current_selection selectable_items input_queue] in *.
    + repeat split; assumption.
    + rewrite get_input_head. cbn [fst input_queue selectable_items tl].
      split; [|repeat split; assumption].
      unfold in_range, get_input.
      cbn [input_queue current_selection selectable_items].
      repeat (destruct (_ =? _); cbn [orb];
              [try destruct (_ && _);
               cbn [fst current_selection selectable_items set_selection]; lia|]).
      cbn [fst current_selection selectable_items]. lia.
  - intros q [H0 H1] Hq. destruct d as [queue selection items].
    cbn [current_selection selectable_items input_queue] in *. subst queue.
    unfold get_input, item_ids.
    cbn [input_queue current_selection selectable_items].
    change (ord " " =? curses.KEY_UP) with false.
    change (ord " " =? curses.KEY_DOWN) with false.
    change (ord " " =? ord " ") with true. cbn iota.
    apply Z.leb_le in H0. pose proof H1 as H1'. apply Z.ltb_lt in H1.
    rewrite H0, H1. cbn [andb snd].
    assert (Hn : (Z.to_nat selection < List.length items)%nat) by lia.
    split.
    + do 2 f_equal.
      rewrite <- (map_nth (fun item : string * string * string => snd (fst item))).
      reflexivity.
    + apply nth_In. now rewrite length_map.
Qed.

(** Three entities on the screen, the second selected, the space bar
    pressed: the command boosts the second. *)
Lemma selection_stays_on_an_item_witness :
  let d :=
    put (NCursesDisplay.mk [] 1
           [("boost", "entity_0", "Boost Zara (gatherer)");
            ("boost", "entity_1", "Boost Kael (gatherer)");
            ("boost", "entity_2", "Boost Luna (gatherer)")])
        (ord " ") in
  snd (get_input d) = Some "boost:entity_1".
Proof.
  cbv zeta.
  refine (proj1 (proj2 (proj2 (selection_stays_on_an_item _)) [] _ _)).
  - split; [discriminate|reflexivity].
  - reflexivity.
Defined.

(** With nothing to select, the down arrow leaves the selection at -1; a
    later render with three entities keeps it there, and the space bar then
    gives the bare command "boost". *)
Example selection_below_zero :
  let d0 := put NCursesDisplay.new curses.KEY_DOWN in
  let d1 := fst (get_input d0) in
  let d2 :=
    _update_selectable_items d1
      (tick_data (state (fst (fst (tick Scenario.logic Scenario.quiet)))) []) in
  current_selection d1 = -1
  /\ current_selection d2 = -1
  /\ List.length (selectable_items d2) = 3%nat
  /\ snd (get_input (put d2 (ord " "))) = Some "boost".
Proof. cbv zeta. repeat split. Qed.

(** X13.  The input thread loses no key and keeps their order: over any run
    of [getch] outcomes it adds to the end of the queue exactly the keys
    read before the first call that raises, -1 (no key waiting) left out,
    and touches neither the selection nor the items; once a call has raised
    the thread has ended, and nothing read later is added. *)
Theorem input_handler_queues_keys_read (d : NCursesDisplay.t) (trace : list Getch) :
  input_queue (_input_handler d trace) = input_queue d ++ keys_read trace
  /\ current_selection (_input_handler d trace) = current_selection d
  /\ selectable_items (_input_handler d trace) = selectable_items d
  /\ (forall later,
        _input_handler d (trace ++ CursesError :: later)
        = _input_handler d trace).
Proof.
  revert d. induction trace as [|[key|] trace IH]; intros d.
  - cbn [_input_handler keys_read app _input_handler_step].
    rewrite app_nil_r. repeat split.
  - cbn [_input_handler keys_read _input_handler_step app].
    destruct (key =? -1); cbn [negb].
    + apply IH.
    + destruct (IH (put d key)) as (A & B & C & D). rewrite A, B, C.
      cbn [put input_queue current_selection selectable_items].
      rewrite <- app_assoc. repeat split. exact D.
  - cbn [_input_handler keys_read _input_handler_step app].
    rewrite app_nil_r. repeat split.
Qed.

(** ** The controller *)

Import IdleStuffGame.

Lemma prefix_app (p s : string) :
  String.prefix p s = true -> exists rest, s = (p ++ rest)%string.
Proof.
  revert s. induction p as [|a p IH]; intros s Hp.
  - exists s. reflexivity.
  - destruct s as [|b s]; cbn [String.prefix] in Hp; [discriminate|].
    destruct (ascii_dec a b) as [<-|]; [|discriminate].
    destruct (IH s Hp) as [rest ->]. exists rest. reflexivity.
Qed.

Lemma split_1_boost (entity_id : string) :
  builtins.split_1 ":" ("boost:" ++ entity_id) = ["boost"; entity_id].
Proof. reflexivity. Qed.

Lemma boost_state_frame (g : GameLogic.t) (entity_id : string) (m : Q) :
  let s := state g in
  let s' := state (fst (apply_player_boost g entity_id m)) in
  database (fst (apply_player_boost g entity_id m)) = database g
  /\ auto_save_interval (fst (apply_player_boost g entity_id m))
     = auto_save_interval g
  /\ GameState.tick s' = GameState.tick s
  /\ GameState.entities s' = GameState.entities s
  /\ GameState.technologies s' = GameState.technologies s
  /\ GameState.prestige_tokens s' = GameState.prestige_tokens s
  /\ GameState.player_boost s' = GameState.player_boost s
  /\ dict_keys (GameState.resources s') = dict_keys (GameState.resources s)
  /\ (forall name,
        name <> "energy" ->
        dict_get (GameState.resources s') name
        = dict_get (GameState.resources s) name).
Proof.
  cbv zeta. unfold apply_player_boost.
  destruct (dict_get (GameState.entities (state g)) entity_id) as [e|];
    [|repeat split].
  destruct (is_gathering e); [|repeat split].
  destruct (dict_contains (GameState.resources (state g)) "energy");
    [|repeat split].
  cbn [fst state database auto_save_interval set_state GameState.set_resources
       GameState.tick GameState.entities GameState.technologies
       GameState.prestige_tokens GameState.player_boost GameState.resources].
  repeat split.
  - apply dict_keys_modify.
  - intros name Hn. rewrite dict_get_modify.
    destruct (String.eqb "energy" name) eqn:E; [|reflexivity].
    apply String.eqb_eq in E. congruence.
Qed.

(** X14.  What one [_handle_input] can change.  It never raises on the
    index into [cmd.split(":", 1)], and the display is the one [get_input]
    leaves.  Whatever the command, the tick counter, the entities, the
    technologies, the prestige tokens, the player boost, the auto-save
    interval, the names of the resources and every resource other than
    energy are as before.  The database is written only by the command
    "save", [running] changes only by "quit", which clears it, and the tick
    rate only by "speed_up" and "speed_down". *)
Theorem handle_input_changes {D : Type} `{Display.t D} (game : IdleStuffGame.t D) :
  let cmd := snd (Display.get_input (display game)) in
  let game' := fst (_handle_input game) in
  let s := state (logic game) in
  let s' := state (logic game') in
  snd (_handle_input game) <> RaisesIndexError
  /\ display game' = fst (Display.get_input (display game))
  /\ GameState.tick s' = GameState.tick s
  /\ GameState.entities s' = GameState.entities s
  /\ GameState.technologies s' = GameState.technologies s
  /\ GameState.prestige_tokens s' = GameState.prestige_tokens s
  /\ GameState.player_boost s' = GameState.player_boost s
  /\ auto_save_interval (logic game') = auto_save_interval (logic game)
  /\ dict_keys (GameState.resources s') = dict_keys (GameState.resources s)
  /\ (forall name,
        name <> "energy" ->
        dict_get (GameState.resources s') name
        = dict_get (GameState.resources s) name)
  /\ (cmd <> Some "save" -> database (logic game') = database (logic game))
  /\ (running game' = running game
      \/ (cmd = Some "quit" /\ running game' = false))
  /\ (tick_rate game' = tick_rate game
      \/ cmd = Some "speed_up" \/ cmd = Some "speed_down").
Proof.
  cbv zeta. unfold _handle_input.
  destruct (Display.get_input (display game)) as [d [cmd|]]; cbn [fst snd].
  2: { repeat split; try discriminate; auto. }
  destruct (cmd =? "")%string.
  { repeat split; try discriminate; auto. }
  destruct (cmd =? "quit")%string eqn:Eq.
  { apply String.eqb_eq in Eq. subst cmd.
    repeat split; try discriminate; auto. }
  destruct (cmd =? "save")%string eqn:Es.
  { apply String.eqb_eq in Es. subst cmd. unfold save_game.
    destruct (GameDatabase.save_game_state _ _) as [db' [z|e]];
      repeat split; try discriminate; try congruence; auto. }
  apply String.eqb_neq in Es.
  destruct (builtins.startswith cmd "boost:") eqn:Eb.
  { apply prefix_app in Eb. destruct Eb as [entity_id ->].
    rewrite split_1_boost. cbn [nth_error].
    pose proof (boost_state_frame (logic game) entity_id 2.0) as F.
    cbv zeta in F. change (logic (set_display game d)) with (logic game).
    destruct (apply_player_boost (logic game) entity_id 2.0) as [g result].
    cbn [fst snd set_last_boost_message set_logic set_display logic display
         running tick_rate] in *.
    destruct F as (F1 & F2 & F3 & F4 & F5 & F6 & F7 & F8 & F9).
    repeat split; try discriminate; auto. }
  destruct (cmd =? "speed_up")%string eqn:Eu.
  { apply String.eqb_eq in Eu. subst cmd.
    repeat split; try discriminate; auto. }
  destruct (cmd =? "speed_down")%string eqn:Ed.
  { apply String.eqb_eq in Ed. subst cmd.
    repeat split; try discriminate; auto. }
  destruct (cmd =? "reset")%string;
    repeat split; try discriminate; auto.
Qed.

Lemma Qlt_bool_true (x y : Q) : Qlt_bool x y = true -> (x < y)%Q.
Proof.
  unfold Qlt_bool. destruct (x ?= y)%Q eqn:E; try discriminate.
  intros _. now apply Qlt_alt.
Qed.

Lemma Qlt_bool_false (x y : Q) : Qlt_bool x y = false -> (y <= x)%Q.
Proof.
  unfold Qlt_bool. destruct (x ?= y)%Q eqn:E; try discriminate; intros _.
  - apply Qeq_alt in E. rewrite E. apply Qle_refl.
  - apply Qlt_le_weak. now apply Qgt_alt.
Qed.

Lemma handle_input_rate {D : Type} `{Display.t D} (game : IdleStuffGame.t D) :
  tick_rate (fst (_handle_input game))
  = match snd (Display.get_input (display game)) with
    | Some cmd =>
        if (cmd =? "speed_up")%string
        then builtins.max 0.1 (tick_rate game * 0.8)
        else if (cmd =? "speed_down")%string
             then builtins.min 5.0 (tick_rate game * 1.25)
             else tick_rate game
    | None => tick_rate game
    end.
Proof.
  unfold _handle_input.
  destruct (Display.get_input (display game)) as [d [cmd|]]; cbn [fst snd];
    [|reflexivity].
  destruct (cmd =? "")%string eqn:E0.
  { apply String.eqb_eq in E0. subst cmd. reflexivity. }
  destruct (cmd =? "quit")%string eqn:Eq.
  { apply String.eqb_eq in Eq. subst cmd. reflexivity. }
  destruct (cmd =? "save")%string eqn:Es.
  { apply String.eqb_eq in Es. subst cmd. unfold save_game.
    now destruct (GameDatabase.save_game_state _ _) as [db' [z|e]]. }
  destruct (builtins.startswith cmd "boost:") eqn:Eb.
  { apply prefix_app in Eb. destruct Eb as [entity_id ->].
    rewrite split_1_boost. cbn [nth_error].
    change ("boost:" ++ entity_id =? "speed_up")%string with false.
    change ("boost:" ++ entity_id =? "speed_down")%string with false.
    now destruct (apply_player_boost _ entity_id 2.0). }
  destruct (cmd =? "speed_up")%string; [reflexivity|].
  destruct (cmd =? "speed_down")%string; [reflexivity|].
  now destruct (cmd =? "reset")%string.
Qed.

(** X15.  The tick rate stays between 0.1 and 5.0 seconds: from a rate in
    that range, no command takes it out.  "speed_up" never raises it: the
    new rate is 0.8 times the old one, or 0.1 when that would be lower or
    equal.  "speed_down" never lowers it: the new rate is 1.25 times the old
    one, or 5.0 when that would be higher or equal. *)
Theorem tick_rate_stays_in_bounds {D : Type} `{Display.t D}
    (game : IdleStuffGame.t D) :
  (0.1 <= tick_rate game)%Q ->
  (tick_rate game <= 5.0)%Q ->
  let cmd := snd (Display.get_input (display game)) in
  let game' := fst (_handle_input game) in
  (0.1 <= tick_rate game')%Q
  /\ (tick_rate game' <= 5.0)%Q
  /\ (cmd = Some "speed_up" ->
      (tick_rate game' <= tick_rate game)%Q
      /\ (if Qlt_bool 0.1 (tick_rate game * 0.8)
          then tick_rate game' = (tick_rate game * 0.8)%Q
          else tick_rate game' = 0.1%Q))
  /\ (cmd = Some "speed_down" ->
      (tick_rate game <= tick_rate game')%Q
      /\ (if Qlt_bool (tick_rate game * 1.25) 5.0
          then tick_rate game' = (tick_rate game * 1.25)%Q
          else tick_rate game' = 5.0%Q)).
Proof.
  intros Hlo Hhi. cbv zeta.
  assert (Hup : (0.1 <= builtins.max 0.1 (tick_rate game * 0.8))%Q
                /\ (builtins.max 0.1 (tick_rate game * 0.8) <= tick_rate game)%Q).
  { unfold builtins.max. destruct (Qlt_bool _ _) eqn:E.
    - apply Qlt_bool_true in E. split; lra.
    - split; lra. }
  assert (Hdown : (tick_rate game <= builtins.min 5.0 (tick_rate game * 1.25))%Q
                  /\ (builtins.min 5.0 (tick_rate game * 1.25) <= 5.0)%Q).
  { unfold builtins.min. destruct (Qlt_bool _ _) eqn:E.
    - apply Qlt_bool_true in E. split; lra.
    - split; lra. }
  rewrite handle_input_rate.
  destruct (snd (Display.get_input (display game))) as [c|];
    [|repeat split; try assumption; discriminate].
  destruct (c =? "speed_up")%string eqn:Eu.
  { apply String.eqb_eq in Eu. subst c.
    split; [apply Hup|]. split; [lra|]. split; [|discriminate].
    intros _. split; [apply Hup|].
    unfold builtins.max. now destruct (Qlt_bool _ _). }
  apply String.eqb_neq in Eu.
  destruct (c =? "speed_down")%string eqn:Ed.
  { apply String.eqb_eq in Ed. subst c.
    split; [lra|]. split; [apply Hdown|]. split; [discriminate|].
    intros _. split; [apply Hdown|].
    unfold builtins.min. now destruct (Qlt_bool _ _). }
  apply String.eqb_neq in Ed.
  repeat split; try assumption; congruence.
Qed.

(** The rate 1.0 of a new controller, and the key "+". *)
Lemma tick_rate_stays_in_bounds_witness :
  let game :=
    IdleStuffGame.mk Scenario.logic (put NCursesDisplay.new (ord "+")) true
      1.0%Q NoMessage in
  (0.1 <= tick_rate (fst (_handle_input game)))%Q
  /\ (tick_rate (fst (_handle_input game)) <= 5.0)%Q
  /\ tick_rate (fst (_handle_input game)) = (1.0 * 0.8)%Q.
Proof.
  cbv zeta.
  pose proof (tick_rate_stays_in_bounds
                (IdleStuffGame.mk Scenario.logic
                   (put NCursesDisplay.new (ord "+")) true 1.0%Q NoMessage))
    as T.
  cbv zeta in T.
  destruct T as (Hlo & Hhi & Hup & _).
  - vm_compute. discriminate.
  - vm_compute. discriminate.
  - split; [exact Hlo|]. split; [exact Hhi|].
    exact (proj2 (Hup eq_refl)).
Defined.






(** X17.  What the program saves when it shuts down is what it loads when
    it starts next.  On every state of a run [_shutdown] returns, and only
    the database of the game changes; a controller started afterwards on the
    database it left, whatever order the rows come back in, takes no draw,
    writes nothing, and begins stopped, at rate 1.0, without message, in a
    state equal to the one at shutdown. *)
Theorem shutdown_then_start_again {D : Type} `{Display.t D}
    (fetch : GameDatabase.Fetch) (game : IdleStuffGame.t D) (display' : D)
    (rnd : RandomModule.t) :
  GameDatabase.fetch_permutes fetch ->
  reachable fetch (state (logic game)) ->
  let db := GameDatabase.save_game_state (state (logic game))
              (database (logic game)) in
  _shutdown game
  = (set_logic game
       (GameLogic.mk (fst db) (state (logic game))
          (auto_save_interval (logic game))),
     Returns)
  /\ exists s',
       IdleStuffGame.init fetch display' (fst db) rnd
       = (IdleStuffGame.mk (GameLogic.mk (fst db) s' 10) display' false 1.0%Q
            NoMessage,
          rnd, Ok tt)
       /\ state_equiv s' (state (logic game)).
Proof.
  intros Hf Hr. cbv zeta.
  pose proof (reachable_well_keyed fetch _ Hf Hr) as Hwk.
  pose proof (well_keyed_persistable _ Hwk) as Hp.
  unfold _shutdown, save_game.
  rewrite (save_game_state_saved _ (database (logic game)) Hp). cbn [fst].
  split; [reflexivity|].
  destruct (load_saved fetch _ (database (logic game)) Hf Hwk)
    as (s' & Hl & He & _).
  exists s'. split; [|exact He].
  unfold IdleStuffGame.init, GameLogic.init.
  rewrite game_exists_saved, Hl. reflexivity.
Qed.

(** A new game is shut down, and started again with the rows coming back
    last first. *)
Lemma shutdown_then_start_again_witness :
  let game :=
    IdleStuffGame.mk
      (GameLogic.mk GameDatabase.empty
         (fst (_initialize_base_game GameState.default Scenario.quiet)) 10)
      (tt : ConsoleDisplay.t) true 1.0%Q NoMessage in
  let db := GameDatabase.save_game_state (state (logic game))
              (database (logic game)) in
  _shutdown game
  = (set_logic game
       (GameLogic.mk (fst db) (state (logic game))
          (auto_save_interval (logic game))),
     Returns)
  /\ exists s',
       IdleStuffGame.init Backwards.fetch (tt : ConsoleDisplay.t) (fst db)
         Scenario.lucky
       = (IdleStuffGame.mk (GameLogic.mk (fst db) s' 10)
            (tt : ConsoleDisplay.t) false 1.0%Q NoMessage,
          Scenario.lucky, Ok tt)
       /\ state_equiv s' (state (logic game)).
Proof.
  cbv zeta.
  apply (shutdown_then_start_again Backwards.fetch
           (IdleStuffGame.mk
              (GameLogic.mk GameDatabase.empty
                 (fst (_initialize_base_game GameState.default Scenario.quiet))
                 10)
              (tt : ConsoleDisplay.t) true 1.0%Q NoMessage)
           (tt : ConsoleDisplay.t) Scenario.lucky).
  - intros A rows. apply Permutation_sym, Permutation_rev.
  - exact (reachable_new Backwards.fetch Scenario.quiet).
Defined.

(** ** The display: windows and event log *)

Import NCursesWindows.

Lemma create_windows_fold (height width : Z) (ls : dict Layout)
    (acc : dict Window) (name : string) :
  dict_wf ls ->
  dict_get
    (fold_left
       (fun (windows : dict Window) (item : string * Layout) =>
          let (name, layout) := item in
          let h := Z.min (layout_height layout) (height - layout_y layout - 1) in
          let w := width - 2 in
          if (0 <? h) && (0 <? w)
          then dict_set windows name (newwin h w (layout_y layout) 1)
          else windows)
       ls acc) name
  = match dict_get ls name with
    | Some layout =>
        let h := Z.min (layout_height layout) (height - layout_y layout - 1) in
        if (0 <? h) && (0 <? width - 2)
        then Some (newwin h (width - 2) (layout_y layout) 1)
        else dict_get acc name
    | None => dict_get acc name
    end.
Proof.
  unfold dict_wf. revert acc.
  induction ls as [|[k l] ls IH]; intros acc Hwf; [reflexivity|].
  cbn [dict_keys map fst] in Hwf. inversion Hwf as [|? ? Hnotin Hwf']; subst.
  cbn [fold_left dict_get]. rewrite (IH _ Hwf'). cbv zeta.
  destruct (String.eqb k name) eqn:E.
  - apply String.eqb_eq in E. subst k.
    apply dict_get_None_not_in in Hnotin. rewrite Hnotin.
    destruct ((0 <? _) && (0 <? _)); [|reflexivity].
    now rewrite dict_get_set, String.eqb_refl.
  - assert (Hacc : forall win,
               dict_get
                 (if (0 <? Z.min (layout_height l) (height - layout_y l - 1))
                       && (0 <? width - 2)
                  then dict_set acc k win else acc) name
               = dict_get acc name).
    { intros win. destruct (_ && _); [|reflexivity].
      now rewrite dict_get_set, E. }
    rewrite Hacc. reflexivity.
Qed.

Lemma layouts_wf : dict_wf layouts /\ dict_wf compact_layouts.
Proof. split; repeat constructor; cbn; intuition discriminate. Qed.

(** The layout a created window comes from. *)
Lemma create_windows_layout (height width : Z) (name : string) (win : Window) :
  dict_get (_create_windows height width) name = Some win ->
  exists layout,
    In (name, layout) (if height <? 35 then compact_layouts else layouts)
    /\ win = newwin (Z.min (layout_height layout) (height - layout_y layout - 1))
                    (width - 2) (layout_y layout) 1
    /\ 0 < Z.min (layout_height layout) (height - layout_y layout - 1)
    /\ 0 < width - 2.
Proof.
  unfold _create_windows. intros Hget.
  rewrite create_windows_fold in Hget
    by (destruct (height <? 35); apply layouts_wf).
  destruct (dict_get _ name) as [layout|] eqn:El; [|discriminate].
  cbv zeta in Hget.
  destruct ((0 <? _) && (0 <? _)) eqn:Ec; [|discriminate].
  apply andb_prop in Ec. destruct Ec as [Eh Ew].
  apply Z.ltb_lt in Eh, Ew. injection Hget as <-.
  exists layout. split; [now apply dict_get_Some_In|]. auto.
Qed.

(** X18.  Every window [_create_windows] asks for lies on the screen: it
    has at least one line and one column, begins in column 1 and leaves the
    last column free, and ends above the last line of the screen.  No two
    windows share a line.  A window is missing exactly when the screen is too
    narrow or too short for its first line; all five are there if and only if
    the screen has at least 24 lines and 3 columns. *)
Theorem windows_lie_on_the_screen (height width : Z) :
  (forall name win,
     dict_get (_create_windows height width) name = Some win ->
     0 < nlines win /\ 0 < ncols win
     /\ 0 <= begin_y win /\ begin_y win + nlines win <= height - 1
     /\ begin_x win = 1 /\ begin_x win + ncols win = width - 1)
  /\ (forall name1 win1 name2 win2,
        dict_get (_create_windows height width) name1 = Some win1 ->
        dict_get (_create_windows height width) name2 = Some win2 ->
        name1 <> name2 ->
        begin_y win1 + nlines win1 <= begin_y win2
        \/ begin_y win2 + nlines win2 <= begin_y win1)
  /\ (dict_keys (_create_windows height width)
      = ["header"; "resources"; "entities"; "events"; "controls"]
      <-> 24 <= height /\ 3 <= width).
Proof.
  split; [|split].
  - intros name win Hget.
    destruct (create_windows_layout _ _ _ _ Hget) as (l & Hin & -> & Hh & Hw).
    cbn [nlines ncols begin_y begin_x].
    destruct (height <? 35); cbn [In layouts compact_layouts] in Hin;
      repeat (destruct Hin as [Hin|Hin]; [injection Hin as <- <-|]);
      try contradiction; cbn [layout_y layout_height] in *; lia.
  - intros name1 win1 name2 win2 H1 H2 Hne.
    destruct (create_windows_layout _ _ _ _ H1) as (l1 & Hin1 & -> & Hh1 & _).
    destruct (create_windows_layout _ _ _ _ H2) as (l2 & Hin2 & -> & Hh2 & _).
    cbn [nlines ncols begin_y begin_x].
    destruct (height <? 35); cbn [In layouts compact_layouts] in Hin1, Hin2;
      repeat (destruct Hin1 as [Hin1|Hin1]; [injection Hin1 as <- <-|]);
      try contradiction;
      repeat (destruct Hin2 as [Hin2|Hin2]; [injection Hin2 as <- <-|]);
      try contradiction; try congruence;
      cbn [layout_y layout_height] in *; lia.
  - unfold _create_windows.
    destruct (height <? 35) eqn:E35;
      [apply Z.ltb_lt in E35|apply Z.ltb_ge in E35];
      cbn [fold_left layouts compact_layouts layout_y layout_height];
      cbv zeta;
      (destruct (0 <? width - 2) eqn:Ew;
         [apply Z.ltb_lt in Ew; rewrite !andb_true_r
         |apply Z.ltb_ge in Ew; rewrite !andb_false_r;
          split; [discriminate|lia]]);
      repeat match goal with
             | |- context [0 <? Z.min ?a ?b] =>
                 let E := fresh "E" in
                 destruct (0 <? Z.min a b) eqn:E;
                 [apply Z.ltb_lt in E|apply Z.ltb_ge in E]
             end;
      try lia;
      (split;
         [intros Hk; try (exfalso; cbv in Hk; discriminate Hk); lia
         |intros [? ?]; try lia; reflexivity]).
Qed.


Lemma lastn_length {A} (n : nat) (l : list A) :
  List.length (lastn n l) = Nat.min n (List.length l).
Proof. unfold lastn. rewrite length_skipn. lia. Qed.





Lemma draw_rows_spec (win_height row : Z) (events : list string) :
  row + Z.of_nat (List.length events) <= win_height - 1 ->
  draw_rows win_height row events
  = combine (map (fun i => row + Z.of_nat i) (seq 0 (List.length events)))
            events.
Proof.
  revert row. induction events as [|event events IH]; intros row Hfit;
    [reflexivity|].
  cbn [List.length] in Hfit. cbn [draw_rows List.length seq map combine].
  destruct (win_height - 1 <=? row) eqn:E; [apply Z.leb_le in E; lia|].
  rewrite Z.add_0_r. f_equal. rewrite IH by lia.
  rewrite <- seq_shift, map_map. f_equal. apply map_ext. intros i. lia.
Qed.

(** X20.  The events window shows the most recent lines of the log, oldest
    first, one per row from row 2 down: as many as fit between the title and
    the bottom border, that is the last [win_height - 3] lines of the log, or
    the whole log when it is shorter.  In a window of three lines or fewer
    nothing is written, although the slice taken then is the whole log or its
    end.  No line is ever written on the border rows. *)
Theorem events_window_shows_the_most_recent (win_height : Z)
    (event_log : list string) :
  (win_height <= 3 -> displayed_events win_height event_log = [])
  /\ (3 < win_height ->
      displayed_events win_height event_log
      = combine
          (map (fun i => 2 + Z.of_nat i)
               (seq 0 (Nat.min (Z.to_nat (win_height - 3))
                               (List.length event_log))))
          (lastn (Z.to_nat (win_height - 3)) event_log))
  /\ Forall (fun line => 2 <= fst line <= win_height - 2)
            (displayed_events win_height event_log).
Proof.
  assert (Hsmall : win_height <= 3 -> displayed_events win_height event_log = []).
  { intros Hh. unfold displayed_events. cbv zeta.
    destruct (slice_from event_log _) as [|event rest]; [reflexivity|].
    cbn [draw_rows]. destruct (win_height - 1 <=? 2) eqn:E; [reflexivity|].
    apply Z.leb_gt in E. lia. }
  assert (Hslice : 3 < win_height ->
                   slice_from event_log (- (win_height - 3))
                   = lastn (Z.to_nat (win_height - 3)) event_log).
  { intros Hh. unfold slice_from, lastn. cbv zeta.
    destruct (- (win_height - 3) <? 0) eqn:E; [|apply Z.ltb_ge in E; lia].
    f_equal. lia. }
  assert (Hbig : 3 < win_height ->
                 displayed_events win_height event_log
                 = combine
                     (map (fun i => 2 + Z.of_nat i)
                          (seq 0 (Nat.min (Z.to_nat (win_height - 3))
                                          (List.length event_log))))
                     (lastn (Z.to_nat (win_height - 3)) event_log)).
  { intros Hh. unfold displayed_events. cbv zeta. rewrite (Hslice Hh).
    rewrite draw_rows_spec by (rewrite lastn_length; lia).
    now rewrite lastn_length. }
  split; [exact Hsmall|]. split; [exact Hbig|].
  destruct (Z_le_gt_dec win_height 3) as [Hh|Hh].
  - rewrite (Hsmall Hh). constructor.
  - rewrite Hbig by lia. apply Forall_forall. intros [row event] Hin.
    apply in_combine_l in Hin. apply in_map_iff in Hin.
    destruct Hin as (i & <- & Hi). apply in_seq in Hi. cbn [fst]. lia.
Qed.
